(** * The ad-funnel widget of adshare-modal.js, embedded in Rocq

    This development covers the site-specific widget at the end of
    [adshare-modal.js] (the closure [(function(wnd) { ... })(window)]):
    the configuration resolver, the localisation helpers, the countdown,
    the presentation hosts, the display functions, [closePopup] and the
    top-level dispatcher [displayAd].  The vendored libraries are
    modelled only through the calls the widget makes to them; the
    lifecycle of the modal library (lazy DOM construction, [show],
    [close], the three hooks) follows its source at the top of the file.

    Modelling conventions.
    - JavaScript values are the inductive [JsValue].  A number is an
      integer ([JNum]), NaN ([JNaN]), or a binary64 value that is no
      integer ([JDouble]: a value with a fractional part, or an
      infinity); the two zeros are the integer 0, which no operation of
      the widget tells apart.  Strings convert to numbers as the
      language defines it, with rounding to the nearest double.
      Arithmetic on integers is exact: the code agrees with it as long
      as the integers stay within 2^53 in magnitude, as a duration in
      seconds and a clock in milliseconds do.
    - A string is a sequence of code units below 256.
    - The objects that hold options ([options], [window.funnelmecfg],
      [moduleOptions]) and the message tables are plain objects: finite
      maps of their own properties that inherit from [Object.prototype]
      as the language defines it.  Other objects are opaque ([JObj]) and
      have no [toString] or [valueOf] of their own; arrays are outside
      the model.
    - Module-level variables and the parts of the browser the widget
      reads or writes (clock, timer queue, the document) are fields of
      one record [State]; every function is a state transformer that
      either completes normally or throws, keeping the state reached at
      the throw, as JavaScript does.
    - HTML fragments are kept symbolic ([Html]): the variant that built
      the fragment and the header it was given. *)

From Stdlib Require Import ZArith String Ascii List Bool Lia.
From Stdlib Require Import Floats.SpecFloat.
From stdpp Require Import base option gmap strings list.

Open Scope string_scope.
Open Scope Z_scope.

(** ** JavaScript values and the operators the widget uses *)

(** What calling a function value does: the widget only ever calls the
    [afterClose] callback, and nothing depends on more than whether that
    call returns or throws. *)
Inductive Callee := ReturnsNormally | Raises.

#[global] Instance spec_float_eq_dec : EqDecision spec_float.
Proof. solve_decision. Defined.

Inductive JsValue :=
| JUndefined
| JNull
| JBool (b : bool)
| JNum (z : Z)
| JNaN
| JStr (s : string)
| JFun (c : Callee)
| JObj
| JDouble (f : spec_float).

#[global] Instance Callee_eq_dec : EqDecision Callee.
Proof. solve_decision. Defined.

#[global] Instance JsValue_eq_dec : EqDecision JsValue.
Proof. solve_decision. Defined.

(** *** Numbers *)

(** The view of a number the operators work on: NaN, an integer, or a
    double that is no integer (with a fractional part, or infinite). *)
Inductive Number :=
| NaN
| Integer (z : Z)
| NonInteger (f : spec_float).

(** Rounding to the nearest binary64 value, ties to even. *)
Definition binary64 (negative : bool) (m : positive) (e : Z) : spec_float :=
  binary_round 53 1024 negative m e.

(** The number a double is; the two zeros are the integer 0. *)
Definition ofDouble (f : spec_float) : Number :=
  match f with
  | S754_nan => NaN
  | S754_zero _ => Integer 0
  | S754_infinity s => NonInteger (S754_infinity s)
  | S754_finite s m e =>
      match binary64 s m e with
      | S754_finite s' m' e' =>
          let sign := if s' then -1 else 1 in
          if 0 <=? e' then Integer (sign * (Z.pos m' * 2 ^ e'))
          else if Z.pos m' mod 2 ^ (- e') =? 0
               then Integer (sign * (Z.pos m' / 2 ^ (- e')))
               else NonInteger (S754_finite s' m' e')
      | S754_infinity s' => NonInteger (S754_infinity s')
      | S754_zero _ => Integer 0
      | S754_nan => NaN
      end
  end.

Definition toDouble (n : Number) : spec_float :=
  match n with
  | NaN => S754_nan
  | Integer z => binary_normalize 53 1024 z 0 false
  | NonInteger f => f
  end.

(** The double nearest to [digits * 10 ^ exponent]. *)
Definition decimalToDouble (negative : bool) (digits exponent : Z) : spec_float :=
  match digits with
  | Z.pos m =>
      if 0 <=? exponent then binary64 negative (m * Z.to_pos (10 ^ exponent)) 0
      else
        let '(q, e, l) :=
          SFdiv_core_binary 53 1024 (Z.pos m) 0 (10 ^ (- exponent)) 0 in
        binary_round_aux 53 1024 negative q e l
  | _ => S754_zero negative
  end.

(** StrWhiteSpaceChar, among the code units below 256: tab, line feed,
    vertical tab, form feed, carriage return, space, no-break space. *)
Definition isStrWhiteSpaceChar (c : ascii) : bool :=
  existsb (Nat.eqb (nat_of_ascii c)) [9; 10; 11; 12; 13; 32; 160]%nat.

Fixpoint trimStart (s : string) : string :=
  match s with
  | String c rest => if isStrWhiteSpaceChar c then trimStart rest else s
  | EmptyString => s
  end.

Fixpoint trimEnd (s : string) : string :=
  match s with
  | String c rest =>
      let r := trimEnd rest in
      if isStrWhiteSpaceChar c && String.eqb r "" then "" else String c r
  | EmptyString => s
  end.

Definition digitValue (base : Z) (c : ascii) : option Z :=
  let n := Z.of_nat (nat_of_ascii c) in
  let d := if (48 <=? n) && (n <=? 57) then n - 48
           else if (97 <=? n) && (n <=? 102) then n - 87
           else if (65 <=? n) && (n <=? 70) then n - 55
           else 16 in
  if d <? base then Some d else None.

(** Reads the longest run of digits at the start of [s]: the value of
    [acc] followed by these digits, [count] plus their number, and what
    follows them. *)
Fixpoint readDigits (base acc count : Z) (s : string) : Z * Z * string :=
  match s with
  | String c rest =>
      match digitValue base c with
      | Some d => readDigits base (base * acc + d) (count + 1) rest
      | None => (acc, count, s)
      end
  | EmptyString => (acc, count, s)
  end.

(** ExponentPart, when [s] is nothing else. *)
Definition exponentPart (s : string) : option Z :=
  match s with
  | String c rest =>
      if Ascii.eqb c "e" || Ascii.eqb c "E" then
        let '(negative, digits) :=
          match rest with
          | String "+" r => (false, r)
          | String "-" r => (true, r)
          | _ => (false, rest)
          end in
        let '(x, n, s') := readDigits 10 0 0 digits in
        if (n =? 0) || negb (String.eqb s' "") then None
        else Some (if negative then - x else x)
      else None
  | EmptyString => Some 0
  end.

(** StrUnsignedDecimalLiteral other than Infinity: digits with an
    optional fraction and an optional exponent, at least one digit
    before the exponent.  The result is the pair of [digits] and
    [exponent] whose value is [digits * 10 ^ exponent]. *)
Definition strUnsignedDecimalLiteral (s : string) : option (Z * Z) :=
  let '(i, ni, s1) := readDigits 10 0 0 s in
  let '(m, nf, s2) :=
    match s1 with
    | String "." rest => readDigits 10 i 0 rest
    | _ => (i, 0, s1)
    end in
  if ni + nf =? 0 then None
  else match exponentPart s2 with
       | Some x => Some (m, x - nf)
       | None => None
       end.

(** StrDecimalLiteral: an optional sign, then Infinity or an unsigned
    decimal literal. *)
Definition strDecimalLiteral (s : string) : option spec_float :=
  let '(negative, u) :=
    match s with
    | String "+" r => (false, r)
    | String "-" r => (true, r)
    | _ => (false, s)
    end in
  if String.eqb u "Infinity" then Some (S754_infinity negative)
  else match strUnsignedDecimalLiteral u with
       | Some (m, e) => Some (decimalToDouble negative m e)
       | None => None
       end.

(** NonDecimalIntegerLiteral: 0x, 0o or 0b (in either case) and at least
    one digit of that base, without a sign. *)
Definition nonDecimalIntegerLiteral (s : string) : option Z :=
  match s with
  | String "0" (String p rest) =>
      let base := if Ascii.eqb p "x" || Ascii.eqb p "X" then 16
                  else if Ascii.eqb p "o" || Ascii.eqb p "O" then 8
                  else if Ascii.eqb p "b" || Ascii.eqb p "B" then 2
                  else 0 in
      let '(v, n, s') := readDigits base 0 0 rest in
      if (base =? 0) || (n =? 0) || negb (String.eqb s' "") then None else Some v
  | _ => None
  end.

(** StringToNumber: white space is trimmed at both ends; the empty
    string is 0; a numeric literal is the double nearest to its value;
    anything else is NaN. *)
Definition stringToNumber (s : string) : Number :=
  let t := trimEnd (trimStart s) in
  if String.eqb t "" then Integer 0
  else match nonDecimalIntegerLiteral t with
       | Some v => ofDouble (binary_normalize 53 1024 v 0 false)
       | None =>
           match strDecimalLiteral t with
           | Some f => ofDouble f
           | None => NaN
           end
       end.

(** ToNumber.  An opaque object converts through its string
    "[object Object]", a function through its source text: both NaN. *)
Definition numberValue (v : JsValue) : Number :=
  match v with
  | JUndefined | JNaN | JFun _ | JObj => NaN
  | JNull => Integer 0
  | JBool b => Integer (if b then 1 else 0)
  | JNum z => Integer z
  | JDouble f => ofDouble f
  | JStr s => stringToNumber s
  end.


Definition ofNumber (n : Number) : JsValue :=
  match n with
  | NaN => JNaN
  | Integer z => JNum z
  | NonInteger f => JDouble f
  end.

(** [a - b].  Integers are subtracted exactly, which is what the code
    computes as long as the integers stay within 2^53 in magnitude;
    with a number that is no integer on either side the difference is
    rounded as the code rounds it. *)
Definition subNumber (a b : Number) : Number :=
  match a, b with
  | Integer x, Integer y => Integer (x - y)
  | _, _ => ofDouble (SFsub 53 1024 (toDouble a) (toDouble b))
  end.

(** [a == b] on numbers. *)
Definition eqNumber (a b : Number) : bool :=
  match a, b with
  | Integer x, Integer y => x =? y
  | NonInteger f, NonInteger g => SFeqb f g
  | _, _ => false
  end.

(** ToBoolean *)
Definition truthy (v : JsValue) : bool :=
  match v with
  | JUndefined | JNull | JNaN => false
  | JBool b => b
  | JNum z => negb (z =? 0)
  | JDouble f =>
      match ofDouble f with
      | NaN => false
      | Integer z => negb (z =? 0)
      | NonInteger _ => true
      end
  | JStr s => negb (String.eqb s "")
  | JFun _ | JObj => true
  end.

(** [a || b] *)
Definition jsOr (a b : JsValue) : JsValue := if truthy a then a else b.

(** [typeof v == "string"] *)
Definition isString (v : JsValue) : bool :=
  match v with JStr _ => true | _ => false end.

(** [v <= 0] and [v > 0] with a number on the right: the left side goes
    through ToNumber and a NaN makes the comparison false. *)
Definition leZero (v : JsValue) : bool :=
  match numberValue v with
  | NaN => false
  | Integer z => z <=? 0
  | NonInteger f => SFleb f (S754_zero false)
  end.

Definition gtZero (v : JsValue) : bool :=
  match numberValue v with
  | NaN => false
  | Integer z => 0 <? z
  | NonInteger f => SFltb (S754_zero false) f
  end.

(** [v == "lit"] for a string literal [lit].  A number or a boolean is
    compared with the number the literal converts to; an opaque object
    with its string "[object Object]"; the source text of a function is
    none of the literals the widget compares with. *)
Definition looseEqStr (v : JsValue) (lit : string) : bool :=
  match v with
  | JStr s => String.eqb s lit
  | JNum _ | JDouble _ | JBool _ | JNaN => eqNumber (numberValue v) (stringToNumber lit)
  | JObj => String.eqb "[object Object]" lit
  | JUndefined | JNull | JFun _ => false
  end.

(** [v == true] *)
Definition looseEqTrue (v : JsValue) : bool :=
  match v with
  | JBool b => b
  | JNum _ | JDouble _ | JNaN | JStr _ => eqNumber (numberValue v) (Integer 1)
  | JUndefined | JNull | JFun _ | JObj => false
  end.

(** *** Plain objects *)

(** What a plain object inherits from [Object.prototype]: the standard
    methods, of which the two [__define...__] throw when called without
    a function to install, and [__proto__], which is the prototype
    itself. *)
Definition objectPrototype (name : string) : JsValue :=
  if existsb (String.eqb name)
       [ "constructor"; "hasOwnProperty"; "isPrototypeOf"; "propertyIsEnumerable";
         "toLocaleString"; "toString"; "valueOf";
         "__lookupGetter__"; "__lookupSetter__" ]
  then JFun ReturnsNormally
  else if existsb (String.eqb name) [ "__defineGetter__"; "__defineSetter__" ]
  then JFun Raises
  else if String.eqb name "__proto__" then JObj
  else JUndefined.

(** Property read [o[name]] on a plain object: its own properties are a
    finite map, the others come from [Object.prototype]. *)
Definition getProp (o : gmap string JsValue) (name : string) : JsValue :=
  match o !! name with
  | Some v => v
  | None => objectPrototype name
  end.

(** ** Configuration *)

Record PlayerOptions := { videoPath : JsValue }.

Record Ima := {
  ima_id : JsValue;
  ima_adTagUrl : JsValue;
  ima_debug : JsValue;
  ima_locale : JsValue;
  ima_vpaidMode : JsValue
}.

(** [moduleOptions]: the top-level scalar properties as a map, the two
    nested objects as records ([None]: the property is missing, as in
    the initial [var moduleOptions = {}]). *)
Record ModuleOptions := {
  top : gmap string JsValue;
  playerOptions : option PlayerOptions;
  ima : option Ima
}.

Definition emptyOptions : ModuleOptions :=
  {| top := ∅; playerOptions := None; ima := None |}.

Definition defaultOptions : ModuleOptions :=
  {| top :=
       <["locale" := JNull]>
       (<["afterClose" := JNull]>
       (<["closeModalAutomatically" := JBool false]>
       (<["countdownDuration" := JNum 30]>
       (<["timeout" := JNum 0]>
       (<["videoAdTimeout" := JNum 7000]>
       (<["bannerContentUnitId" := JNum 3510730]>
       (<["content" := JStr "smart"]>
       (<["header" := JStr "default"]>
       (<["integration" := JStr "modal"]>
       (<["position" := JStr "freedownload"]>
       (<["assetPath" := JStr "./lib/"]>
       (<["iframeUrl" := JStr "http://www.neuestens.de/recommendations/videoembed.html"]>
       (<["adTagUrl" := JStr "http://adfarm1.adition.com/banner?sid=3508808&wpt=X"]>
       (<["fallBackAdTagUrl" := JStr "http://adfarm1.adition.com/banner?sid=3552599&wpt=X"]>
       (<["premiumButtonUrl" := JStr "http://uploaded.net/register"]>
       (<["debug" := JBool false]>
       (<["download" := JBool true]>
       (<["e404" := JBool false]> ∅))))))))))))))))));
     playerOptions := Some {| videoPath := JStr "./vids/" |};
     ima := Some {| ima_id := JStr "adshare-videoad";
                    ima_adTagUrl := JStr "http://adfarm1.adition.com/banner?sid=3508808&wpt=X";
                    ima_debug := JBool false;
                    ima_locale := JStr "en";
                    ima_vpaidMode := JStr "insecure" |} |}.

(** [moduleOptions[name]] *)
Definition moGet (m : ModuleOptions) (name : string) : JsValue :=
  if String.eqb name "playerOptions" then
    match playerOptions m with Some _ => JObj | None => JUndefined end
  else if String.eqb name "ima" then
    match ima m with Some _ => JObj | None => JUndefined end
  else getProp (top m) name.

Definition moSet (m : ModuleOptions) (name : string) (v : JsValue) : ModuleOptions :=
  {| top := <[name := v]> (top m); playerOptions := playerOptions m; ima := ima m |}.

(** [window.sessionStorage]: missing (the property is falsy), guarded by
    the browser (touching it throws), or a store of string items. *)
Inductive SessionStorage :=
| StorageMissing
| StorageThrows
| StorageItems (items : gmap string string).

(** The argument of [applyOptions]: a falsy value or an object.  (A
    truthy primitive has none of the recognised properties and behaves
    as the empty object.) *)
Inductive Opts :=
| NoOpts
| OptsObject (o : gmap string JsValue).

(** What the resolver reads and writes: [window.sessionStorage],
    [window.funnelmecfg] ([None] when the page did not define it), and
    the module-level [options] and [moduleOptions]. *)
Record Config := {
  sessionStorage : SessionStorage;
  funnelmecfg : option (gmap string JsValue);
  options : Opts;
  moduleOptions : ModuleOptions
}.

Definition getSessionStorageOverride (st : SessionStorage) (attributeName : string) : JsValue :=
  match st with
  | StorageMissing => JUndefined
  | StorageThrows => JNull
  | StorageItems items =>
      match items !! attributeName with
      | Some s => JStr s
      | None => JNull
      end
  end.

Definition optsObject (o : Opts) : gmap string JsValue :=
  match o with NoOpts => ∅ | OptsObject m => m end.

(** [determineOptionValue]: the two normalising assignments, then the
    chain of [||]. *)
Definition determineOptionValue (name : string) (c : Config) : JsValue * Config :=
  let opts := optsObject (options c) in
  let cfg := default ∅ (funnelmecfg c) in
  let c' := {| sessionStorage := sessionStorage c;
               funnelmecfg := Some cfg;
               options := OptsObject opts;
               moduleOptions := moduleOptions c |} in
  (jsOr (jsOr (jsOr (getSessionStorageOverride (sessionStorage c) name)
                    (getProp cfg name))
              (getProp opts name))
        (moGet (moduleOptions c) name),
   c').

(** Where [applyOptions] stores a resolved value. *)
Inductive Target :=
| TopLevel (key : string)
| VideoPath.

#[global] Instance Target_eq_dec : EqDecision Target.
Proof. solve_decision. Defined.

(** The assignments [moduleOptions.<target> = determineOptionValue(<name>)]
    of [applyOptions], in source order. *)
Definition resolvedOptions : list (Target * string) :=
  [ (TopLevel "adTagUrl", "adTagUrl");
    (TopLevel "fallBackAdTagUrl", "fallBackAdTagUrl");
    (TopLevel "position", "position");
    (TopLevel "integration", "integration");
    (TopLevel "header", "header");
    (TopLevel "content", "content");
    (TopLevel "countdownDuration", "countdownDuration");
    (TopLevel "premiumButtonUrl", "premiumButtonUrl");
    (VideoPath, "videoPath");
    (TopLevel "bannerContentUnitId", "bannerContentUnitId");
    (TopLevel "afterClose", "afterClose");
    (TopLevel "closeModalAutomatically", "closeModalAutomatically");
    (TopLevel "iframeUrl", "iframeUrl");
    (TopLevel "timeout", "timeout");
    (TopLevel "videoAdTimeout", "videoAdTimeout");
    (TopLevel "assetPath", "assetPath");
    (TopLevel "download", "download");
    (TopLevel "locale", "locale");
    (TopLevel "debug", "debug");
    (TopLevel "e404", "e404") ].

Definition withModuleOptions (c : Config) (m : ModuleOptions) : Config :=
  {| sessionStorage := sessionStorage c; funnelmecfg := funnelmecfg c;
     options := options c; moduleOptions := m |}.

Definition store (t : Target) (v : JsValue) (m : ModuleOptions) : ModuleOptions :=
  match t with
  | TopLevel key => moSet m key v
  | VideoPath =>
      {| top := top m;
         playerOptions := (fun _ => {| videoPath := v |}) <$> playerOptions m;
         ima := ima m |}
  end.

Definition resolveInto (c : Config) (a : Target * string) : Config :=
  let '(v, c') := determineOptionValue (snd a) c in
  withModuleOptions c' (store (fst a) v (moduleOptions c')).

(** [x == "true" ? true : false] applied when [typeof x == "string"]. *)
Definition normalizeBoolean (v : JsValue) : JsValue :=
  match v with
  | JStr s => JBool (String.eqb s "true")
  | _ => v
  end.

Definition setIma (m : ModuleOptions) (f : Ima -> Ima) : ModuleOptions :=
  {| top := top m; playerOptions := playerOptions m; ima := f <$> ima m |}.

Definition setImaDebug (v : JsValue) (i : Ima) : Ima :=
  {| ima_id := ima_id i; ima_adTagUrl := ima_adTagUrl i; ima_debug := v;
     ima_locale := ima_locale i; ima_vpaidMode := ima_vpaidMode i |}.

Definition setImaAdTagUrl (v : JsValue) (i : Ima) : Ima :=
  {| ima_id := ima_id i; ima_adTagUrl := v; ima_debug := ima_debug i;
     ima_locale := ima_locale i; ima_vpaidMode := ima_vpaidMode i |}.

Definition imaField (f : Ima -> JsValue) (m : ModuleOptions) : JsValue :=
  match ima m with Some i => f i | None => JUndefined end.

(** The statements of [applyOptions] after the resolution block. *)
Definition postprocess (c : Config) : Config :=
  let m0 := moduleOptions c in
  let m1 := if leZero (moGet m0 "countdownDuration")
            then moSet m0 "closeModalAutomatically" (JBool false) else m0 in
  let m2 := moSet m1 "closeModalAutomatically"
              (normalizeBoolean (moGet m1 "closeModalAutomatically")) in
  let m3 := setIma m2 (fun i => setImaDebug (normalizeBoolean (ima_debug i)) i) in
  let m4 := moSet m3 "download" (normalizeBoolean (moGet m3 "download")) in
  let m5 := setIma m4 (setImaDebug (moGet m4 "debug")) in
  let m6 := setIma m5 (setImaAdTagUrl (moGet m5 "adTagUrl")) in
  let m7 := setIma m6 (setImaDebug (moGet m6 "debug")) in
  let m8 := setIma m7 (setImaAdTagUrl
              (jsOr (jsOr (getSessionStorageOverride (sessionStorage c) "vastEndPoint")
                          (getProp (optsObject (options c)) "vastEndPoint"))
                    (imaField ima_adTagUrl m7))) in
  withModuleOptions c m8.

(** The configuration after the first two statements of [applyOptions]:
    [options = opts] and the deep copy of the defaults. *)
Definition resolving (c : Config) (opts : Opts) : Config :=
  {| sessionStorage := sessionStorage c; funnelmecfg := funnelmecfg c;
     options := opts; moduleOptions := defaultOptions |}.

(** [applyOptions(opts)] run in the configuration [c]. *)
Definition applyOptions (opts : Opts) (c : Config) : Config :=
  match opts with
  | NoOpts => resolving c opts
  | OptsObject _ => postprocess (fold_left resolveInto resolvedOptions (resolving c opts))
  end.

(** ** Localisation *)

(** What a lookup in the [messages] tables gives, kept symbolic:
    [Literal l k] is the string literal the source has under
    [messages[l][k]], [Substituted t i v] is [replaceAll(t, '{i}', v)],
    and [Builtin name] is no text but the member [name] a table inherits
    from [Object.prototype]. *)
Inductive Text :=
| Literal (locale key : string)
| Substituted (t : Text) (index : nat) (replacement : JsValue)
| Builtin (name : string).

Definition locales : list string := ["de"; "en"; "es"; "fr"; "tr"].

Definition messageKeys : list string :=
  [ "premium_button_title"; "premium_button_text"; "countdown_text";
    "premium_benefits"; "countdown_only"; "countdown_no_file";
    "countdown_downloading"; "download_ready"; "subtitle_1"; "subtitle_2" ].

(** The own properties of [messages[l]]. *)
Definition localeTable (l : string) : gmap string Text :=
  list_to_map ((fun k => (k, Literal l k)) <$> messageKeys).

Definition messages : gmap string (gmap string Text) :=
  list_to_map ((fun l => (l, localeTable l)) <$> locales).

Definition isValidLocale (locale : JsValue) : bool :=
  looseEqStr locale "de" || looseEqStr locale "en" || looseEqStr locale "fr"
  || looseEqStr locale "es" || looseEqStr locale "tr".

(** [getBrowserLanguage], given the string
    [navigator.language || navigator.userLanguage]. *)
Definition getBrowserLanguage (lang : string) : string :=
  if (2 <? String.length lang)%nat then String.substring 0 2 lang else lang.

Definition getLanguage (locale : JsValue) (lang : string) : JsValue :=
  if isValidLocale locale then locale
  else if isValidLocale (JStr (getBrowserLanguage lang))
       then JStr (getBrowserLanguage lang)
       else JStr "en".

(** ToString of a value used as a property key; only the cases the
    lookups of this file can meet are spelled out. *)
Definition propertyKey (v : JsValue) : string :=
  match v with
  | JStr s => s
  | JUndefined => "undefined"
  | JNull => "null"
  | JBool true => "true"
  | JBool false => "false"
  | JNaN => "NaN"
  | JNum _ | JDouble _ | JFun _ | JObj => "[value]"
  end.

Inductive Exn := TypeError | OutOfFuel.

Inductive Outcome (A : Type) :=
| Normal (a : A)
| Throws (e : Exn).
Arguments Normal {A} a.
Arguments Throws {A} e.

Fixpoint substitute (t : Text) (i : nat) (params : list JsValue) : Text :=
  match params with
  | [] => t
  | p :: rest => substitute (Substituted t i p) (S i) rest
  end.

(** [table[msg]] for a table of [messages]: [None] is [undefined]. *)
Definition message (table : gmap string Text) (msg : string) : option Text :=
  match table !! msg with
  | Some t => Some t
  | None =>
      match objectPrototype msg with
      | JUndefined => None
      | _ => Some (Builtin msg)
      end
  end.

(** [i18n(msg, params)]: reading [messages[getLanguage()][msg]] throws
    when the locale has no table, which [getLanguage] rules out;
    [replaceAll] throws when there is a parameter to substitute and the
    message is [undefined] or an inherited member, neither of which has
    a method [replace]. *)
Definition i18n (locale : JsValue) (lang : string) (msg : string)
    (params : list JsValue) : Outcome (option Text) :=
  match messages !! propertyKey (getLanguage locale lang) with
  | None => Throws TypeError
  | Some table =>
      match message table msg, params with
      | None, [] => Normal None
      | None, _ :: _ => Throws TypeError
      | Some (Builtin name), [] => Normal (Some (Builtin name))
      | Some (Builtin _), _ :: _ => Throws TypeError
      | Some t, _ => Normal (Some (substitute t 0 params))
      end
  end.

(** ** HTML fragments *)

Inductive CountdownText :=
| NoFileText            (* 'Oops! We couldn't find what you are looking for ...' *)
| DownloadingText       (* 'Your file is downloading now!' *)
| CountdownPremiumText  (* i18n('countdown_text') + i18n('premium_benefits', ...) *)
| CountdownOnlyText.    (* i18n('countdown_only') *)

Inductive ButtonStyle := RoundButton | BigButton | DefaultButton.

(** The header section: [langEdit] says whether the ids carry the
    suffix DE. *)
Record Header := {
  langEdit : bool;
  countdownText : CountdownText;
  button : ButtonStyle
}.

Inductive Fragment :=
| BannerElement
| ContentAdIframe
| ContentAdIframeV2 (assetPath : JsValue)
| ContentAdFunnelIframe
| ContentAdFunnel404Iframe
| ContentIframe (src : JsValue)
| Content404Iframe
| TaboolaIframe
| VideoElement (path : JsValue)
| VideoBanner.

Record Html := { header : option Header; fragment : Fragment }.

(** Whether the fragment carries an element with the given id, for the
    ids the widget looks up after inserting the fragment. *)
Definition fragmentHasId (f : Fragment) (id : string) : bool :=
  match f with
  | BannerElement =>
      String.eqb id "adshare-countdown" || String.eqb id "adshare-banner-iframe"
  | VideoElement _ => String.eqb id "adshare-videoad"
  | VideoBanner => false
  | _ => String.eqb id "adshare-banner-iframe"
  end.

Definition headerHasId (h : Header) (id : string) : bool :=
  String.eqb id (if langEdit h then "headlineDE" else "headline")
  || (String.eqb id "countdownCounter"
      && match countdownText h with
         | CountdownPremiumText | CountdownOnlyText => true
         | _ => false
         end).

Definition htmlHasId (h : Html) (id : string) : bool :=
  fragmentHasId (fragment h) id
  || match header h with Some hd => headerHasId hd id | None => false end.

(** The two iframe fragments that end in one [</div>] more than they
    open: inside a fake content box that end tag closes the wrapper, so
    the close button of the box is parsed as a sibling of the wrapper
    instead of its last child. *)
Definition closesWrapper (f : Fragment) : bool :=
  match f with
  | ContentIframe _ | Content404Iframe => true
  | _ => false
  end.

(** ** The state of the widget and of the page *)

(** A handle of the modal library: whether [build] has run, and the
    (wrapped) content it was created with. *)
Record Modal := { built : bool; content : Html }.

(** A fake content box made by [createContainer] or [create404Container].
    [attached]: still a child of the node it was appended to.
    [boxButton]: its close button still exists; [buttonInWrapper]: that
    button is a child of the wrapper, so assigning the wrapper's
    [innerHTML] destroys it. *)
Record Box := {
  box404 : bool;
  attached : bool;
  boxContent : Html;
  buttonInWrapper : bool;
  boxButton : bool
}.

(** The part of the document the widget reads or changes.
    [marker404]: the value of
    [document.getElementById('content').children[2].classList.contains('aC')],
    [None] when evaluating it throws.
    [pageIds]: ids of elements of the page itself.
    [picoNodes]: the [.pico-content] nodes in document order, each with
    the content of the wrapper [#adshare-modal-content] it holds ([None]
    for a dialog of the page's own).
    [boxes]: the fake content boxes in document order; they precede the
    dialog nodes, which the modal library appends to the end of the body.
    [videoElementPlayer]: the player attached to the element that
    [getElementById("adshare-videoad")] finds. *)
Record Document := {
  marker404 : option bool;
  hasContentBoxContainer : bool;
  hasDownload : bool;
  hasSecondAC : bool;
  pageIds : list string;
  pageCloseButton : bool;
  picoNodes : list (option Html);
  boxes : list Box;
  videoElementPlayer : option nat
}.

Inductive Callback :=
| CountdownTimer
| WriteBannerIFrameHtml
| WriteContentAdIframeHtml
| WriteTaloobaIFrameHtml
| WriteTalooba2ndCallIFrameHtml
| SetupVideo
| ResetEnded
| RetryVideoAd
| SmartContentIframe
| Mix1ContentAd
| Mix2ContentAdFunnel
| DisplayAd.

#[global] Instance Callback_eq_dec : EqDecision Callback.
Proof. solve_decision. Defined.

Record Timer := { delay : JsValue; callback : Callback }.

Record State := {
  config : Config;
  error404 : bool;
  modal : option Modal;
  container : option nat;
  player : option nat;
  playerInitialized : bool;
  adsharecountdownstart : option Z;
  startedVideoAd : bool;
  displaysFallbackAd : bool;
  hasEndedFired : bool;
  useFallback : bool;
  now : Z;
  language : string;
  timers : list Timer;
  document : Document;
  createdPlayers : nat;
  disposedPlayers : nat
}.

(** Assignments to one variable of the state. *)
Definition set_config (v : Config) (s : State) : State :=
  {| config := v;
     error404 := error404 s;
     modal := modal s;
     container := container s;
     player := player s;
     playerInitialized := playerInitialized s;
     adsharecountdownstart := adsharecountdownstart s;
     startedVideoAd := startedVideoAd s;
     displaysFallbackAd := displaysFallbackAd s;
     hasEndedFired := hasEndedFired s;
     useFallback := useFallback s;
     now := now s;
     language := language s;
     timers := timers s;
     document := document s;
     createdPlayers := createdPlayers s;
     disposedPlayers := disposedPlayers s |}.

Definition set_error404 (v : bool) (s : State) : State :=
  {| config := config s;
     error404 := v;
     modal := modal s;
     container := container s;
     player := player s;
     playerInitialized := playerInitialized s;
     adsharecountdownstart := adsharecountdownstart s;
     startedVideoAd := startedVideoAd s;
     displaysFallbackAd := displaysFallbackAd s;
     hasEndedFired := hasEndedFired s;
     useFallback := useFallback s;
     now := now s;
     language := language s;
     timers := timers s;
     document := document s;
     createdPlayers := createdPlayers s;
     disposedPlayers := disposedPlayers s |}.

Definition set_modal (v : option Modal) (s : State) : State :=
  {| config := config s;
     error404 := error404 s;
     modal := v;
     container := container s;
     player := player s;
     playerInitialized := playerInitialized s;
     adsharecountdownstart := adsharecountdownstart s;
     startedVideoAd := startedVideoAd s;
     displaysFallbackAd := displaysFallbackAd s;
     hasEndedFired := hasEndedFired s;
     useFallback := useFallback s;
     now := now s;
     language := language s;
     timers := timers s;
     document := document s;
     createdPlayers := createdPlayers s;
     disposedPlayers := disposedPlayers s |}.

Definition set_container (v : option nat) (s : State) : State :=
  {| config := config s;
     error404 := error404 s;
     modal := modal s;
     container := v;
     player := player s;
     playerInitialized := playerInitialized s;
     adsharecountdownstart := adsharecountdownstart s;
     startedVideoAd := startedVideoAd s;
     displaysFallbackAd := displaysFallbackAd s;
     hasEndedFired := hasEndedFired s;
     useFallback := useFallback s;
     now := now s;
     language := language s;
     timers := timers s;
     document := document s;
     createdPlayers := createdPlayers s;
     disposedPlayers := disposedPlayers s |}.

Definition set_player (v : option nat) (s : State) : State :=
  {| config := config s;
     error404 := error404 s;
     modal := modal s;
     container := container s;
     player := v;
     playerInitialized := playerInitialized s;
     adsharecountdownstart := adsharecountdownstart s;
     startedVideoAd := startedVideoAd s;
     displaysFallbackAd := displaysFallbackAd s;
     hasEndedFired := hasEndedFired s;
     useFallback := useFallback s;
     now := now s;
     language := language s;
     timers := timers s;
     document := document s;
     createdPlayers := createdPlayers s;
     disposedPlayers := disposedPlayers s |}.

Definition set_playerInitialized (v : bool) (s : State) : State :=
  {| config := config s;
     error404 := error404 s;
     modal := modal s;
     container := container s;
     player := player s;
     playerInitialized := v;
     adsharecountdownstart := adsharecountdownstart s;
     startedVideoAd := startedVideoAd s;
     displaysFallbackAd := displaysFallbackAd s;
     hasEndedFired := hasEndedFired s;
     useFallback := useFallback s;
     now := now s;
     language := language s;
     timers := timers s;
     document := document s;
     createdPlayers := createdPlayers s;
     disposedPlayers := disposedPlayers s |}.

Definition set_adsharecountdownstart (v : option Z) (s : State) : State :=
  {| config := config s;
     error404 := error404 s;
     modal := modal s;
     container := container s;
     player := player s;
     playerInitialized := playerInitialized s;
     adsharecountdownstart := v;
     startedVideoAd := startedVideoAd s;
     displaysFallbackAd := displaysFallbackAd s;
     hasEndedFired := hasEndedFired s;
     useFallback := useFallback s;
     now := now s;
     language := language s;
     timers := timers s;
     document := document s;
     createdPlayers := createdPlayers s;
     disposedPlayers := disposedPlayers s |}.

Definition set_startedVideoAd (v : bool) (s : State) : State :=
  {| config := config s;
     error404 := error404 s;
     modal := modal s;
     container := container s;
     player := player s;
     playerInitialized := playerInitialized s;
     adsharecountdownstart := adsharecountdownstart s;
     startedVideoAd := v;
     displaysFallbackAd := displaysFallbackAd s;
     hasEndedFired := hasEndedFired s;
     useFallback := useFallback s;
     now := now s;
     language := language s;
     timers := timers s;
     document := document s;
     createdPlayers := createdPlayers s;
     disposedPlayers := disposedPlayers s |}.

Definition set_displaysFallbackAd (v : bool) (s : State) : State :=
  {| config := config s;
     error404 := error404 s;
     modal := modal s;
     container := container s;
     player := player s;
     playerInitialized := playerInitialized s;
     adsharecountdownstart := adsharecountdownstart s;
     startedVideoAd := startedVideoAd s;
     displaysFallbackAd := v;
     hasEndedFired := hasEndedFired s;
     useFallback := useFallback s;
     now := now s;
     language := language s;
     timers := timers s;
     document := document s;
     createdPlayers := createdPlayers s;
     disposedPlayers := disposedPlayers s |}.

Definition set_hasEndedFired (v : bool) (s : State) : State :=
  {| config := config s;
     error404 := error404 s;
     modal := modal s;
     container := container s;
     player := player s;
     playerInitialized := playerInitialized s;
     adsharecountdownstart := adsharecountdownstart s;
     startedVideoAd := startedVideoAd s;
     displaysFallbackAd := displaysFallbackAd s;
     hasEndedFired := v;
     useFallback := useFallback s;
     now := now s;
     language := language s;
     timers := timers s;
     document := document s;
     createdPlayers := createdPlayers s;
     disposedPlayers := disposedPlayers s |}.

Definition set_useFallback (v : bool) (s : State) : State :=
  {| config := config s;
     error404 := error404 s;
     modal := modal s;
     container := container s;
     player := player s;
     playerInitialized := playerInitialized s;
     adsharecountdownstart := adsharecountdownstart s;
     startedVideoAd := startedVideoAd s;
     displaysFallbackAd := displaysFallbackAd s;
     hasEndedFired := hasEndedFired s;
     useFallback := v;
     now := now s;
     language := language s;
     timers := timers s;
     document := document s;
     createdPlayers := createdPlayers s;
     disposedPlayers := disposedPlayers s |}.

Definition set_now (v : Z) (s : State) : State :=
  {| config := config s;
     error404 := error404 s;
     modal := modal s;
     container := container s;
     player := player s;
     playerInitialized := playerInitialized s;
     adsharecountdownstart := adsharecountdownstart s;
     startedVideoAd := startedVideoAd s;
     displaysFallbackAd := displaysFallbackAd s;
     hasEndedFired := hasEndedFired s;
     useFallback := useFallback s;
     now := v;
     language := language s;
     timers := timers s;
     document := document s;
     createdPlayers := createdPlayers s;
     disposedPlayers := disposedPlayers s |}.

Definition set_timers (v : list Timer) (s : State) : State :=
  {| config := config s;
     error404 := error404 s;
     modal := modal s;
     container := container s;
     player := player s;
     playerInitialized := playerInitialized s;
     adsharecountdownstart := adsharecountdownstart s;
     startedVideoAd := startedVideoAd s;
     displaysFallbackAd := displaysFallbackAd s;
     hasEndedFired := hasEndedFired s;
     useFallback := useFallback s;
     now := now s;
     language := language s;
     timers := v;
     document := document s;
     createdPlayers := createdPlayers s;
     disposedPlayers := disposedPlayers s |}.

Definition set_document (v : Document) (s : State) : State :=
  {| config := config s;
     error404 := error404 s;
     modal := modal s;
     container := container s;
     player := player s;
     playerInitialized := playerInitialized s;
     adsharecountdownstart := adsharecountdownstart s;
     startedVideoAd := startedVideoAd s;
     displaysFallbackAd := displaysFallbackAd s;
     hasEndedFired := hasEndedFired s;
     useFallback := useFallback s;
     now := now s;
     language := language s;
     timers := timers s;
     document := v;
     createdPlayers := createdPlayers s;
     disposedPlayers := disposedPlayers s |}.

Definition set_createdPlayers (v : nat) (s : State) : State :=
  {| config := config s;
     error404 := error404 s;
     modal := modal s;
     container := container s;
     player := player s;
     playerInitialized := playerInitialized s;
     adsharecountdownstart := adsharecountdownstart s;
     startedVideoAd := startedVideoAd s;
     displaysFallbackAd := displaysFallbackAd s;
     hasEndedFired := hasEndedFired s;
     useFallback := useFallback s;
     now := now s;
     language := language s;
     timers := timers s;
     document := document s;
     createdPlayers := v;
     disposedPlayers := disposedPlayers s |}.

Definition set_disposedPlayers (v : nat) (s : State) : State :=
  {| config := config s;
     error404 := error404 s;
     modal := modal s;
     container := container s;
     player := player s;
     playerInitialized := playerInitialized s;
     adsharecountdownstart := adsharecountdownstart s;
     startedVideoAd := startedVideoAd s;
     displaysFallbackAd := displaysFallbackAd s;
     hasEndedFired := hasEndedFired s;
     useFallback := useFallback s;
     now := now s;
     language := language s;
     timers := timers s;
     document := document s;
     createdPlayers := createdPlayers s;
     disposedPlayers := v |}.

Definition doc_picoNodes (v : list (option Html)) (d : Document) : Document :=
  {| marker404 := marker404 d;
     hasContentBoxContainer := hasContentBoxContainer d;
     hasDownload := hasDownload d;
     hasSecondAC := hasSecondAC d;
     pageIds := pageIds d;
     pageCloseButton := pageCloseButton d;
     picoNodes := v;
     boxes := boxes d;
     videoElementPlayer := videoElementPlayer d |}.

Definition doc_boxes (v : list Box) (d : Document) : Document :=
  {| marker404 := marker404 d;
     hasContentBoxContainer := hasContentBoxContainer d;
     hasDownload := hasDownload d;
     hasSecondAC := hasSecondAC d;
     pageIds := pageIds d;
     pageCloseButton := pageCloseButton d;
     picoNodes := picoNodes d;
     boxes := v;
     videoElementPlayer := videoElementPlayer d |}.

Definition doc_videoElementPlayer (v : option nat) (d : Document) : Document :=
  {| marker404 := marker404 d;
     hasContentBoxContainer := hasContentBoxContainer d;
     hasDownload := hasDownload d;
     hasSecondAC := hasSecondAC d;
     pageIds := pageIds d;
     pageCloseButton := pageCloseButton d;
     picoNodes := picoNodes d;
     boxes := boxes d;
     videoElementPlayer := v |}.

Definition doc_marker404 (v : option bool) (d : Document) : Document :=
  {| marker404 := v;
     hasContentBoxContainer := hasContentBoxContainer d;
     hasDownload := hasDownload d;
     hasSecondAC := hasSecondAC d;
     pageIds := pageIds d;
     pageCloseButton := pageCloseButton d;
     picoNodes := picoNodes d;
     boxes := boxes d;
     videoElementPlayer := videoElementPlayer d |}.

(** ** Computations that may throw *)

(** A function of the widget: from a state to an outcome and the state
    reached, which is kept when the function throws. *)
Definition M (A : Type) : Type := State -> Outcome A * State.

Definition ret {A} (a : A) : M A := fun s => (Normal a, s).

Definition bind {A B} (m : M A) (k : A -> M B) : M B :=
  fun s =>
    match m s with
    | (Normal a, s') => k a s'
    | (Throws e, s') => (Throws e, s')
    end.

Definition throw {A} (e : Exn) : M A := fun s => (Throws e, s).

Definition get : M State := fun s => (Normal s, s).

Definition modify (f : State -> State) : M unit := fun s => (Normal tt, f s).

(** [try { m } catch (e) {}].  Running out of fuel is not a JavaScript
    exception and is never swallowed. *)
Definition tryCatch (m : M unit) : M unit :=
  fun s =>
    match m s with
    | (Throws TypeError, s') => (Normal tt, s')
    | r => r
    end.

Declare Scope widget_scope.
Delimit Scope widget_scope with widget.
Notation "x <- c1 ;; c2" := (bind c1 (fun x => c2))
  (at level 100, c1 at next level, right associativity) : widget_scope.
Notation "c1 ;; c2" := (bind c1 (fun _ => c2))
  (at level 100, right associativity) : widget_scope.
Open Scope widget_scope.

Definition when (b : bool) (m : M unit) : M unit := if b then m else ret tt.

Definition run {A} (m : M A) (s : State) : State := snd (m s).
Definition outcome {A} (m : M A) (s : State) : Outcome A := fst (m s).

(** ** Reading the configuration and the document *)

Definition opt (s : State) (name : string) : JsValue :=
  moGet (moduleOptions (config s)) name.

Definition set_moduleOptions (m : ModuleOptions) (s : State) : State :=
  set_config (withModuleOptions (config s) m) s.

Definition setOption (name : string) (v : JsValue) : M unit :=
  modify (fun s => set_moduleOptions (moSet (moduleOptions (config s)) name v) s).

Definition setTimeout (cb : Callback) (d : JsValue) : M unit :=
  modify (fun s => set_timers (timers s ++ [{| delay := d; callback := cb |}]) s).

Definition isSome {A} (o : option A) : bool :=
  match o with Some _ => true | None => false end.

(** The wrappers in the document, in document order. *)
Definition wrappers (d : Document) : list Html :=
  (boxContent <$> List.filter attached (boxes d)) ++ omap id (picoNodes d).

(** [document.getElementById(id)] finds an element. *)
Definition hasId (d : Document) (id : string) : bool :=
  existsb (String.eqb id) (pageIds d) || existsb (fun h => htmlHasId h id) (wrappers d).

(** [document.querySelector('.pico-close')] finds an element. *)
Definition hasCloseButton (d : Document) : bool :=
  pageCloseButton d
  || existsb (fun b => attached b && boxButton b) (boxes d)
  || existsb isSome (picoNodes d).

Fixpoint findIndex {A} (p : A -> bool) (l : list A) : option nat :=
  match l with
  | [] => None
  | x :: rest => if p x then Some 0%nat else S <$> findIndex p rest
  end.

(** Assigning [innerHTML] of the wrapper of a box. *)
Definition rewriteBox (h : Html) (b : Box) : Box :=
  {| box404 := box404 b; attached := attached b; boxContent := h;
     buttonInWrapper := buttonInWrapper b;
     boxButton := boxButton b && negb (buttonInWrapper b) |}.

Definition detachBox (b : Box) : Box :=
  {| box404 := box404 b; attached := false; boxContent := boxContent b;
     buttonInWrapper := buttonInWrapper b; boxButton := boxButton b |}.

Definition modifyDocument (f : Document -> Document) : M unit :=
  modify (fun s => set_document (f (document s)) s).

(** [container.firstChild.innerHTML = h], for the box the reference
    [container] points to. *)
Definition writeBox (i : nat) (h : Html) : M unit :=
  modifyDocument (fun d =>
    doc_videoElementPlayer None (doc_boxes (alter (rewriteBox h) i (boxes d)) d)).

(** [document.getElementById('adshare-modal-content').innerHTML = h]:
    the first element with that id is the wrapper of the first attached
    box made by [createContainer] (the wrapper of a 404 box has another
    id), else the wrapper of the first dialog node that has one. *)
Definition writeNamedWrapper (h : Html) : M unit :=
  s <- get;;
  match findIndex (fun b => attached b && negb (box404 b)) (boxes (document s)) with
  | Some i => writeBox i h
  | None =>
      match findIndex isSome (picoNodes (document s)) with
      | Some j =>
          modifyDocument (fun d =>
            doc_videoElementPlayer None
              (doc_picoNodes (<[j := Some h]> (picoNodes d)) d))
      | None => throw TypeError
      end
  end.

(** ** The media player *)

(** [videojs(videoElement)] for an element that exists: the player
    already attached to the element, else a new one. *)
Definition videojs : M nat :=
  s <- get;;
  match videoElementPlayer (document s) with
  | Some p => ret p
  | None =>
      let p := createdPlayers s in
      modify (fun s => set_createdPlayers (S p)
                         (set_document (doc_videoElementPlayer (Some p) (document s)) s));;
      ret p
  end.

(** [player.ima.dispose()]: the IMA plugin bundled in this file assigns
    many methods to [player.ima] and none is called [dispose]; the call
    is a call of [undefined]. *)
Definition imaDispose : M unit := throw TypeError.

(** [player.dispose()] of the player framework. *)
Definition playerDispose : M unit :=
  modify (fun s => set_disposedPlayers (S (disposedPlayers s)) s).

(** [destroyVideoJsPlayer(videoElement)]; the argument says whether
    [videoElement] is truthy. *)
Definition destroyVideoJsPlayer (videoElement : bool) : M unit :=
  tryCatch
    (if videoElement then
       (_ <- videojs;; imaDispose;; playerDispose)
     else
       (s <- get;;
        match player s with
        | Some _ => imaDispose;; playerDispose
        | None => ret tt
        end));;
  modify (fun s => set_playerInitialized false (set_player None s)).

(** [setupVideoJsPlayer(videoElement)]; [videojs] throws a TypeError
    when it is given no element. *)
Definition setupVideoJsPlayer (videoElement : bool) : M unit :=
  s <- get;;
  when (playerInitialized s) (destroyVideoJsPlayer videoElement);;
  modify (set_playerInitialized true);;
  (if videoElement then
     (p <- videojs;; modify (set_player (Some p)))
   else throw TypeError).

(** The handler of the player's [adstart] event. *)
Definition onAdStart : M unit := modify (set_startedVideoAd true).

(** ** Countdown *)

Definition startCountdownTimer : M unit :=
  modify (fun s => set_adsharecountdownstart (Some (now s)) s);;
  setTimeout CountdownTimer (JNum 100).

(** [getCountdownTimeLeft()]: [adsharecountdownstart] is [undefined]
    until the first countdown starts, which makes the result NaN. *)
Definition getCountdownTimeLeft (s : State) : JsValue :=
  ofNumber
    (subNumber (numberValue (opt s "countdownDuration"))
       match adsharecountdownstart s with
       | Some start => Integer ((now s - start) / 1250)
       | None => NaN
       end).

Definition hideCloseButton : M unit :=
  s <- get;;
  if hasCloseButton (document s) then ret tt else throw TypeError.

Definition showCloseButton : M unit :=
  s <- get;;
  if hasCloseButton (document s) then ret tt else throw TypeError.

(** ** Hosts *)

Definition createModalWindow (h : Html) : M Modal :=
  modify (set_useFallback false);;
  ret {| built := false; content := h |}.

(** [build] of the modal library, run by the first of [show] and
    [forceClose]: appends the dialog node, whose wrapper holds the
    content the handle was created with. *)
Definition build : M unit :=
  s <- get;;
  match modal s with
  | Some m =>
      if built m then ret tt
      else
        modifyDocument (fun d => doc_picoNodes (picoNodes d ++ [Some (content m)]) d);;
        modify (set_modal (Some {| built := true; content := content m |}))
  | None => ret tt
  end.

(** [modal.show()], with the [afterShow] hook of [createModalWindow]. *)
Definition modalShow : M unit :=
  build;;
  s <- get;;
  when (gtZero (opt s "countdownDuration")) (hideCloseButton;; startCountdownTimer).

Definition appendBox (b : Box) : M nat :=
  modifyDocument (fun d => doc_boxes (boxes d ++ [b]) d);;
  s <- get;;
  match findIndex attached (boxes (document s)) with
  | Some i => ret i
  | None => throw TypeError
  end.

Definition newBox (is404 : bool) (h : Html) : Box :=
  {| box404 := is404; attached := true; boxContent := h;
     buttonInWrapper := negb (closesWrapper (fragment h)); boxButton := true |}.

(** [createContainer]: the result is what
    [document.getElementById('fakeContentBoxContainer')] finds after the
    new box was appended. *)
Definition createContainer (h : Html) : M nat :=
  s <- get;;
  if negb (hasContentBoxContainer (document s)) then throw TypeError
  else if negb (hasDownload (document s)) then throw TypeError
  else appendBox (newBox false h).

Definition create404Container (h : Html) : M nat :=
  s <- get;;
  if negb (hasSecondAC (document s)) then throw TypeError
  else appendBox (newBox true h).

(** [if (moduleOptions.afterClose) moduleOptions.afterClose.apply(this)] *)
Definition callAfterClose : M unit :=
  s <- get;;
  match opt s "afterClose" with
  | JFun ReturnsNormally => ret tt
  | v => if truthy v then throw TypeError else ret tt
  end.

(** The [beforeClose] hook up to its [try]: remove what
    [document.querySelector('.pico-content')] finds. *)
Definition removeFirstPicoContent : M unit :=
  s <- get;;
  match picoNodes (document s) with
  | [] => throw TypeError
  | _ :: rest =>
      modifyDocument (fun d => doc_videoElementPlayer None (doc_picoNodes rest d))
  end.

(** [container.parentNode.removeChild(container)] *)
Definition removeContainer (i : nat) : M unit :=
  s <- get;;
  match boxes (document s) !! i with
  | Some b =>
      if attached b then
        modifyDocument (fun d =>
          doc_videoElementPlayer None (doc_boxes (alter detachBox i (boxes d)) d))
      else throw TypeError
  | None => throw TypeError
  end.

(** [closePopup], with [modal.close()] of the modal library inlined:
    the [beforeClose] hook, [forceClose], and the [afterClose] hook, which
    calls [closePopup] again.  The recursion is bounded by [fuel]. *)
Fixpoint closePopupFuel (fuel : nat) : M unit :=
  match fuel with
  | O => throw OutOfFuel
  | S fuel' =>
      destroyVideoJsPlayer false;;
      s <- get;;
      match modal s, container s with
      | Some _, _ =>
          tryCatch
            (removeFirstPicoContent;;
             tryCatch (destroyVideoJsPlayer false);;
             build;;
             tryCatch (closePopupFuel fuel';; callAfterClose))
      | None, Some i =>
          tryCatch callAfterClose;;
          removeContainer i;;
          s' <- get;;
          if hasContentBoxContainer (document s') then ret tt else throw TypeError
      | None, None => ret tt
      end;;
      modify (set_container None);;
      modify (set_modal None)
  end.

(** What is left of [closePopup] after its first statement. *)
Definition closePopupRest (fuel : nat) : M unit :=
  s <- get;;
  match modal s, container s with
  | Some _, _ =>
      tryCatch
        (removeFirstPicoContent;;
         tryCatch (destroyVideoJsPlayer false);;
         build;;
         tryCatch (closePopupFuel fuel;; callAfterClose))
  | None, Some i =>
      tryCatch callAfterClose;;
      removeContainer i;;
      s' <- get;;
      if hasContentBoxContainer (document s') then ret tt else throw TypeError
  | None, None => ret tt
  end;;
  modify (set_container None);;
  modify (set_modal None).

(** Every nested call follows the removal of a dialog node, and at most
    one node is added on the way (by [build]). *)
Definition closePopup : M unit :=
  fun s => closePopupFuel (length (picoNodes (document s)) + 2) s.

(** [moduleOptions.messages.countdownMessage.replace("{0}", timeLeft)]:
    throws unless [moduleOptions.messages] is an object; for an opaque
    object the read is taken to succeed. *)
Definition readCountdownMessage : M unit :=
  s <- get;;
  match opt s "messages" with
  | JObj => ret tt
  | _ => throw TypeError
  end.

(** [countdownTimer].  The texts it writes (the digits, the ready
    message) are not part of the state, and its [try] block swallows its
    own failures. *)
Definition countdownTimer : M unit :=
  s <- get;;
  if leZero (getCountdownTimeLeft s) then
    showCloseButton;;
    when (truthy (opt s "closeModalAutomatically")) closePopup
  else
    when (hasId (document s) "adshare-countdown") readCountdownMessage;;
    setTimeout CountdownTimer (JNum 100).

Definition countdownCheck : M unit :=
  s <- get;;
  when (leZero (getCountdownTimeLeft s)) countdownTimer.

(** ** Building the fragments *)

Definition getCountdownText (download : JsValue) (s : State) : CountdownText :=
  if negb (truthy (opt s "download")) then NoFileText
  else if leZero (opt s "countdownDuration") then DownloadingText
  else if truthy download then CountdownPremiumText
  else CountdownOnlyText.

(** [getHeaderSection]; [None] is the empty string it returns in 404
    mode.  Its [i18n] lookups only produce text (see [i18n] above). *)
Definition getHeaderSection (s : State) : option Header :=
  if looseEqTrue (opt s "e404") || error404 s then None
  else Some {| langEdit := String.eqb (getBrowserLanguage (language s)) "de";
               countdownText := getCountdownText (opt s "download") s;
               button := if looseEqStr (opt s "header") "round" then RoundButton
                         else if looseEqStr (opt s "header") "big" then BigButton
                         else DefaultButton |}.

Definition withHeader (f : Fragment) : M Html :=
  s <- get;; ret {| header := getHeaderSection s; fragment := f |}.

Definition bare (f : Fragment) : M Html := ret {| header := None; fragment := f |}.

Definition getBannerElementHTML : M Html := bare BannerElement.

Definition getContentAdIframeHTML : M Html := withHeader ContentAdIframe.

Definition getContentAdIframeHTMLV2 : M Html :=
  s <- get;; withHeader (ContentAdIframeV2 (opt s "assetPath")).

Definition getContentAdFunnelIframeHtml : M Html := withHeader ContentAdFunnelIframe.

Definition getContentAdFunnel404IframeHtml : M Html := bare ContentAdFunnel404Iframe.

Definition getContentIframeHtml : M Html :=
  s <- get;; withHeader (ContentIframe (opt s "iframeUrl")).

Definition getContent404IframeHtml : M Html := bare Content404Iframe.

Definition getTaboolaIframeHTML : M Html := withHeader TaboolaIframe.

(** Reads [moduleOptions.playerOptions.videoPath]. *)
Definition getVideoElementHTML : M Html :=
  s <- get;;
  match playerOptions (moduleOptions (config s)) with
  | Some p => withHeader (VideoElement (videoPath p))
  | None => throw TypeError
  end.

Definition getVideoBannerHTML : M Html := withHeader VideoBanner.

(** ** The display functions *)

(** The nine display functions that look at the hosts share one shape
    and differ in the points listed here. *)
Record Display := {
  buildHtml : M Html;
  resetsFallbackFlag : bool;        (* starts with [displaysFallbackAd = false] *)
  destroysPlayerInModal : bool;     (* [destroyVideoJsPlayer()] before updating a modal *)
  rechecksCountdownInModal : bool;  (* the countdown check also after updating a modal *)
  buildHtml404 : option (M Html);   (* a native host is a 404 box when [error404] *)
  deferred : option Callback        (* the callback given to [setTimeout(..., 0)] *)
}.

(** The branch [if (modal)]. *)
Definition updateModal (d : Display) : M unit :=
  when (destroysPlayerInModal d) (destroyVideoJsPlayer false);;
  h <- buildHtml d;;
  writeNamedWrapper h;;
  when (rechecksCountdownInModal d) countdownCheck.

(** The branch [else if (container)]. *)
Definition updateContainer (d : Display) (c : nat) : M unit :=
  h <- buildHtml d;;
  writeBox c h;;
  countdownCheck.

Definition createNativeHost (d : Display) : M unit :=
  h <- buildHtml d;;
  c <- createContainer h;;
  modify (set_container (Some c));;
  startCountdownTimer.

(** The last branch: no host yet. *)
Definition createHost (d : Display) : M unit :=
  s <- get;;
  if looseEqStr (opt s "integration") "native" then
    match buildHtml404 d with
    | Some build404 =>
        if error404 s then
          h <- build404;;
          c <- create404Container h;;
          modify (set_container (Some c))
        else createNativeHost d
    | None => createNativeHost d
    end
  else
    h <- buildHtml d;;
    m <- createModalWindow h;;
    modify (set_modal (Some m));;
    modalShow.

(** The closing [setTimeout(function () { ... }, 0)], where there is one. *)
Definition deferredStep (d : Display) : M unit :=
  match deferred d with
  | Some cb => setTimeout cb (JNum 0)
  | None => ret tt
  end.

Definition display (d : Display) : M unit :=
  when (resetsFallbackFlag d) (modify (set_displaysFallbackAd false));;
  s <- get;;
  match modal s, container s with
  | Some _, _ => updateModal d
  | None, Some c => updateContainer d c
  | None, None => createHost d
  end;;
  deferredStep d.

Definition bannerAd : Display :=
  {| buildHtml := getBannerElementHTML; resetsFallbackFlag := false;
     destroysPlayerInModal := false; rechecksCountdownInModal := false;
     buildHtml404 := None; deferred := Some WriteBannerIFrameHtml |}.

Definition displayBannerAd : M unit := display bannerAd.

Definition contentAdFunnel : Display :=
  {| buildHtml := getContentAdFunnelIframeHtml; resetsFallbackFlag := false;
     destroysPlayerInModal := false; rechecksCountdownInModal := true;
     buildHtml404 := Some getContentAdFunnel404IframeHtml; deferred := None |}.

Definition displayContentAdFunnel : M unit := display contentAdFunnel.

Definition contentAd : Display :=
  {| buildHtml := getContentAdIframeHTML; resetsFallbackFlag := false;
     destroysPlayerInModal := false; rechecksCountdownInModal := false;
     buildHtml404 := None; deferred := Some WriteContentAdIframeHtml |}.

Definition displayContentAd : M unit := display contentAd.

Definition contentAdV2 : Display :=
  {| buildHtml := getContentAdIframeHTMLV2; resetsFallbackFlag := false;
     destroysPlayerInModal := false; rechecksCountdownInModal := false;
     buildHtml404 := None; deferred := None |}.

Definition displayContentAdV2 : M unit := display contentAdV2.

Definition contentIframe : Display :=
  {| buildHtml := getContentIframeHtml; resetsFallbackFlag := false;
     destroysPlayerInModal := false; rechecksCountdownInModal := true;
     buildHtml404 := None; deferred := None |}.

Definition displayContentIframe : M unit := display contentIframe.

Definition talooba : Display :=
  {| buildHtml := getTaboolaIframeHTML; resetsFallbackFlag := false;
     destroysPlayerInModal := false; rechecksCountdownInModal := false;
     buildHtml404 := None; deferred := Some WriteTaloobaIFrameHtml |}.

Definition displayTalooba : M unit := display talooba.

Definition talooba2ndCall : Display :=
  {| buildHtml := getTaboolaIframeHTML; resetsFallbackFlag := false;
     destroysPlayerInModal := false; rechecksCountdownInModal := false;
     buildHtml404 := None; deferred := Some WriteTalooba2ndCallIFrameHtml |}.

Definition displayTalooba2ndCall : M unit := display talooba2ndCall.

Definition videoAd : Display :=
  {| buildHtml := getVideoElementHTML; resetsFallbackFlag := true;
     destroysPlayerInModal := true; rechecksCountdownInModal := false;
     buildHtml404 := None; deferred := Some SetupVideo |}.

Definition displayVideoAd : M unit := display videoAd.

Definition videoBanner : Display :=
  {| buildHtml := getVideoBannerHTML; resetsFallbackFlag := true;
     destroysPlayerInModal := false; rechecksCountdownInModal := false;
     buildHtml404 := None; deferred := Some ResetEnded |}.

Definition displayVideoBanner : M unit := display videoBanner.

(** The two 404 displays assign [container] without looking at the
    hosts. *)
Definition displayContent404Iframe : M unit :=
  h <- getContent404IframeHtml;;
  c <- create404Container h;;
  modify (set_container (Some c)).

Definition displayTalooba404 : M unit :=
  h <- getTaboolaIframeHTML;;
  c <- create404Container h;;
  modify (set_container (Some c));;
  setTimeout WriteTaloobaIFrameHtml (JNum 0).

(** The display functions that look at the hosts before they act. *)
Definition guardedDisplays : list Display :=
  [ bannerAd; contentAdFunnel; contentAd; contentAdV2; contentIframe; talooba;
    talooba2ndCall; videoAd; videoBanner ].

(** ** The dispatcher *)

Definition lang (s : State) : string := getBrowserLanguage (language s).

Definition contentIs (s : State) (name : string) : bool :=
  looseEqStr (opt s "content") name.

Definition displayAd : M unit :=
  s <- get;;
  match marker404 (document s) with
  | None => throw TypeError
  | Some true =>
      setOption "e404" (JBool true);;
      modify (set_error404 true);;
      displayContent404Iframe
  | Some false =>
      if contentIs s "optimizely1" then
        if String.eqb (lang s) "de" then
          setOption "iframeUrl" (JStr "http://neuestens.de/facebook-videos/picks.html");;
          displayContentIframe
        else
          displayVideoAd;;
          s' <- get;;
          setTimeout RetryVideoAd (opt s' "videoAdTimeout")
      else if contentIs s "smart" then
        if String.eqb (lang s) "de" then
          displayTalooba;;
          setTimeout SmartContentIframe (JNum (20 * 1000))
        else displayTalooba
      else if contentIs s "mix1" then
        displayTalooba;;
        when (String.eqb (lang s) "de" || String.eqb (lang s) "en")
             (setTimeout Mix1ContentAd (JNum (15 * 1000)))
      else if contentIs s "mix2" then
        displayTalooba;;
        when (String.eqb (lang s) "de" || String.eqb (lang s) "en")
             (setTimeout Mix2ContentAdFunnel (JNum (15 * 1000)))
      else if contentIs s "videobanner" then displayVideoBanner
      else if contentIs s "taboola" then displayTalooba
      else if contentIs s "video" then displayVideoAd
      else if contentIs s "taboola2ndcall" then displayTalooba2ndCall
      else if contentIs s "banner" then displayBannerAd
      else if contentIs s "contentad" then displayContentAdV2
      else if contentIs s "contentadfunnel" then displayContentAdFunnel
      else if contentIs s "iframe" then displayContentIframe
      else ret tt
  end.

(** ** Timer callbacks *)

(** The four [write...IFrameHtml] functions: they throw when the iframe
    is missing; what they put into the iframe is not part of the state. *)
Definition writeIFrameHtml : M unit :=
  s <- get;;
  if hasId (document s) "adshare-banner-iframe" then ret tt else throw TypeError.

(** [moduleOptions.ima.adTagUrl = v] *)
Definition setImaAdTag (v : JsValue) : M unit :=
  s <- get;;
  match ima (moduleOptions (config s)) with
  | Some _ => modify (fun s => set_moduleOptions
                                 (setIma (moduleOptions (config s)) (setImaAdTagUrl v)) s)
  | None => throw TypeError
  end.

(** The body of the function passed to [setTimeout] at each place. *)
Definition fire (cb : Callback) : M unit :=
  match cb with
  | CountdownTimer => countdownTimer
  | WriteBannerIFrameHtml | WriteContentAdIframeHtml
  | WriteTaloobaIFrameHtml | WriteTalooba2ndCallIFrameHtml => writeIFrameHtml
  | SetupVideo =>
      s <- get;;
      setupVideoJsPlayer (hasId (document s) "adshare-videoad");;
      modify (set_hasEndedFired false)
  | ResetEnded => modify (set_hasEndedFired false)
  | RetryVideoAd =>
      s <- get;;
      when (negb (startedVideoAd s))
        (setImaAdTag (opt s "fallBackAdTagUrl");;
         destroyVideoJsPlayer false;;
         displayVideoAd)
  | SmartContentIframe =>
      s <- get;; when (isSome (modal s)) displayContentIframe
  | Mix1ContentAd =>
      s <- get;; when (isSome (modal s)) displayContentAdV2
  | Mix2ContentAdFunnel =>
      s <- get;; when (isSome (modal s)) displayContentAdFunnel
  | DisplayAd => displayAd
  end.

(** The timeout of the queue at position [i] expires: it leaves the
    queue and its callback runs. *)
Definition expire (i : nat) : M unit :=
  s <- get;;
  match timers s !! i with
  | Some t => modify (set_timers (delete i (timers s)));; fire (callback t)
  | None => ret tt
  end.

(** The wall clock reaches [t]. *)
Definition clock (t : Z) : M unit := modify (set_now t).

(** [adshareModal(options)] called with an options object (or a falsy
    value) rather than a selector. *)
Definition adshareModal (param1 : Opts) : M unit :=
  modify (fun s => set_config (applyOptions param1 (config s)) s);;
  s <- get;;
  setTimeout DisplayAd (opt s "timeout").

(** The state of a page on which the script has just been loaded. *)
Definition loaded (storage : SessionStorage) (cfg : option (gmap string JsValue))
    (language : string) (d : Document) (t : Z) : State :=
  {| config := {| sessionStorage := storage; funnelmecfg := cfg;
                  options := OptsObject ∅; moduleOptions := emptyOptions |};
     error404 := false; modal := None; container := None;
     player := None; playerInitialized := false;
     adsharecountdownstart := None; startedVideoAd := false;
     displaysFallbackAd := false; hasEndedFired := false; useFallback := false;
     now := t; language := language; timers := [];
     document := d; createdPlayers := 0; disposedPlayers := 0 |}.

(** ** Notions used in the statements *)

(** The item session storage holds under a key, when it can be read. *)
Definition sessionItem (st : SessionStorage) (name : string) : option string :=
  match st with
  | StorageItems items => items !! name
  | StorageMissing | StorageThrows => None
  end.

(** Precedence by presence: the value of the first source that has the
    key, whatever that value is. *)
Definition firstPresent (st : SessionStorage) (cfg : option (gmap string JsValue))
    (o : gmap string JsValue) (name : string) (dflt : JsValue) : JsValue :=
  match sessionItem st name with
  | Some v => JStr v
  | None =>
      match default ∅ cfg !! name with
      | Some v => v
      | None =>
          match o !! name with
          | Some v => v
          | None => dflt
          end
      end
  end.

(** Precedence by truthiness: the first truthy value among the three
    sources, else the fallback. *)
Definition firstTruthy (st : SessionStorage) (cfg : option (gmap string JsValue))
    (o : gmap string JsValue) (name : string) (dflt : JsValue) : JsValue :=
  match sessionItem st name with
  | Some v => if negb (String.eqb v "") then JStr v
              else if truthy (getProp (default ∅ cfg) name) then getProp (default ∅ cfg) name
              else if truthy (getProp o name) then getProp o name
              else dflt
  | None => if truthy (getProp (default ∅ cfg) name) then getProp (default ∅ cfg) name
            else if truthy (getProp o name) then getProp o name
            else dflt
  end.

(** The top-level keys [applyOptions] resolves and stores as resolved. *)
Definition plainKeys : list string :=
  [ "adTagUrl"; "fallBackAdTagUrl"; "position"; "integration"; "header"; "content";
    "countdownDuration"; "premiumButtonUrl"; "bannerContentUnitId"; "afterClose";
    "iframeUrl"; "timeout"; "videoAdTimeout"; "assetPath"; "locale"; "debug"; "e404" ].

(** The value [applyOptions] resolves for a top-level key. *)
Definition resolvedValue (c : Config) (o : gmap string JsValue) (name : string) : JsValue :=
  firstTruthy (sessionStorage c) (funnelmecfg c) o name (moGet defaultOptions name).

Definition configOf (opts : Opts) (c : Config) : ModuleOptions :=
  moduleOptions (applyOptions opts c).

Definition isBoolean (v : JsValue) : Prop := exists b, v = JBool b.

(** The hosts. *)
Definition hostsExclusive (s : State) : Prop := modal s = None \/ container s = None.

Definition noHost (s : State) : Prop := modal s = None /\ container s = None.

(** The content of the wrapper of the dialog, as the page shows it. *)
Definition modalContent (s : State) : option Html :=
  head (omap id (picoNodes (document s))).



(** The time left when the clock shows [t]. *)
Definition timeLeftAt (s : State) (t : Z) : JsValue := getCountdownTimeLeft (set_now t s).

(** The timers of a queue that run a given callback. *)
Definition timersOf (cb : Callback) (l : list Timer) : list Timer :=
  List.filter (fun t => bool_decide (callback t = cb)) l.

(** The configuration with one source no longer holding the key. *)
Definition dropSessionItem (name : string) (c : Config) : Config :=
  {| sessionStorage := match sessionStorage c with
                       | StorageItems items => StorageItems (delete name items)
                       | st => st
                       end;
     funnelmecfg := funnelmecfg c; options := options c;
     moduleOptions := moduleOptions c |}.

Definition dropFunnelmecfg (name : string) (c : Config) : Config :=
  {| sessionStorage := sessionStorage c;
     funnelmecfg := delete name <$> funnelmecfg c; options := options c;
     moduleOptions := moduleOptions c |}.

Definition dropOption (name : string) (c : Config) : Config :=
  {| sessionStorage := sessionStorage c; funnelmecfg := funnelmecfg c;
     options := OptsObject (delete name (optsObject (options c)));
     moduleOptions := moduleOptions c |}.

(** The falsy values a page can write into [funnelmecfg] or the options. *)
Definition falsyValues : list JsValue := [JBool false; JNum 0; JNull; JStr ""].

(** A literal that is no numeric literal and not the string of an
    opaque object: only the same string is [==] to it. *)
Definition plainLiteral (lit : string) : Prop :=
  stringToNumber lit = NaN /\ String.eqb "[object Object]" lit = false.

(** The names [applyOptions] passes to [determineOptionValue]. *)
Definition optionNames : list string := snd <$> resolvedOptions.

(** What the four sources of [determineOptionValue] give for a name, in
    the order of the chain. *)
Definition storedValue (c : Config) (name : string) : JsValue :=
  getSessionStorageOverride (sessionStorage c) name.

Definition configuredValue (c : Config) (name : string) : JsValue :=
  getProp (default ∅ (funnelmecfg c)) name.

Definition passedValue (c : Config) (name : string) : JsValue :=
  getProp (optsObject (options c)) name.

Definition builtinValue (c : Config) (name : string) : JsValue :=
  moGet (moduleOptions c) name.

(** A relation between the state before and the state after that every
    run of a computation respects, however the run ends. *)
Definition leads (R : State -> State -> Prop) {A} (m : M A) : Prop :=
  forall s, R s (snd (m s)).

(** No host appears: a reference that is set afterwards was set before. *)
Definition shrinks (s s' : State) : Prop :=
  (modal s = None -> modal s' = None) /\ (container s = None -> container s' = None).

(** No player is disposed. *)
Definition disposesNone (s s' : State) : Prop := disposedPlayers s' = disposedPlayers s.

(** A forgotten player stays forgotten. *)
Definition staysForgotten (s s' : State) : Prop :=
  playerInitialized s = false /\ player s = None ->
  playerInitialized s' = false /\ player s' = None.

(** A configuration without a [messages] property stays without one. *)
Definition hasNoMessages (s : State) : Prop :=
  top (moduleOptions (config s)) !! "messages" = None.

Definition staysWithoutMessages (s s' : State) : Prop :=
  hasNoMessages s -> hasNoMessages s'.

(** The computation never runs into the bound put on the recursion of
    [closePopup]. *)
Definition inBound {A} (m : M A) : Prop :=
  forall s, fst (m s) <> Throws OutOfFuel.

(** The kinds of host present stay what they are. *)
Definition sameHosts (s s' : State) : Prop :=
  isSome (modal s') = isSome (modal s) /\ isSome (container s') = isSome (container s).

Definition keepsNoModal (s s' : State) : Prop := modal s = None -> modal s' = None.

Definition keepsNoContainer (s s' : State) : Prop := container s = None -> container s' = None.

(** A computation that only reads the state. *)
Definition readsOnly {A} (m : M A) : Prop := forall s, snd (m s) = s.

(** Neither a player is disposed nor a [messages] property added. *)
Definition harmless (s s' : State) : Prop :=
  disposesNone s s' /\ staysWithoutMessages s s'.

(** No fake content box made by [createContainer] is in the document, so
    that [document.getElementById('adshare-modal-content')] finds the
    wrapper of a dialog. *)
Definition noNamedBox (d : Document) : Prop :=
  findIndex (fun b => attached b && negb (box404 b)) (boxes d) = None.



(** The countdown has run out and the session is to close by itself. *)
Definition closesItself (s : State) : bool :=
  leZero (getCountdownTimeLeft s) && truthy (opt s "closeModalAutomatically").

(** The two keys of [moduleOptions] that hold an object of their own. *)
Definition special (k : string) : Prop := k = "playerOptions" \/ k = "ima".

(** ** Example inputs *)

(** A page with empty session storage and no [funnelmecfg]. *)
Definition plainPage : Config :=
  {| sessionStorage := StorageItems ∅; funnelmecfg := None;
     options := OptsObject ∅; moduleOptions := emptyOptions |}.

(** Caller options asking for no countdown: [{countdownDuration: 0}]. *)
Definition noCountdown : gmap string JsValue := {[ "countdownDuration" := JNum 0 ]}.

(** A page whose session storage and [funnelmecfg] both name a content
    variant, and caller options naming a third one. *)
Definition overriddenPage : Config :=
  {| sessionStorage := StorageItems {[ "content" := "banner" ]};
     funnelmecfg := Some {[ "content" := JStr "video" ]};
     options := OptsObject ∅; moduleOptions := emptyOptions |}.

Definition wantsIframe : gmap string JsValue := {[ "content" := JStr "iframe" ]}.

(** Session storage written by a tester: booleans and numbers arrive as
    strings. *)
Definition testerPage : Config :=
  {| sessionStorage :=
       StorageItems (<["closeModalAutomatically" := "true"]>
                     (<["countdownDuration" := "0"]>
                     (<["debug" := "false"]>
                     (<["download" := "false"]> ∅))));
     funnelmecfg := None; options := OptsObject ∅; moduleOptions := emptyOptions |}.

(** Session storage asking for a session that closes by itself, with a
    duration written as a fraction below zero, or with blanks around
    the digits. *)
Definition fractionPage : Config :=
  {| sessionStorage :=
       StorageItems (<["closeModalAutomatically" := "true"]>
                     (<["countdownDuration" := "-0.5"]> ∅));
     funnelmecfg := None; options := OptsObject ∅; moduleOptions := emptyOptions |}.

Definition blanksPage : Config :=
  {| sessionStorage :=
       StorageItems (<["closeModalAutomatically" := "true"]>
                     (<["countdownDuration" := " 7 "]> ∅));
     funnelmecfg := None; options := OptsObject ∅; moduleOptions := emptyOptions |}.

(** Caller options that switch the download text off: [{download: false}]. *)
Definition noDownload : gmap string JsValue := {[ "download" := JBool false ]}.

(** Caller options that pass booleans as strings. *)
Definition truthyStrings : gmap string JsValue :=
  {[ "closeModalAutomatically" := JStr "true" ]}.

(** A page whose session storage holds an empty item for [content]. *)
Definition emptyItemPage : Config :=
  {| sessionStorage := StorageItems {[ "content" := "" ]};
     funnelmecfg := Some {[ "content" := JStr "video" ]};
     options := OptsObject ∅; moduleOptions := defaultOptions |}.

(** A page whose [funnelmecfg] sets [content] to [null]. *)
Definition nullCfgPage : Config :=
  {| sessionStorage := StorageMissing;
     funnelmecfg := Some {[ "content" := JNull ]};
     options := OptsObject ∅; moduleOptions := defaultOptions |}.

(** A page whose [funnelmecfg] sets [countdownDuration] to [0] while the
    caller passes [{countdownDuration: 10}]. *)
Definition zeroCfgPage : Config :=
  {| sessionStorage := StorageItems ∅;
     funnelmecfg := Some {[ "countdownDuration" := JNum 0 ]};
     options := OptsObject {[ "countdownDuration" := JNum 10 ]};
     moduleOptions := defaultOptions |}.

(** A page of the site: the elements the native integration needs are
    there, nothing of the widget is. *)
Definition sitePage : Document :=
  {| marker404 := Some false; hasContentBoxContainer := true; hasDownload := true;
     hasSecondAC := true; pageIds := []; pageCloseButton := false;
     picoNodes := []; boxes := []; videoElementPlayer := None |}.

(** The state once [adshareModal(opts)] has run on a freshly loaded
    page and its timeout has expired, so that [displayAd] has run. *)
Definition displayed (c : Config) (language : string) (d : Document) (t : Z)
    (opts : gmap string JsValue) : State :=
  run (adshareModal (OptsObject opts);; expire 0)
      (loaded (sessionStorage c) (funnelmecfg c) language d t).

(** The default configuration with an English browser at time 1000:
    the Taboola variant in a modal, the countdown running. *)
Definition runningCountdown : State := displayed plainPage "en-US" sitePage 1000 ∅.

(** The same page after the site has marked it as a 404 page while the
    modal is open. *)
Definition marked404 (s : State) : State :=
  set_document (doc_marker404 (Some true) (document s)) s.

(** A freshly loaded site page with the default configuration applied. *)
Definition configured : State :=
  run (adshareModal (OptsObject ∅)) (loaded (StorageItems ∅) None "en-US" sitePage 1000).

(** Caller options selecting the video experiment. *)
Definition wantsVideo : gmap string JsValue := {[ "content" := JStr "optimizely1" ]}.

(** [adshareModal({content: 'optimizely1'})] on the site page with an
    English browser: [displayAd] has shown the video variant in a modal. *)
Definition videoShown : State := displayed plainPage "en-US" sitePage 1000 wantsVideo.

(** The deferred set-up of the player has run. *)
Definition videoPlaying : State := run (expire 1) videoShown.

(** No ad has started when the clock shows 8000: the timeout of
    [videoAdTimeout] = 7000 ms expires. *)
Definition videoRetried : State := run (clock 8000;; expire 1) videoPlaying.

(** The deferred set-up of the retry has run. *)
Definition videoRecreated : State := run (expire 1) videoRetried.

(** Caller options selecting the native integration; [content] keeps
    its default 'smart'. *)
Definition wantsNative : gmap string JsValue := {[ "integration" := JStr "native" ]}.

(** [adshareModal({integration: 'native'})] on the site page with a
    German browser. *)
Definition nativeSmart : State := displayed plainPage "de-DE" sitePage 1000 wantsNative.


(** Caller options selecting the banner variant. *)
Definition wantsBanner : gmap string JsValue := {[ "content" := JStr "banner" ]}.

Definition bannerShown : State := displayed plainPage "en-US" sitePage 1000 wantsBanner.

(** The German visit with the default options at the moment the
    timeout of [adshareModal] expires: the timer is off the queue and
    [displayAd] is about to run. *)
Definition smartScheduled : State :=
  set_timers []
    (run (adshareModal (OptsObject ∅)) (loaded (StorageItems ∅) None "de-DE" sitePage 1000)).

(** Caller options whose countdown duration is no number:
    [{countdownDuration: 'soon'}]. *)
Definition wantsSoon : gmap string JsValue := {[ "countdownDuration" := JStr "soon" ]}.

Definition soonShown : State := displayed plainPage "en-US" sitePage 1000 wantsSoon.


(** ** Further notions: the configuration *)

(** The configuration with another session storage. *)
Definition withStorage (st : SessionStorage) (c : Config) : Config :=
  {| sessionStorage := st; funnelmecfg := funnelmecfg c; options := options c;
     moduleOptions := moduleOptions c |}.

(** The configuration once [determineOptionValue] has run in it:
    [funnelmecfg] and [options] are objects. *)
Definition normalized (c : Config) : Config :=
  {| sessionStorage := sessionStorage c;
     funnelmecfg := Some (default ∅ (funnelmecfg c));
     options := OptsObject (optsObject (options c));
     moduleOptions := moduleOptions c |}.

(** The names of the top-level properties of [defaultOptions] that hold
    a scalar. *)
Definition defaultKeys : list string :=
  [ "locale"; "afterClose"; "closeModalAutomatically"; "countdownDuration"; "timeout";
    "videoAdTimeout"; "bannerContentUnitId"; "content"; "header"; "integration";
    "position"; "assetPath"; "iframeUrl"; "adTagUrl"; "fallBackAdTagUrl";
    "premiumButtonUrl"; "debug"; "download"; "e404" ].

(** ** Further functions: escaping a search string *)

(** The characters of the class [[.*+?^=!:${}()|\[\]\/\\]]. *)
Definition regExpSpecials : list ascii :=
  [ "."; "*"; "+"; "?"; "^"; "="; "!"; ":"; "$"; "{"; "}"; "("; ")"; "|"; "[";
    "]"; "/"; "\" ]%char.

Definition isRegExpSpecial (c : ascii) : bool := existsb (Ascii.eqb c) regExpSpecials.

(** [escapeRegExp(str)]: [str.replace(/([.*+?^=!:${}()|\[\]\/\\])/g, "\\$1")]
    puts a backslash before every character of the class, for a string
    of 8-bit characters. *)
Fixpoint escapeRegExp (str : string) : string :=
  match str with
  | EmptyString => EmptyString
  | String c rest =>
      if isRegExpSpecial c then String "\" (String c (escapeRegExp rest))
      else String c (escapeRegExp rest)
  end.

(** The text a pattern spells out when it consists of ordinary
    characters and of escaped characters of the class only; [None] when
    a character of the class stands unescaped, or a backslash is
    followed by something else. *)
Fixpoint spelled (pattern : string) : option string :=
  match pattern with
  | EmptyString => Some EmptyString
  | String c rest =>
      if Ascii.eqb c "\" then
        match rest with
        | String d rest' =>
            if isRegExpSpecial d then String d <$> spelled rest' else None
        | EmptyString => None
        end
      else if isRegExpSpecial c then None
      else String c <$> spelled rest
  end.

(** The number of characters of the class in a string. *)
Fixpoint specialCount (str : string) : nat :=
  match str with
  | EmptyString => 0
  | String c rest => (if isRegExpSpecial c then 1 else 0) + specialCount rest
  end.

(** ** Further notions: what a step leaves alone *)

(** The timeout by which the countdown polls. *)
Definition tick : Timer := {| delay := JNum 100; callback := CountdownTimer |}.

(** What [closePopup] leaves as it finds it: everything but the two host
    references, the two player variables and the document. *)
Definition untouchedByClose (s s' : State) : Prop :=
  config s' = config s
  /\ error404 s' = error404 s
  /\ adsharecountdownstart s' = adsharecountdownstart s
  /\ startedVideoAd s' = startedVideoAd s
  /\ timers s' = timers s
  /\ now s' = now s
  /\ language s' = language s
  /\ createdPlayers s' = createdPlayers s
  /\ disposedPlayers s' = disposedPlayers s
  /\ marker404 (document s') = marker404 (document s)
  /\ pageIds (document s') = pageIds (document s)
  /\ length (boxes (document s')) = length (boxes (document s)).

(** What every step of the widget respects: [startedVideoAd] is not
    changed, [error404] is not reset, no timeout leaves the queue, and
    the clock and the browser language are the environment's. *)
Definition proceeds (s s' : State) : Prop :=
  startedVideoAd s' = startedVideoAd s
  /\ (error404 s = true -> error404 s' = true)
  /\ timers s `prefix_of` timers s'
  /\ now s' = now s
  /\ language s' = language s.

(** The countdown is not restarted. *)
Definition sameCountdown (s s' : State) : Prop :=
  adsharecountdownstart s' = adsharecountdownstart s
  /\ opt s' "countdownDuration" = opt s "countdownDuration".

(** The fake content boxes stay as they are. *)
Definition sameBoxes (s s' : State) : Prop := boxes (document s') = boxes (document s).

(** ** Further notions: the display functions *)


(** The names [displayAd] knows for [moduleOptions.content]. *)
Definition contentNames : list string :=
  [ "optimizely1"; "smart"; "mix1"; "mix2"; "videobanner"; "taboola"; "video";
    "taboola2ndcall"; "banner"; "contentad"; "contentadfunnel"; "iframe" ].

(** The box [displayContent404Iframe] appends. *)
Definition box404Iframe : Box :=
  newBox true {| header := None; fragment := Content404Iframe |}.


(** ** Further functions: messages from the frames *)

(** A message event as far as [receiveMessage] looks at it:
    [event.origin]; [event.originalEvent.origin] ([None]: the event has
    no [originalEvent]); and [event.data.type] ([None]: [event.data] is
    null or undefined, so that reading its [type] throws). *)
Record MessageEvent := {
  eventOrigin : JsValue;
  originalEventOrigin : option JsValue;
  dataType : option JsValue
}.

(** [document.querySelector('.pico-content iframe')] finds an element:
    a dialog node whose wrapper holds one of the fragments with an
    iframe (they all give it the id [adshare-banner-iframe]).  A dialog
    of the page's own is taken to hold no iframe. *)
Definition hasDialogIframe (d : Document) : bool :=
  existsb (fun n => match n with
                    | Some h => fragmentHasId (fragment h) "adshare-banner-iframe"
                    | None => false
                    end) (picoNodes d).

(** [receiveMessage(event)].  The size the 'resize' branch writes into
    the style of the iframe is not part of the state. *)
Definition receiveMessage (event : MessageEvent) : M unit :=
  if negb (truthy (eventOrigin event)) && negb (isSome (originalEventOrigin event))
  then throw TypeError
  else
    match dataType event with
    | None => throw TypeError
    | Some type =>
        if looseEqStr type "resize" then
          s <- get;;
          if hasDialogIframe (document s) then ret tt else throw TypeError
        else if looseEqStr type "displaybanner" then displayBannerAd
        else if looseEqStr type "taboola" then displayTalooba
        else if looseEqStr type "contentreco" then displayContentAd
        else if looseEqStr type "closepopup" then closePopup
        else if looseEqStr type "closetaboola" then displayContentAdFunnel
        else ret tt
    end.

(** The message types [receiveMessage] acts on. *)
Definition messageTypes : list string :=
  [ "resize"; "displaybanner"; "taboola"; "contentreco"; "closepopup"; "closetaboola" ].

(** An event whose origin can be read. *)
Definition hasOrigin (event : MessageEvent) : Prop :=
  truthy (eventOrigin event) = true \/ isSome (originalEventOrigin event) = true.

(** ** Further notions: the bound on the recursion *)

(** Wherever the first computation ends without running out of fuel,
    the second one does the same. *)
Definition agrees (m m' : M unit) : Prop :=
  forall s, fst (m s) <> Throws OutOfFuel -> m' s = m s.

(** ** Further example inputs *)

(** A page of the site without the element [#download]. *)
Definition pageWithoutDownload : Document :=
  {| marker404 := Some false; hasContentBoxContainer := true; hasDownload := false;
     hasSecondAC := true; pageIds := []; pageCloseButton := false;
     picoNodes := []; boxes := []; videoElementPlayer := None |}.

(** ** Further functions: the two schedulers *)

(** [scheduleAnotherAd] and [scheduleClosingOfPopup] keep two flags of
    their own and hand a function to [setTimeout(..., 50)]; the
    functions handed over and still pending are kept in a list next to
    the flags. *)
Inductive ScheduledCall := AnotherAd | ClosingOfPopup.

Record Scheduling := {
  closingOfPopupScheduled : bool;
  anotherAdScheduled : bool;
  scheduledCalls : list ScheduledCall
}.

(** The state of the widget together with that of the schedulers. *)
Definition Page : Type := State * Scheduling.

Definition scheduleAnotherAd (p : Page) : Page :=
  let (s, w) := p in
  if negb (closingOfPopupScheduled w) && negb (anotherAdScheduled w) then
    (s, {| closingOfPopupScheduled := closingOfPopupScheduled w;
           anotherAdScheduled := true;
           scheduledCalls := scheduledCalls w ++ [AnotherAd] |})
  else p.

Definition scheduleClosingOfPopup (p : Page) : Page :=
  let (s, w) := p in
  if negb (closingOfPopupScheduled w) && negb (anotherAdScheduled w)
     && isSome (modal s) && truthy (opt s "closeModalAutomatically") then
    (s, {| closingOfPopupScheduled := true;
           anotherAdScheduled := anotherAdScheduled w;
           scheduledCalls := scheduledCalls w ++ [ClosingOfPopup] |})
  else p.

(** The function handed to [setTimeout]: the call, then the reset of the
    flag, which is skipped when the call throws. *)
Definition runScheduled (c : ScheduledCall) (p : Page) : Outcome unit * Page :=
  let (s, w) := p in
  match c with
  | AnotherAd =>
      match displayAd s with
      | (Normal _, s') =>
          (Normal tt,
           (s', {| closingOfPopupScheduled := closingOfPopupScheduled w;
                   anotherAdScheduled := false;
                   scheduledCalls := scheduledCalls w |}))
      | (Throws e, s') => (Throws e, (s', w))
      end
  | ClosingOfPopup =>
      match closePopup s with
      | (Normal _, s') =>
          (Normal tt,
           (s', {| closingOfPopupScheduled := false;
                   anotherAdScheduled := anotherAdScheduled w;
                   scheduledCalls := scheduledCalls w |}))
      | (Throws e, s') => (Throws e, (s', w))
      end
  end.

(** The pending call at position [i] is due: it leaves the list and
    runs. *)
Definition expireScheduled (i : nat) (p : Page) : Outcome unit * Page :=
  match scheduledCalls (snd p) !! i with
  | Some c =>
      runScheduled c
        (fst p, {| closingOfPopupScheduled := closingOfPopupScheduled (snd p);
                   anotherAdScheduled := anotherAdScheduled (snd p);
                   scheduledCalls := delete i (scheduledCalls (snd p)) |})
  | None => (Normal tt, p)
  end.

Definition nothingScheduled : Scheduling :=
  {| closingOfPopupScheduled := false; anotherAdScheduled := false; scheduledCalls := [] |}.

(** The pages that can be reached once the script is loaded: by the two
    schedulers, by a pending call becoming due, and by anything else
    that changes the state of the widget only. *)
Inductive reachable : Page -> Prop :=
| reach_loaded s : reachable (s, nothingScheduled)
| reach_widget s s' w : reachable (s, w) -> reachable (s', w)
| reach_another p : reachable p -> reachable (scheduleAnotherAd p)
| reach_closing p : reachable p -> reachable (scheduleClosingOfPopup p)
| reach_expire i p : reachable p -> reachable (snd (expireScheduled i p)).

(** What the two flags are there for. *)
Definition oneAtATime (w : Scheduling) : Prop :=
  (closingOfPopupScheduled w && anotherAdScheduled w = false)
  /\ (length (scheduledCalls w) <= 1)%nat
  /\ (In AnotherAd (scheduledCalls w) -> anotherAdScheduled w = true)
  /\ (In ClosingOfPopup (scheduledCalls w) -> closingOfPopupScheduled w = true)
  /\ (closingOfPopupScheduled w = false -> anotherAdScheduled w = false ->
      scheduledCalls w = []).

(** * Theorems *)

(** ** The configuration resolver *)

Lemma jsOr_truthy a b : truthy a = true -> jsOr a b = a.
Proof. unfold jsOr. intros ->. reflexivity. Qed.

Lemma jsOr_falsy a b : truthy a = false -> jsOr a b = b.
Proof. unfold jsOr. intros ->. reflexivity. Qed.

Lemma truthy_jsOr a b : truthy (jsOr a b) = truthy a || truthy b.
Proof. unfold jsOr. destruct (truthy a) eqn:E; [exact E|reflexivity]. Qed.

Lemma determineOptionValue_firstTruthy name c :
  fst (determineOptionValue name c)
  = firstTruthy (sessionStorage c) (funnelmecfg c) (optsObject (options c)) name
      (moGet (moduleOptions c) name).
Proof.
  unfold determineOptionValue, firstTruthy, sessionItem. cbn [fst].
  generalize (getProp (default ∅ (funnelmecfg c)) name) as v1.
  generalize (getProp (optsObject (options c)) name) as v2.
  intros v2 v1.
  assert (Hchain : forall v, truthy v = false ->
            jsOr (jsOr (jsOr v v1) v2) (moGet (moduleOptions c) name)
            = if truthy v1 then v1 else if truthy v2 then v2
              else moGet (moduleOptions c) name).
  { intros v Hv. rewrite (jsOr_falsy v) by exact Hv.
    destruct (truthy v1) eqn:E1.
    - rewrite (jsOr_truthy v1) by exact E1. apply jsOr_truthy, E1.
    - rewrite (jsOr_falsy v1) by exact E1. unfold jsOr. reflexivity. }
  destruct (sessionStorage c) as [| |items]; cbn [getSessionStorageOverride].
  1,2: apply Hchain; reflexivity.
  destruct (items !! name) as [v|]; [|apply Hchain; reflexivity].
  destruct (negb (String.eqb v "")) eqn:E0.
  - rewrite (jsOr_truthy (JStr v) v1) by exact E0.
    rewrite (jsOr_truthy (JStr v) v2) by exact E0.
    apply jsOr_truthy. exact E0.
  - apply Hchain. exact E0.
Qed.

(** What one resolving assignment leaves alone. *)
Lemma resolveInto_sources c a :
  sessionStorage (resolveInto c a) = sessionStorage c
  /\ default ∅ (funnelmecfg (resolveInto c a)) = default ∅ (funnelmecfg c)
  /\ optsObject (options (resolveInto c a)) = optsObject (options c).
Proof. destruct a as [t n]. unfold resolveInto. cbn. auto. Qed.

Lemma firstTruthy_sources st cfg cfg' o name d :
  default ∅ cfg = default ∅ cfg' ->
  firstTruthy st cfg o name d = firstTruthy st cfg' o name d.
Proof. unfold firstTruthy. intros ->. reflexivity. Qed.

Lemma moGet_plain m k : ~ special k -> moGet m k = getProp (top m) k.
Proof.
  unfold special, moGet. intros H.
  destruct (String.eqb_spec k "playerOptions") as [->|_]; [tauto|].
  destruct (String.eqb_spec k "ima") as [->|_]; [tauto|]. reflexivity.
Qed.

Lemma resolveInto_other c a k :
  fst a <> TopLevel k ->
  top (moduleOptions (resolveInto c a)) !! k = top (moduleOptions c) !! k.
Proof.
  destruct a as [[k'|] n]; unfold resolveInto; cbn; intros H; [|reflexivity].
  apply lookup_insert_ne. congruence.
Qed.

Lemma resolveInto_same c k n :
  top (moduleOptions (resolveInto c (TopLevel k, n))) !! k
  = Some (fst (determineOptionValue n c)).
Proof. unfold resolveInto. cbn. apply lookup_insert_eq. Qed.

Lemma fold_resolveInto_sources l : forall c,
  sessionStorage (fold_left resolveInto l c) = sessionStorage c
  /\ default ∅ (funnelmecfg (fold_left resolveInto l c)) = default ∅ (funnelmecfg c)
  /\ optsObject (options (fold_left resolveInto l c)) = optsObject (options c).
Proof.
  induction l as [|a l IH]; intros c; cbn [fold_left]; [auto|].
  destruct (IH (resolveInto c a)) as (H1 & H2 & H3).
  destruct (resolveInto_sources c a) as (G1 & G2 & G3).
  rewrite H1, H2, H3. auto.
Qed.

Lemma fold_resolveInto_other l : forall c k,
  TopLevel k ∉ (fst <$> l) ->
  top (moduleOptions (fold_left resolveInto l c)) !! k = top (moduleOptions c) !! k.
Proof.
  induction l as [|a l IH]; intros c k H; cbn [fold_left]; [reflexivity|].
  rewrite fmap_cons in H. apply not_elem_of_cons in H as [H1 H2].
  rewrite IH by exact H2. apply resolveInto_other. congruence.
Qed.

Lemma resolveInto_moGet_other c a k :
  fst a <> TopLevel k ->
  moGet (moduleOptions (resolveInto c a)) k = moGet (moduleOptions c) k.
Proof.
  destruct a as [[k'|] n]; unfold resolveInto, moGet; cbn; intros H.
  - unfold getProp. rewrite lookup_insert_ne by congruence. reflexivity.
  - destruct (playerOptions (moduleOptions c)); reflexivity.
Qed.

Lemma fold_resolveInto_same l : forall c k,
  NoDup (fst <$> l) ->
  (TopLevel k, k) ∈ l ->
  top (moduleOptions (fold_left resolveInto l c)) !! k
  = Some (firstTruthy (sessionStorage c) (funnelmecfg c) (optsObject (options c)) k
            (moGet (moduleOptions c) k)).
Proof.
  induction l as [|a l IH]; intros c k Hnd Hin; [by apply elem_of_nil in Hin|].
  rewrite fmap_cons in Hnd. apply NoDup_cons in Hnd as [Hfresh Hnd].
  cbn [fold_left]. apply elem_of_cons in Hin as [<-|Hin].
  - rewrite fold_resolveInto_other by exact Hfresh.
    rewrite resolveInto_same. f_equal. apply determineOptionValue_firstTruthy.
  - rewrite (IH _ _ Hnd Hin).
    assert (Hne : fst a <> TopLevel k).
    { intros Heq. apply Hfresh. rewrite Heq.
      apply (list_elem_of_fmap_2 fst _ _ Hin). }
    destruct (resolveInto_sources c a) as (G1 & G2 & G3).
    rewrite G1, G3, (resolveInto_moGet_other _ _ _ Hne).
    rewrite (firstTruthy_sources _ _ _ _ _ _ G2). reflexivity.
Qed.

Lemma resolvedOptions_NoDup : NoDup (fst <$> resolvedOptions).
Proof. apply (bool_decide_unpack _). vm_compute. exact I. Qed.
Lemma postprocess_top c :
  top (moduleOptions (postprocess c))
  = <["download" := normalizeBoolean (moGet (moduleOptions c) "download")]>
      (<["closeModalAutomatically" :=
           normalizeBoolean
             (if leZero (moGet (moduleOptions c) "countdownDuration") then JBool false
              else moGet (moduleOptions c) "closeModalAutomatically")]>
         (top (moduleOptions c))).
Proof.
  unfold postprocess. cbn -[leZero normalizeBoolean].
  destruct (leZero (getProp (top (moduleOptions c)) "countdownDuration")).
  - cbn -[normalizeBoolean]. unfold getProp.
    rewrite lookup_insert_eq. cbn [default normalizeBoolean].
    rewrite insert_insert_eq.
    rewrite lookup_insert_ne by done. reflexivity.
  - unfold getProp.
    rewrite lookup_insert_ne by done. reflexivity.
Qed.

Lemma postprocess_ima_debug c :
  imaField ima_debug (moduleOptions (postprocess c))
  = match ima (moduleOptions c) with
    | Some _ => moGet (moduleOptions c) "debug"
    | None => JUndefined
    end.
Proof.
  unfold postprocess, imaField.
  destruct (leZero (moGet (moduleOptions c) "countdownDuration"));
    cbn -[normalizeBoolean];
    destruct (ima (moduleOptions c)); cbn -[normalizeBoolean]; try reflexivity;
    unfold getProp; rewrite !lookup_insert_ne by done; reflexivity.
Qed.

Lemma applyOptions_top c o k :
  (TopLevel k, k) ∈ resolvedOptions ->
  top (moduleOptions (fold_left resolveInto resolvedOptions (resolving c (OptsObject o)))) !! k
  = Some (resolvedValue c o k).
Proof.
  intros Hin. rewrite (fold_resolveInto_same _ _ _ resolvedOptions_NoDup Hin).
  reflexivity.
Qed.

Lemma resolved_moGet c o k :
  (TopLevel k, k) ∈ resolvedOptions ->
  moGet (moduleOptions (fold_left resolveInto resolvedOptions (resolving c (OptsObject o)))) k
  = resolvedValue c o k.
Proof.
  intros Hin. rewrite moGet_plain.
  - unfold getProp. rewrite (applyOptions_top _ _ _ Hin). reflexivity.
  - intros [->| ->]; revert Hin; apply (bool_decide_unpack _); vm_compute; exact I.
Qed.

Ltac in_list := cbn; repeat (first [left; reflexivity | right]).

Ltac in_resolved := apply (bool_decide_unpack _); vm_compute; exact I.

(** C1, refuted as stated.  The caller passes [{countdownDuration: 0}],
    session storage is empty and the page defines no [funnelmecfg]: the
    caller-supplied option is present, yet the resolver and
    [applyOptions] give the built-in default 30. *)
Lemma precedence_by_presence_counterexample :
  firstPresent (sessionStorage plainPage) (funnelmecfg plainPage) noCountdown
    "countdownDuration" (moGet defaultOptions "countdownDuration") = JNum 0
  /\ fst (determineOptionValue "countdownDuration"
            (resolving plainPage (OptsObject noCountdown))) = JNum 30
  /\ top (configOf (OptsObject noCountdown) plainPage) !! "countdownDuration"
     = Some (JNum 30).
Proof. vm_compute. auto. Qed.

(** C1, amended.  For every top-level key that [applyOptions] stores as
    resolved, the value of [determineOptionValue], and with it the value
    [applyOptions] stores when it is given an options object, is the
    first truthy one among the session-storage item (storage present,
    readable, item not empty), [funnelmecfg[key]] and the caller's
    option, in that order, and the built-in default when none of the
    three is truthy. *)
Theorem applyOptions_first_truthy (c : Config) (o : gmap string JsValue) (k : string) :
  In k plainKeys ->
  fst (determineOptionValue k (resolving c (OptsObject o))) = resolvedValue c o k
  /\ top (configOf (OptsObject o) c) !! k = Some (resolvedValue c o k).
Proof.
  intros Hk. split.
  - rewrite determineOptionValue_firstTruthy. reflexivity.
  - unfold configOf, applyOptions. rewrite postprocess_top.
    cbn in Hk.
    repeat (destruct Hk as [<-|Hk]; [
      rewrite !lookup_insert_ne by done; apply applyOptions_top; in_resolved |]).
    destruct Hk.
Qed.

Lemma applyOptions_first_truthy_witness :
  In "content" plainKeys
  /\ top (configOf (OptsObject wantsIframe) overriddenPage) !! "content"
     = Some (JStr "banner").
Proof.
  split; [in_list|].
  exact (proj2 (applyOptions_first_truthy overriddenPage wantsIframe "content"
                  ltac:(in_list))).
Defined.

(** C5, refuted as stated.  Session storage holds
    [closeModalAutomatically = "true"], [countdownDuration = "0"] and
    [debug = "false"].  The string "true" resolved for
    [closeModalAutomatically] ends as [false], because the countdown
    guard runs first; and [ima.debug] ends as the string "false" copied
    from [debug], not as a boolean. *)
Lemma string_booleans_counterexample :
  resolvedValue testerPage ∅ "closeModalAutomatically" = JStr "true"
  /\ top (configOf (OptsObject ∅) testerPage) !! "closeModalAutomatically"
     = Some (JBool false)
  /\ resolvedValue testerPage ∅ "debug" = JStr "false"
  /\ imaField ima_debug (configOf (OptsObject ∅) testerPage) = JStr "false".
Proof. vm_compute. auto. Qed.

(** C5, amended.  After [applyOptions], given an options object,
    [download] is an actual boolean whenever its resolved value was a
    string: [true] for "true", [false] for any other string.  The same
    holds for [closeModalAutomatically] when [countdownDuration] did not
    resolve to a value [<= 0]; when it did, [closeModalAutomatically] is
    the boolean [false] whatever was resolved. *)
Theorem applyOptions_string_booleans (c : Config) (o : gmap string JsValue) :
  (forall s, resolvedValue c o "download" = JStr s ->
     top (configOf (OptsObject o) c) !! "download" = Some (JBool (String.eqb s "true")))
  /\ (forall s, resolvedValue c o "closeModalAutomatically" = JStr s ->
       leZero (resolvedValue c o "countdownDuration") = false ->
       top (configOf (OptsObject o) c) !! "closeModalAutomatically"
       = Some (JBool (String.eqb s "true")))
  /\ (leZero (resolvedValue c o "countdownDuration") = true ->
       top (configOf (OptsObject o) c) !! "closeModalAutomatically" = Some (JBool false)).
Proof.
  unfold configOf, applyOptions. rewrite postprocess_top.
  rewrite !resolved_moGet by in_resolved.
  split; [|split].
  - intros s Hs. rewrite lookup_insert_eq, Hs. reflexivity.
  - intros s Hs Hd. rewrite lookup_insert_ne by done.
    rewrite lookup_insert_eq, Hd, Hs. reflexivity.
  - intros Hd. rewrite lookup_insert_ne by done.
    rewrite lookup_insert_eq, Hd. reflexivity.
Qed.

Lemma applyOptions_string_booleans_witness :
  (resolvedValue testerPage ∅ "download" = JStr "false"
   /\ top (configOf (OptsObject ∅) testerPage) !! "download" = Some (JBool false))
  /\ (resolvedValue overriddenPage truthyStrings "closeModalAutomatically" = JStr "true"
      /\ leZero (resolvedValue overriddenPage truthyStrings "countdownDuration") = false
      /\ top (configOf (OptsObject truthyStrings) overriddenPage) !! "closeModalAutomatically"
         = Some (JBool true))
  /\ (leZero (resolvedValue testerPage ∅ "countdownDuration") = true
      /\ top (configOf (OptsObject ∅) testerPage) !! "closeModalAutomatically"
         = Some (JBool false))
  /\ (leZero (resolvedValue fractionPage ∅ "countdownDuration") = true
      /\ top (configOf (OptsObject ∅) fractionPage) !! "closeModalAutomatically"
         = Some (JBool false))
  /\ (resolvedValue blanksPage ∅ "closeModalAutomatically" = JStr "true"
      /\ leZero (resolvedValue blanksPage ∅ "countdownDuration") = false
      /\ top (configOf (OptsObject ∅) blanksPage) !! "closeModalAutomatically"
         = Some (JBool true)).
Proof.
  split; [|split; [|split; [|split]]].
  - split; [reflexivity|].
    exact (proj1 (applyOptions_string_booleans testerPage ∅) "false" eq_refl).
  - split; [reflexivity|]. split; [reflexivity|].
    exact (proj1 (proj2 (applyOptions_string_booleans overriddenPage truthyStrings))
             "true" eq_refl eq_refl).
  - split; [reflexivity|].
    exact (proj2 (proj2 (applyOptions_string_booleans testerPage ∅)) eq_refl).
  - assert (H : leZero (resolvedValue fractionPage ∅ "countdownDuration") = true)
      by (vm_compute; reflexivity).
    split; [exact H|].
    exact (proj2 (proj2 (applyOptions_string_booleans fractionPage ∅)) H).
  - assert (H : leZero (resolvedValue blanksPage ∅ "countdownDuration") = false)
      by (vm_compute; reflexivity).
    split; [reflexivity|]. split; [exact H|].
    exact (proj1 (proj2 (applyOptions_string_booleans blanksPage ∅)) "true" eq_refl H).
Defined.

Lemma optionNames_own name : In name optionNames -> objectPrototype name = JUndefined.
Proof.
  cbn. intros H. repeat (destruct H as [<-|H]; [reflexivity|]). destruct H.
Qed.

Lemma falsyValues_falsy x : In x falsyValues -> truthy x = false.
Proof. cbn. intros [<-|[<-|[<-|[<-|[]]]]]; reflexivity. Qed.

Lemma jsOr_skip a x y p :
  truthy x = false -> truthy y = false -> jsOr (jsOr a x) p = jsOr (jsOr a y) p.
Proof.
  intros Hx Hy. unfold jsOr. destruct (truthy a) eqn:Ha.
  - rewrite Ha. reflexivity.
  - rewrite Hx, Hy. reflexivity.
Qed.

Lemma determineOptionValue_chain name c :
  fst (determineOptionValue name c)
  = jsOr (jsOr (jsOr (storedValue c name) (configuredValue c name)) (passedValue c name))
      (builtinValue c name).
Proof. reflexivity. Qed.

(** C8.  A falsy value at a source of [determineOptionValue] is treated
    as if the source did not hold the key, and the resolution falls
    through to the next source.  For every option key: the empty string
    in session storage, and [false], [0], [null] or the empty string in
    [funnelmecfg] or in the caller's options, give the result the
    resolver gives without that entry.  Where nothing truthy is stored,
    the result is the [funnelmecfg] value when that is truthy; where
    that is falsy too, the caller's option when that is truthy; and the
    built-in default when all three are falsy.  In particular a caller
    option set to [false] or [0] never overrides a truthy built-in
    default: the result is truthy, hence another value, and it is that
    default unless session storage or [funnelmecfg] gives a truthy
    value. *)
Theorem determineOptionValue_falsy_is_absent (name : string) (c : Config) :
  In name optionNames ->
  (sessionItem (sessionStorage c) name = Some "" ->
     fst (determineOptionValue name c)
     = fst (determineOptionValue name (dropSessionItem name c)))
  /\ (forall x, In x falsyValues -> default ∅ (funnelmecfg c) !! name = Some x ->
       fst (determineOptionValue name c)
       = fst (determineOptionValue name (dropFunnelmecfg name c)))
  /\ (forall x, In x falsyValues -> optsObject (options c) !! name = Some x ->
       fst (determineOptionValue name c)
       = fst (determineOptionValue name (dropOption name c)))
  /\ (truthy (storedValue c name) = false ->
      (truthy (configuredValue c name) = true ->
         fst (determineOptionValue name c) = configuredValue c name)
      /\ (truthy (configuredValue c name) = false ->
          truthy (passedValue c name) = true ->
            fst (determineOptionValue name c) = passedValue c name)
      /\ (truthy (configuredValue c name) = false ->
          truthy (passedValue c name) = false ->
            fst (determineOptionValue name c) = builtinValue c name))
  /\ (sessionItem (sessionStorage c) name = Some "" -> truthy (storedValue c name) = false)
  /\ (forall x, In x falsyValues -> default ∅ (funnelmecfg c) !! name = Some x ->
        truthy (configuredValue c name) = false)
  /\ (forall x, In x falsyValues -> optsObject (options c) !! name = Some x ->
        truthy (passedValue c name) = false)
  /\ (forall x, x = JBool false \/ x = JNum 0 ->
       optsObject (options c) !! name = Some x ->
       truthy (builtinValue c name) = true ->
       truthy (fst (determineOptionValue name c)) = true
       /\ fst (determineOptionValue name c) <> x
       /\ (truthy (storedValue c name) = false ->
           truthy (configuredValue c name) = false ->
           fst (determineOptionValue name c) = builtinValue c name)).
Proof.
  intros Hname. pose proof (optionNames_own name Hname) as Hown.
  assert (Hcfg : forall x, default ∅ (funnelmecfg c) !! name = Some x ->
                           configuredValue c name = x).
  { intros x Hc. unfold configuredValue, getProp. rewrite Hc. reflexivity. }
  assert (Hopt : forall x, optsObject (options c) !! name = Some x ->
                           passedValue c name = x).
  { intros x Ho. unfold passedValue, getProp. rewrite Ho. reflexivity. }
  assert (Hthrough : truthy (storedValue c name) = false ->
            truthy (configuredValue c name) = false ->
            truthy (passedValue c name) = false ->
            fst (determineOptionValue name c) = builtinValue c name).
  { intros Hs Hc Ho. rewrite determineOptionValue_chain.
    rewrite (jsOr_falsy _ _ Hs), (jsOr_falsy _ _ Hc). apply jsOr_falsy, Ho. }
  split; [|split; [|split; [|split; [|split; [|split; [|split]]]]]].
  - intros Hs. rewrite !determineOptionValue_chain.
    unfold storedValue, configuredValue, passedValue, builtinValue, dropSessionItem.
    cbn [sessionStorage funnelmecfg options moduleOptions].
    unfold sessionItem in Hs. destruct (sessionStorage c) as [| |items]; try discriminate.
    cbn [getSessionStorageOverride]. rewrite Hs, lookup_delete_eq.
    rewrite !(jsOr_falsy (JStr "")), !(jsOr_falsy JNull) by reflexivity. reflexivity.
  - intros x Hx Hc. rewrite !determineOptionValue_chain.
    assert (E2 : configuredValue (dropFunnelmecfg name c) name = JUndefined).
    { unfold configuredValue, dropFunnelmecfg, getProp. cbn [funnelmecfg].
      destruct (funnelmecfg c); cbn; [rewrite lookup_delete_eq|rewrite lookup_empty];
        exact Hown. }
    rewrite E2, (Hcfg x Hc).
    change (storedValue (dropFunnelmecfg name c) name) with (storedValue c name).
    change (passedValue (dropFunnelmecfg name c) name) with (passedValue c name).
    change (builtinValue (dropFunnelmecfg name c) name) with (builtinValue c name).
    rewrite (jsOr_skip (storedValue c name) x JUndefined);
      [reflexivity|apply falsyValues_falsy, Hx|reflexivity].
  - intros x Hx Ho. rewrite !determineOptionValue_chain.
    assert (E2 : passedValue (dropOption name c) name = JUndefined).
    { unfold passedValue, dropOption, getProp. cbn [options optsObject].
      rewrite lookup_delete_eq. exact Hown. }
    rewrite E2, (Hopt x Ho).
    change (storedValue (dropOption name c) name) with (storedValue c name).
    change (configuredValue (dropOption name c) name) with (configuredValue c name).
    change (builtinValue (dropOption name c) name) with (builtinValue c name).
    apply jsOr_skip; [apply falsyValues_falsy, Hx|reflexivity].
  - intros Hs. split; [|split].
    + intros Hc. rewrite determineOptionValue_chain, (jsOr_falsy _ _ Hs).
      rewrite (jsOr_truthy _ (passedValue c name) Hc). apply jsOr_truthy, Hc.
    + intros Hc Ho. rewrite determineOptionValue_chain.
      rewrite (jsOr_falsy _ _ Hs), (jsOr_falsy _ _ Hc). apply jsOr_truthy, Ho.
    + exact (Hthrough Hs).
  - intros Hs. unfold storedValue, sessionItem in *.
    destruct (sessionStorage c) as [| |items]; try discriminate.
    cbn [getSessionStorageOverride]. rewrite Hs. reflexivity.
  - intros x Hx Hc. rewrite (Hcfg x Hc). apply falsyValues_falsy, Hx.
  - intros x Hx Ho. rewrite (Hopt x Ho). apply falsyValues_falsy, Hx.
  - intros x Hx Ho Hd.
    assert (Hxf : truthy x = false) by (destruct Hx as [->| ->]; reflexivity).
    assert (Ht : truthy (fst (determineOptionValue name c)) = true).
    { rewrite determineOptionValue_chain, !truthy_jsOr, Hd. apply orb_true_r. }
    split; [exact Ht|]. split.
    + intros Heq. rewrite Heq, Hxf in Ht. discriminate.
    + intros Hs Hc. apply Hthrough; [exact Hs|exact Hc|].
      rewrite (Hopt x Ho). exact Hxf.
Qed.

Lemma determineOptionValue_falsy_is_absent_witness :
  In "content" optionNames
  /\ In "download" optionNames
  /\ (sessionItem (sessionStorage emptyItemPage) "content" = Some ""
      /\ fst (determineOptionValue "content" emptyItemPage) = JStr "video")
  /\ (In (JNull) falsyValues
      /\ default ∅ (funnelmecfg nullCfgPage) !! "content" = Some JNull
      /\ fst (determineOptionValue "content" nullCfgPage) = JStr "smart")
  /\ (truthy (storedValue emptyItemPage "content") = false
      /\ truthy (configuredValue emptyItemPage "content") = true
      /\ fst (determineOptionValue "content" emptyItemPage)
         = configuredValue emptyItemPage "content")
  /\ (In "countdownDuration" optionNames
      /\ truthy (storedValue zeroCfgPage "countdownDuration") = false
      /\ truthy (configuredValue zeroCfgPage "countdownDuration") = false
      /\ truthy (passedValue zeroCfgPage "countdownDuration") = true
      /\ fst (determineOptionValue "countdownDuration" zeroCfgPage) = JNum 10)
  /\ ((JBool false = JBool false \/ JBool false = JNum 0)
      /\ optsObject (options (resolving plainPage (OptsObject noDownload))) !! "download"
         = Some (JBool false)
      /\ truthy (builtinValue (resolving plainPage (OptsObject noDownload)) "download") = true
      /\ truthy (fst (determineOptionValue "download"
                        (resolving plainPage (OptsObject noDownload)))) = true
      /\ fst (determineOptionValue "download" (resolving plainPage (OptsObject noDownload)))
         <> JBool false
      /\ fst (determineOptionValue "download" (resolving plainPage (OptsObject noDownload)))
         = JBool true).
Proof.
  assert (Hc : In "content" optionNames) by in_list.
  assert (Hd : In "download" optionNames) by in_list.
  assert (Hn : In "countdownDuration" optionNames) by in_list.
  split; [exact Hc|]. split; [exact Hd|]. split; [|split; [|split; [|split]]].
  - split; [reflexivity|].
    exact (proj1 (determineOptionValue_falsy_is_absent "content" emptyItemPage Hc) eq_refl).
  - split; [in_list|]. split; [reflexivity|].
    exact (proj1 (proj2 (determineOptionValue_falsy_is_absent "content" nullCfgPage Hc))
             JNull ltac:(in_list) eq_refl).
  - split; [reflexivity|]. split; [reflexivity|].
    exact (proj1 (proj1 (proj2 (proj2 (proj2
             (determineOptionValue_falsy_is_absent "content" emptyItemPage Hc))))
             eq_refl) eq_refl).
  - split; [exact Hn|]. split; [reflexivity|]. split; [reflexivity|]. split; [reflexivity|].
    exact (proj1 (proj2 (proj1 (proj2 (proj2 (proj2
             (determineOptionValue_falsy_is_absent "countdownDuration" zeroCfgPage Hn))))
             eq_refl)) eq_refl eq_refl).
  - split; [left; reflexivity|]. split; [reflexivity|]. split; [reflexivity|].
    destruct (proj2 (proj2 (proj2 (proj2 (proj2 (proj2 (proj2
                (determineOptionValue_falsy_is_absent "download"
                   (resolving plainPage (OptsObject noDownload)) Hd)))))))
                (JBool false) (or_introl eq_refl) eq_refl eq_refl) as (H1 & H2 & H3).
    split; [exact H1|]. split; [exact H2|]. exact (H3 eq_refl eq_refl).
Defined.

(** ** The countdown *)

Lemma opt_set_now s t name : opt (set_now t s) name = opt s name.
Proof. reflexivity. Qed.


(** The conversion of strings to numbers on some literals: blanks are
    trimmed, fractions, exponents and the three prefixes are read, and
    the value is rounded to the nearest double. *)
Lemma stringToNumber_examples :
  stringToNumber "" = Integer 0
  /\ stringToNumber "   " = Integer 0
  /\ stringToNumber " 7 " = Integer 7
  /\ stringToNumber "007" = Integer 7
  /\ stringToNumber "-30" = Integer (-30)
  /\ stringToNumber "1.0" = Integer 1
  /\ stringToNumber "0.0" = Integer 0
  /\ stringToNumber "-0" = Integer 0
  /\ stringToNumber "1e1" = Integer 10
  /\ stringToNumber "5." = Integer 5
  /\ stringToNumber "0x1A" = Integer 26
  /\ stringToNumber "0b101" = Integer 5
  /\ stringToNumber "0o17" = Integer 15
  /\ stringToNumber "2.5" = NonInteger (S754_finite false 5629499534213120 (-51))
  /\ stringToNumber "-0.5" = NonInteger (S754_finite true 4503599627370496 (-53))
  /\ stringToNumber ".1" = NonInteger (S754_finite false 7205759403792794 (-56))
  /\ stringToNumber "-Infinity" = NonInteger (S754_infinity true)
  /\ stringToNumber "1e400" = NonInteger (S754_infinity false)
  /\ stringToNumber "1e-400" = Integer 0
  /\ stringToNumber "9007199254740993" = Integer 9007199254740992
  /\ stringToNumber "1.00000000000000001" = Integer 1
  /\ stringToNumber "soon" = NaN
  /\ stringToNumber "1e" = NaN
  /\ stringToNumber "." = NaN
  /\ stringToNumber "-0x10" = NaN
  /\ stringToNumber "1 2" = NaN
  /\ stringToNumber "infinity" = NaN.
Proof. vm_compute. repeat split. Qed.

Lemma comparison_examples :
  leZero (JStr "-0.5") = true
  /\ leZero (JStr "0.0") = true
  /\ leZero (JStr " 0 ") = true
  /\ leZero (JStr "2.5") = false
  /\ leZero (JStr "soon") = false
  /\ leZero JNull = true
  /\ leZero JUndefined = false
  /\ gtZero (JStr "2.5") = true
  /\ gtZero (JStr " 7 ") = true
  /\ gtZero (JStr "1e-400") = false
  /\ looseEqTrue (JStr "1.0") = true
  /\ looseEqTrue (JStr "true") = false
  /\ looseEqTrue (JNum 1) = true
  /\ looseEqStr (JNum 1) "1.0" = true
  /\ looseEqStr (JBool true) "1" = true
  /\ looseEqStr JObj "native" = false.
Proof. vm_compute. repeat split. Qed.



(** ** Localisation *)

Lemma eqNumber_NaN a : eqNumber a NaN = false.
Proof. destruct a; reflexivity. Qed.

Ltac plain_literal := split; vm_compute; reflexivity.

Lemma looseEqStr_literal v lit :
  plainLiteral lit -> looseEqStr v lit = true -> v = JStr lit.
Proof.
  intros [Hn Ho]. destruct v; cbn [looseEqStr]; rewrite ?Hn, ?Ho, ?eqNumber_NaN;
    try discriminate.
  intros H. apply String.eqb_eq in H. congruence.
Qed.

Lemma isValidLocale_spec v :
  isValidLocale v = true <-> exists l, In l locales /\ v = JStr l.
Proof.
  unfold isValidLocale. rewrite !orb_true_iff. split.
  - intros [[[[H|H]|H]|H]|H]; apply looseEqStr_literal in H; try plain_literal;
      subst; eexists; (split; [|reflexivity]); in_list.
  - intros (l & Hl & ->). cbn in Hl.
    destruct Hl as [<-|[<-|[<-|[<-|[<-|[]]]]]]; cbn; tauto.
Qed.


Lemma messages_lookup l : In l locales -> messages !! l = Some (localeTable l).
Proof.
  cbn. intros [<-|[<-|[<-|[<-|[<-|[]]]]]]; reflexivity.
Qed.





(** ** Reasoning about computations *)

Lemma bind_eq {A B} (m : M A) (k : A -> M B) s :
  bind m k s = match m s with
               | (Normal a, s') => k a s'
               | (Throws e, s') => (Throws e, s')
               end.
Proof. reflexivity. Qed.

Lemma bind_normal {A B} (m : M A) (k : A -> M B) s a s' :
  m s = (Normal a, s') -> bind m k s = k a s'.
Proof. intros H. rewrite bind_eq, H. reflexivity. Qed.

Lemma bind_throws {A B} (m : M A) (k : A -> M B) s e s' :
  m s = (Throws e, s') -> bind m k s = (Throws e, s').
Proof. intros H. rewrite bind_eq, H. reflexivity. Qed.

Lemma tryCatch_normal (m : M unit) s s' :
  m s = (Normal tt, s') -> tryCatch m s = (Normal tt, s').
Proof. unfold tryCatch. intros ->. reflexivity. Qed.

Lemma tryCatch_caught (m : M unit) s s' :
  m s = (Throws TypeError, s') -> tryCatch m s = (Normal tt, s').
Proof. unfold tryCatch. intros ->. reflexivity. Qed.

(** [destroyVideoJsPlayer()] never gets past [player.ima.dispose()]:
    all it does is forget the player. *)
Lemma destroyVideoJsPlayer_forgets s :
  destroyVideoJsPlayer false s
  = (Normal tt, set_playerInitialized false (set_player None s)).
Proof.
  unfold destroyVideoJsPlayer. rewrite bind_eq.
  unfold tryCatch. rewrite bind_eq. cbn [get].
  destruct (player s); reflexivity.
Qed.

(** *** Relations every step of a computation respects *)

Section Leads.
Context (R : State -> State -> Prop) `{!PreOrder R}.

Lemma leads_ret {A} (a : A) : leads R (ret a).
Proof. intros s. reflexivity. Qed.

Lemma leads_throw {A} e : leads R (@throw A e).
Proof. intros s. reflexivity. Qed.

Lemma leads_get : leads R get.
Proof. intros s. reflexivity. Qed.

Lemma leads_modify f : (forall s, R s (f s)) -> leads R (modify f).
Proof. intros H s. apply H. Qed.

Lemma leads_bind {A B} (m : M A) (k : A -> M B) :
  leads R m -> (forall a, leads R (k a)) -> leads R (bind m k).
Proof.
  intros Hm Hk s. rewrite bind_eq. specialize (Hm s).
  destruct (m s) as [[a|e] s']; cbn in *; [|exact Hm].
  transitivity s'; [exact Hm|apply Hk].
Qed.

Lemma leads_tryCatch m : leads R m -> leads R (tryCatch m).
Proof.
  intros Hm s. specialize (Hm s). unfold tryCatch.
  destruct (m s) as [[[]|[|]] s']; exact Hm.
Qed.

Lemma leads_when b m : leads R m -> leads R (when b m).
Proof. intros Hm. destruct b; [exact Hm|apply leads_ret]. Qed.

Lemma leads_at {A} (f : State -> M A) :
  (forall s0, leads R (f s0)) -> leads R (fun s => f s s).
Proof. intros H s. apply (H s s). Qed.
End Leads.

(** Breaks a computation into its steps. *)
Ltac leads_step :=
  first
    [ apply leads_ret; typeclasses eauto
    | apply leads_throw; typeclasses eauto
    | apply leads_get; typeclasses eauto
    | apply leads_bind; [typeclasses eauto| |intros ?]
    | apply leads_tryCatch
    | apply leads_when; [typeclasses eauto|]
    | match goal with
      | |- leads _ (match ?x with _ => _ end) => destruct x
      | |- leads _ (if ?x then _ else _) => destruct x
      end ].

Ltac leads_steps := repeat leads_step.

#[local] Instance shrinks_preorder : PreOrder shrinks.
Proof. split; [intros s; split; auto|]. intros a b c [H1 H2] [H3 H4]. split; auto. Qed.

#[local] Instance disposesNone_preorder : PreOrder disposesNone.
Proof. split; [intros s; reflexivity|]. intros a b c H1 H2. unfold disposesNone in *. congruence. Qed.

#[local] Instance staysForgotten_preorder : PreOrder staysForgotten.
Proof. split; [intros s H; exact H|]. intros a b c H1 H2 H. auto. Qed.

#[local] Instance staysWithoutMessages_preorder : PreOrder staysWithoutMessages.
Proof. split; [intros s H; exact H|]. intros a b c H1 H2 H. auto. Qed.

#[local] Instance sameHosts_preorder : PreOrder sameHosts.
Proof.
  split; [intros s; split; reflexivity|].
  intros a b c [H1 H2] [H3 H4]. split; congruence.
Qed.

#[local] Instance keepsNoModal_preorder : PreOrder keepsNoModal.
Proof. split; [intros s H; exact H|]. intros a b c H1 H2 H. auto. Qed.

#[local] Instance keepsNoContainer_preorder : PreOrder keepsNoContainer.
Proof. split; [intros s H; exact H|]. intros a b c H1 H2 H. auto. Qed.

#[local] Instance harmless_preorder : PreOrder harmless.
Proof.
  split; [intros s; split; reflexivity|].
  intros a b c [H1 H2] [H3 H4]. split; etransitivity; eassumption.
Qed.

Create HintDb leads discriminated.

(** A change of the state that one of the four relations admits. *)
Ltac allowed_change :=
  intros;
  first
    [ reflexivity
    | unfold shrinks; cbn; solve [auto]
    | unfold staysForgotten; cbn; solve [auto]
    | unfold sameHosts; cbn; solve [auto]
    | unfold keepsNoModal; cbn; solve [auto]
    | unfold keepsNoContainer; cbn; solve [auto]
    | unfold staysWithoutMessages, hasNoMessages; cbn;
      rewrite ?lookup_insert_ne by done; solve [auto]
    | unfold harmless, disposesNone, staysWithoutMessages, hasNoMessages; cbn;
      rewrite ?lookup_insert_ne by done; solve [auto] ].

Ltac leads_run :=
  repeat first
    [ solve [auto 1 with leads]
    | leads_step
    | apply leads_modify; solve [allowed_change] ].

Section LeadsPlayer.
Context (R : State -> State -> Prop) `{!PreOrder R}.
Hypothesis forgetting : forall s, R s (set_playerInitialized false (set_player None s)).
Hypothesis creating : forall s v d,
  R s (set_createdPlayers v (set_document (doc_videoElementPlayer d (document s)) s)).

Lemma leads_videojs : leads R videojs.
Proof.
  unfold videojs. leads_run.
Qed.

Lemma leads_destroyVideoJsPlayer b : leads R (destroyVideoJsPlayer b).
Proof.
  unfold destroyVideoJsPlayer. leads_step.
  2: { apply leads_modify. exact forgetting. }
  apply leads_tryCatch. destruct b.
  - change (leads R (_ <- videojs;; @throw unit TypeError)).
    leads_step; [apply leads_videojs|leads_step].
  - leads_step; [leads_step|]. destruct (player a).
    + change (leads R (@throw unit TypeError)). leads_step.
    + leads_step.
Qed.
End LeadsPlayer.

Lemma destroyVideoJsPlayer_shrinks b : leads shrinks (destroyVideoJsPlayer b).
Proof. apply leads_destroyVideoJsPlayer; [apply _|allowed_change..]. Qed.

Lemma destroyVideoJsPlayer_disposesNone b : leads disposesNone (destroyVideoJsPlayer b).
Proof. apply leads_destroyVideoJsPlayer; [apply _|allowed_change..]. Qed.

Lemma destroyVideoJsPlayer_staysForgotten b : leads staysForgotten (destroyVideoJsPlayer b).
Proof. apply leads_destroyVideoJsPlayer; [apply _|allowed_change..]. Qed.

Lemma destroyVideoJsPlayer_staysWithoutMessages b :
  leads staysWithoutMessages (destroyVideoJsPlayer b).
Proof. apply leads_destroyVideoJsPlayer; [apply _|allowed_change..]. Qed.

#[local] Hint Resolve destroyVideoJsPlayer_shrinks destroyVideoJsPlayer_disposesNone
  destroyVideoJsPlayer_staysForgotten destroyVideoJsPlayer_staysWithoutMessages : leads.

Lemma build_shrinks : leads shrinks build.
Proof.
  intros s. unfold build. rewrite bind_eq. cbn [get].
  destruct (modal s) as [m|] eqn:Hm; [|reflexivity].
  destruct (built m); [reflexivity|]. cbn. split; cbn; [congruence|auto].
Qed.

Lemma build_sameHosts : leads sameHosts build.
Proof.
  intros s. unfold build. rewrite bind_eq. cbn [get].
  destruct (modal s) as [m|] eqn:Hm; [|reflexivity].
  destruct (built m); [reflexivity|]. cbn. split; cbn; [rewrite Hm|]; reflexivity.
Qed.

Lemma build_keepsNoModal : leads keepsNoModal build.
Proof. intros s. exact (proj1 (build_shrinks s)). Qed.

Lemma build_keepsNoContainer : leads keepsNoContainer build.
Proof. intros s. exact (proj2 (build_shrinks s)). Qed.

#[local] Hint Resolve build_shrinks build_sameHosts build_keepsNoModal
  build_keepsNoContainer : leads.

Ltac unfold_widget :=
  cbv beta delta
    [setTimeout setOption modifyDocument writeBox writeNamedWrapper
     startCountdownTimer hideCloseButton showCloseButton createModalWindow
     modalShow appendBox createContainer create404Container callAfterClose
     removeFirstPicoContent removeContainer readCountdownMessage
     countdownCheck countdownTimer].

Lemma closePopupFuel_shrinks fuel : leads shrinks (closePopupFuel fuel).
Proof.
  induction fuel as [|fuel IH]; cbn [closePopupFuel]; [leads_step|].
  unfold_widget. leads_run.
Qed.

Lemma closePopupFuel_disposesNone fuel : leads disposesNone (closePopupFuel fuel).
Proof.
  induction fuel as [|fuel IH]; cbn [closePopupFuel]; [leads_step|].
  unfold_widget. cbv beta delta [build]. leads_run.
Qed.

Lemma closePopupFuel_staysForgotten fuel : leads staysForgotten (closePopupFuel fuel).
Proof.
  induction fuel as [|fuel IH]; cbn [closePopupFuel]; [leads_step|].
  unfold_widget. cbv beta delta [build]. leads_run.
Qed.

Lemma closePopupFuel_staysWithoutMessages fuel :
  leads staysWithoutMessages (closePopupFuel fuel).
Proof.
  induction fuel as [|fuel IH]; cbn [closePopupFuel]; [leads_step|].
  unfold_widget. cbv beta delta [build]. leads_run.
Qed.

#[local] Hint Resolve closePopupFuel_shrinks closePopupFuel_disposesNone
  closePopupFuel_staysForgotten closePopupFuel_staysWithoutMessages : leads.

Lemma closePopup_shrinks : leads shrinks closePopup.
Proof. intros s. apply closePopupFuel_shrinks. Qed.

Lemma closePopup_disposesNone : leads disposesNone closePopup.
Proof. intros s. apply closePopupFuel_disposesNone. Qed.

Lemma closePopup_staysWithoutMessages : leads staysWithoutMessages closePopup.
Proof. intros s. apply closePopupFuel_staysWithoutMessages. Qed.

#[local] Hint Resolve closePopup_shrinks closePopup_disposesNone
  closePopup_staysWithoutMessages : leads.

Lemma bind_normal_inv {A B} (m : M A) (k : A -> M B) s b s' :
  bind m k s = (Normal b, s') ->
  exists a s1, m s = (Normal a, s1) /\ k a s1 = (Normal b, s').
Proof.
  rewrite bind_eq. destruct (m s) as [[a|e] s1]; [eauto|discriminate].
Qed.

(** *** [closePopup] *)

Lemma closePopupFuel_unfold fuel s :
  closePopupFuel (S fuel) s
  = closePopupRest fuel (set_playerInitialized false (set_player None s)).
Proof.
  cbn [closePopupFuel]. rewrite bind_eq, destroyVideoJsPlayer_forgets. reflexivity.
Qed.

Lemma closePopupRest_staysForgotten fuel : leads staysForgotten (closePopupRest fuel).
Proof. unfold closePopupRest. unfold_widget. cbv beta delta [build]. leads_run. Qed.

Lemma closePopupFuel_returns fuel s s' :
  closePopupFuel fuel s = (Normal tt, s') ->
  modal s' = None /\ container s' = None /\ playerInitialized s' = false /\ player s' = None.
Proof.
  destruct fuel as [|fuel]; [discriminate|]. rewrite closePopupFuel_unfold.
  set (s1 := set_playerInitialized false (set_player None s)).
  intros H.
  pose proof (closePopupRest_staysForgotten fuel s1) as Hf. rewrite H in Hf.
  specialize (Hf (conj eq_refl eq_refl)). cbn [snd] in Hf.
  unfold closePopupRest in H.
  apply bind_normal_inv in H as (s2 & s3 & _ & H).
  apply bind_normal_inv in H as ([] & s4 & _ & H).
  apply bind_normal_inv in H as ([] & s5 & H5 & H).
  injection H5 as <-. injection H as <-. cbn. tauto.
Qed.

Lemma removeFirstPicoContent_nil s :
  picoNodes (document s) = [] -> removeFirstPicoContent s = (Throws TypeError, s).
Proof. intros H. unfold removeFirstPicoContent. rewrite bind_eq. cbn [get]. rewrite H. reflexivity. Qed.

Lemma removeFirstPicoContent_cons s x rest :
  picoNodes (document s) = x :: rest ->
  removeFirstPicoContent s
  = (Normal tt,
     set_document (doc_videoElementPlayer None (doc_picoNodes rest (document s))) s).
Proof. intros H. unfold removeFirstPicoContent. rewrite bind_eq. cbn [get]. rewrite H. reflexivity. Qed.

Lemma callAfterClose_outcome s :
  callAfterClose s = (Normal tt, s) \/ callAfterClose s = (Throws TypeError, s).
Proof.
  unfold callAfterClose. rewrite bind_eq. cbn [get].
  destruct (opt s "afterClose") as [| |[]|z| |str|[]| |f]; cbn -[ofDouble]; auto.
  - destruct (negb (z =? 0)); auto.
  - destruct (negb (String.eqb str "")); auto.
  - destruct (ofDouble f) as [|z|g]; auto. destruct (negb (z =? 0)); auto.
Qed.

Lemma tryCatch_callAfterClose s : tryCatch callAfterClose s = (Normal tt, s).
Proof.
  destruct (callAfterClose_outcome s) as [H|H];
    [apply tryCatch_normal|apply tryCatch_caught]; exact H.
Qed.

(** The state in which the [afterClose] hook of the dialog runs: one
    dialog node removed, the player forgotten, the nodes of the handle
    built if they were not. *)
Lemma beforeAfterClose s m x rest :
  modal s = Some m ->
  picoNodes (document s) = x :: rest ->
  exists s4 m4,
    (removeFirstPicoContent;; tryCatch (destroyVideoJsPlayer false);; build) s
    = (Normal tt, s4)
    /\ modal s4 = Some m4 /\ built m4 = true
    /\ (length (picoNodes (document s4)) <=
        length rest + (if built m then 0 else 1))%nat.
Proof.
  intros Hm Hp.
  rewrite (bind_normal _ _ _ _ _ (removeFirstPicoContent_cons s x rest Hp)).
  rewrite (bind_normal _ _ _ tt _
             (tryCatch_normal _ _ _ (destroyVideoJsPlayer_forgets _))).
  unfold build. rewrite bind_eq. cbn [get]. cbn [modal set_playerInitialized set_player
    set_document]. rewrite Hm. destruct (built m) eqn:Hb.
  - eexists _, m. split; [reflexivity|]. cbn. rewrite Hm. split; [reflexivity|].
    split; [exact Hb|]. lia.
  - eexists _, _. split; [reflexivity|]. cbn. split; [reflexivity|]. split; [reflexivity|].
    rewrite length_app. cbn. lia.
Qed.

Lemma seq3_normal (m1 m2 m3 k : M unit) s s4 :
  (m1;; m2;; m3) s = (Normal tt, s4) -> (m1;; m2;; m3;; k) s = k s4.
Proof.
  rewrite !bind_eq. destruct (m1 s) as [[[]|e] s1]; [|discriminate].
  rewrite !bind_eq. destruct (m2 s1) as [[[]|e] s2]; [|discriminate].
  rewrite !bind_eq. destruct (m3 s2) as [[[]|e] s3]; [|discriminate].
  intros [= ->]. reflexivity.
Qed.

Lemma tryCatch_then_callAfterClose (m : M unit) s s5 :
  m s = (Normal tt, s5) -> tryCatch (m;; callAfterClose) s = (Normal tt, s5).
Proof.
  intros H. destruct (callAfterClose_outcome s5) as [H5|H5];
    [apply tryCatch_normal|apply tryCatch_caught];
    rewrite (bind_normal _ _ _ _ _ H); exact H5.
Qed.

Lemma closePopupFuel_modal fuel : forall s m,
  modal s = Some m ->
  (length (picoNodes (document s)) + (if built m then 0 else 1) < fuel)%nat ->
  exists s', closePopupFuel fuel s = (Normal tt, s').
Proof.
  induction fuel as [|fuel IH]; intros s m Hm Hlen; [lia|].
  rewrite closePopupFuel_unfold.
  set (s1 := set_playerInitialized false (set_player None s)).
  assert (Hm1 : modal s1 = Some m) by exact Hm.
  unfold closePopupRest. rewrite bind_eq. cbn [get]. rewrite Hm1.
  destruct (picoNodes (document s1)) as [|x rest] eqn:Hp.
  - rewrite (bind_normal _ _ _ tt s1).
    + eexists. reflexivity.
    + apply tryCatch_caught. apply bind_throws, removeFirstPicoContent_nil, Hp.
  - destruct (beforeAfterClose s1 m x rest Hm1 Hp) as (s4 & m4 & Hrun & Hm4 & Hb4 & Hl4).
    assert (Hp' : picoNodes (document s) = x :: rest) by exact Hp.
    rewrite Hp' in Hlen. cbn [length] in Hlen.
    destruct (IH s4 m4 Hm4) as (s5 & H5); [rewrite Hb4; lia|].
    rewrite (bind_normal _ _ _ tt s5).
    + eexists. reflexivity.
    + apply tryCatch_normal. rewrite (seq3_normal _ _ _ _ _ _ Hrun).
      apply tryCatch_then_callAfterClose, H5.
Qed.

Lemma closePopup_modal s m :
  modal s = Some m -> exists s', closePopup s = (Normal tt, s').
Proof.
  intros Hm. unfold closePopup. apply (closePopupFuel_modal _ s m Hm).
  destruct (built m); lia.
Qed.

Lemma closePopup_returns s s' :
  closePopup s = (Normal tt, s') ->
  modal s' = None /\ container s' = None /\ playerInitialized s' = false /\ player s' = None.
Proof. unfold closePopup. apply closePopupFuel_returns. Qed.

Lemma closePopup_noHost s :
  modal s = None -> container s = None ->
  closePopup s
  = (Normal tt, set_modal None (set_container None
                  (set_playerInitialized false (set_player None s)))).
Proof.
  intros Hm Hc. unfold closePopup.
  replace (length (picoNodes (document s)) + 2)%nat
    with (S (length (picoNodes (document s)) + 1)) by lia.
  rewrite closePopupFuel_unfold. unfold closePopupRest. rewrite bind_eq. cbn [get].
  cbn [modal container set_playerInitialized set_player]. rewrite Hm, Hc. reflexivity.
Qed.

(** *** Staying within the recursion bound *)

Lemma inBound_ret {A} (a : A) : inBound (ret a).
Proof. intros s. discriminate. Qed.

Lemma inBound_throw {A} : inBound (@throw A TypeError).
Proof. intros s. discriminate. Qed.

Lemma inBound_get : inBound get.
Proof. intros s. discriminate. Qed.

Lemma inBound_modify f : inBound (modify f).
Proof. intros s. discriminate. Qed.

Lemma inBound_bind {A B} (m : M A) (k : A -> M B) :
  inBound m -> (forall a, inBound (k a)) -> inBound (bind m k).
Proof.
  intros Hm Hk s. rewrite bind_eq. specialize (Hm s).
  destruct (m s) as [[a|e] s']; cbn in *; [apply Hk|].
  intros [= ->]. apply Hm. reflexivity.
Qed.

Lemma inBound_tryCatch m : inBound m -> inBound (tryCatch m).
Proof.
  intros Hm s. specialize (Hm s). unfold tryCatch.
  destruct (m s) as [[[]|[|]] s']; cbn in *; [discriminate..|exact Hm].
Qed.

Lemma inBound_when b m : inBound m -> inBound (when b m).
Proof. intros Hm. destruct b; [exact Hm|apply inBound_ret]. Qed.

Create HintDb bound discriminated.

Ltac bound_step :=
  first
    [ solve [auto 1 with bound]
    | apply inBound_ret | apply inBound_throw | apply inBound_get | apply inBound_modify
    | apply inBound_bind; [|intros ?]
    | apply inBound_tryCatch
    | apply inBound_when
    | match goal with
      | |- inBound (match ?x with _ => _ end) => destruct x
      | |- inBound (if ?x then _ else _) => destruct x
      end ].

Ltac bound_run := repeat bound_step.

Lemma destroyVideoJsPlayer_inBound b : inBound (destroyVideoJsPlayer b).
Proof. unfold destroyVideoJsPlayer, videojs, imaDispose, playerDispose. bound_run. Qed.

#[local] Hint Resolve destroyVideoJsPlayer_inBound : bound.

(** The recursion of [closePopup] never exhausts its bound. *)
Lemma closePopup_inBound : inBound closePopup.
Proof.
  intros s. destruct (modal s) as [m|] eqn:Hm.
  - destruct (closePopup_modal s m Hm) as (s' & ->). discriminate.
  - unfold closePopup.
    replace (length (picoNodes (document s)) + 2)%nat
      with (S (length (picoNodes (document s)) + 1)) by lia.
    rewrite closePopupFuel_unfold. unfold closePopupRest. rewrite bind_eq. cbn [get].
    cbn [modal container set_playerInitialized set_player]. rewrite Hm.
    match goal with |- fst (?m ?st) <> _ => assert (Hb : inBound m); [|apply Hb] end.
    unfold_widget. bound_run.
Qed.

#[local] Hint Resolve closePopup_inBound : bound.

(** *** The display functions *)

Lemma readsOnly_leads R `{!PreOrder R} {A} (m : M A) : readsOnly m -> leads R m.
Proof. intros H s. rewrite H. reflexivity. Qed.

Lemma withHeader_readsOnly f : readsOnly (withHeader f).
Proof. intros s. reflexivity. Qed.

Lemma buildHtml_readsOnly d : In d guardedDisplays -> readsOnly (buildHtml d).
Proof.
  cbn. intros H s.
  repeat (destruct H as [<-|H]; [try reflexivity|]); [|destruct H].
  cbn. destruct (playerOptions _); reflexivity.
Qed.

Lemma buildHtml404_readsOnly d b :
  In d guardedDisplays -> buildHtml404 d = Some b -> readsOnly b.
Proof.
  cbn. intros H Hb s.
  repeat (destruct H as [<-|H]; [try discriminate Hb|]); [|destruct H].
  injection Hb as <-. reflexivity.
Qed.

Lemma countdownTimer_shrinks : leads shrinks countdownTimer.
Proof. unfold_widget. leads_run. Qed.

Lemma countdownTimer_disposesNone : leads disposesNone countdownTimer.
Proof. unfold_widget. leads_run. Qed.

Lemma countdownTimer_staysWithoutMessages : leads staysWithoutMessages countdownTimer.
Proof. unfold_widget. leads_run. Qed.

#[local] Hint Resolve countdownTimer_shrinks countdownTimer_disposesNone
  countdownTimer_staysWithoutMessages : leads.

Section Display.
Variable d : Display.
Hypothesis build_reads : readsOnly (buildHtml d).
Hypothesis build404_reads : forall b, buildHtml404 d = Some b -> readsOnly b.

Let build_leads R `{!PreOrder R} : leads R (buildHtml d).
Proof. apply readsOnly_leads; [apply _|exact build_reads]. Qed.

Lemma updateModal_shrinks : leads shrinks (updateModal d).
Proof.
  pose proof (build_leads shrinks). unfold updateModal. unfold_widget. leads_run.
Qed.

Lemma updateContainer_shrinks c : leads shrinks (updateContainer d c).
Proof.
  pose proof (build_leads shrinks). unfold updateContainer. unfold_widget. leads_run.
Qed.

Lemma deferredStep_sameHosts : leads sameHosts (deferredStep d).
Proof. unfold deferredStep. unfold_widget. leads_run. Qed.

Lemma deferredStep_shrinks : leads shrinks (deferredStep d).
Proof. unfold deferredStep. unfold_widget. leads_run. Qed.

Lemma display_eq s :
  display d s
  = ((match modal s, container s with
      | Some _, _ => updateModal d
      | None, Some c => updateContainer d c
      | None, None => createHost d
      end);; deferredStep d)
      (if resetsFallbackFlag d then set_displaysFallbackAd false s else s).
Proof.
  unfold display. rewrite bind_eq. destruct (resetsFallbackFlag d); reflexivity.
Qed.

Lemma createNativeHost_keepsNoModal : leads keepsNoModal (createNativeHost d).
Proof.
  pose proof (build_leads keepsNoModal). unfold createNativeHost. unfold_widget. leads_run.
Qed.

Lemma createNativeHost_normal s s' :
  createNativeHost d s = (Normal tt, s') -> isSome (container s') = true.
Proof.
  unfold createNativeHost. intros H.
  apply bind_normal_inv in H as (h & s1 & _ & H).
  apply bind_normal_inv in H as (c & s2 & _ & H).
  apply bind_normal_inv in H as ([] & s3 & H3 & H).
  injection H3 as <-. injection H as <-. reflexivity.
Qed.

Lemma createHost_native s :
  looseEqStr (opt s "integration") "native" = true ->
  keepsNoModal s (snd (createHost d s))
  /\ (fst (createHost d s) = Normal tt -> isSome (container (snd (createHost d s))) = true).
Proof.
  intros Hn. unfold createHost. rewrite bind_eq. cbn [get]. rewrite Hn.
  assert (Hnative : keepsNoModal s (snd (createNativeHost d s))
            /\ (fst (createNativeHost d s) = Normal tt ->
                isSome (container (snd (createNativeHost d s))) = true)).
  { split; [apply createNativeHost_keepsNoModal|].
    destruct (createNativeHost d s) as [o s'] eqn:E. cbn. intros ->.
    exact (createNativeHost_normal _ _ E). }
  destruct (buildHtml404 d) as [b|] eqn:Hb; [|exact Hnative].
  destruct (error404 s); [|exact Hnative].
  split.
  - pose proof (readsOnly_leads keepsNoModal b (build404_reads b eq_refl)).
    assert (Hl : leads keepsNoModal
              (h <- b;; c <- create404Container h;; modify (set_container (Some c))))
      by (unfold_widget; leads_run).
    apply Hl.
  - destruct ((h <- b;; c <- create404Container h;; modify (set_container (Some c))) s)
      as [o s'] eqn:E. cbn. intros ->.
    apply bind_normal_inv in E as (h & s1 & _ & E).
    apply bind_normal_inv in E as (c & s2 & _ & E).
    injection E as <-. reflexivity.
Qed.

Lemma createHost_modal s :
  looseEqStr (opt s "integration") "native" = false ->
  keepsNoContainer s (snd (createHost d s))
  /\ (fst (createHost d s) = Normal tt -> isSome (modal (snd (createHost d s))) = true).
Proof.
  intros Hn. unfold createHost. rewrite bind_eq. cbn [get]. rewrite Hn.
  split.
  - pose proof (build_leads keepsNoContainer).
    assert (Hl : leads keepsNoContainer
              (h <- buildHtml d;; m <- createModalWindow h;;
               modify (set_modal (Some m));; modalShow))
      by (unfold_widget; leads_run).
    apply Hl.
  - destruct ((h <- buildHtml d;; m <- createModalWindow h;;
               modify (set_modal (Some m));; modalShow) s) as [o s'] eqn:E.
    cbn. intros ->.
    apply bind_normal_inv in E as (h & s1 & _ & E).
    apply bind_normal_inv in E as (m & s2 & _ & E).
    apply bind_normal_inv in E as ([] & s3 & H3 & E).
    injection H3 as <-.
    assert (Hl : leads sameHosts modalShow) by (unfold_widget; leads_run).
    specialize (Hl (set_modal (Some m) s2)). rewrite E in Hl.
    destruct Hl as [Hl _]. exact Hl.
Qed.

Lemma display_hosts s :
  (hostsExclusive s -> hostsExclusive (run (display d) s))
  /\ (noHost s -> outcome (display d) s = Normal tt ->
      if looseEqStr (opt s "integration") "native"
      then modal (run (display d) s) = None /\ isSome (container (run (display d) s)) = true
      else isSome (modal (run (display d) s)) = true /\ container (run (display d) s) = None)
  /\ (~ noHost s -> shrinks s (run (display d) s)).
Proof.
  unfold run, outcome, hostsExclusive, noHost. rewrite display_eq.
  set (s0 := if resetsFallbackFlag d then set_displaysFallbackAd false s else s).
  assert (Hm0 : modal s0 = modal s) by (subst s0; destruct (resetsFallbackFlag d); reflexivity).
  assert (Hc0 : container s0 = container s)
    by (subst s0; destruct (resetsFallbackFlag d); reflexivity).
  assert (Ho0 : opt s0 "integration" = opt s "integration")
    by (subst s0; destruct (resetsFallbackFlag d); reflexivity).
  assert (Hupdate : forall m : M unit, leads shrinks m ->
            shrinks s (snd ((m;; deferredStep d) s0))).
  { intros m Hm.
    assert (Hl : leads shrinks (m;; deferredStep d))
      by (leads_step; [exact Hm|apply deferredStep_shrinks]).
    specialize (Hl s0). destruct Hl as [H1 H2]. rewrite Hm0 in H1. rewrite Hc0 in H2.
    split; assumption. }
  destruct (modal s) as [m|] eqn:Hm; [|destruct (container s) as [c|] eqn:Hc].
  - pose proof (Hupdate _ updateModal_shrinks) as Hs.
    split; [|split].
    + intros [H|H]; [discriminate|]. right. apply Hs. exact H.
    + intros [H _]. discriminate.
    + intros _. exact Hs.
  - pose proof (Hupdate _ (updateContainer_shrinks c)) as Hs.
    split; [|split].
    + intros _. left. apply Hs. exact Hm.
    + intros [_ H]. discriminate.
    + intros _. exact Hs.
  - rewrite bind_eq. rewrite <- Ho0.
    pose proof (deferredStep_sameHosts) as Hd.
    destruct (looseEqStr (opt s0 "integration") "native") eqn:Hn.
    + destruct (createHost_native s0 Hn) as [Hk Hnorm].
      destruct (createHost d s0) as [[[]|e] s1]; cbn [fst snd] in *.
      * specialize (Hd s1). destruct (deferredStep d s1) as [o s2]. cbn [fst snd] in *.
        destruct Hd as [Hd1 Hd2].
        assert (Hmod : modal s2 = None).
        { specialize (Hk Hm0). rewrite Hk in Hd1. destruct (modal s2); [discriminate|reflexivity]. }
        split; [|split].
        -- intros _. left. exact Hmod.
        -- intros _ _. split; [exact Hmod|]. rewrite Hd2. apply Hnorm. reflexivity.
        -- intros H. destruct H. split; reflexivity.
      * split; [|split].
        -- intros _. left. apply Hk. exact Hm0.
        -- intros _ H. discriminate.
        -- intros H. destruct H. split; reflexivity.
    + destruct (createHost_modal s0 Hn) as [Hk Hnorm].
      destruct (createHost d s0) as [[[]|e] s1]; cbn [fst snd] in *.
      * specialize (Hd s1). destruct (deferredStep d s1) as [o s2]. cbn [fst snd] in *.
        destruct Hd as [Hd1 Hd2].
        assert (Hcon : container s2 = None).
        { specialize (Hk Hc0). rewrite Hk in Hd2.
          destruct (container s2); [discriminate|reflexivity]. }
        split; [|split].
        -- intros _. right. exact Hcon.
        -- intros _ _. split; [|exact Hcon]. rewrite Hd1. apply Hnorm. reflexivity.
        -- intros H. destruct H. split; reflexivity.
      * split; [|split].
        -- intros _. right. apply Hk. exact Hc0.
        -- intros _ H. discriminate.
        -- intros H. destruct H. split; reflexivity.
Qed.
End Display.

(** ** The hosts *)

(** C3, refuted as stated.  The Taboola variant is shown in a modal
    ([runningCountdown]).  [displayContent404Iframe], called directly or
    through [displayAd] once the page carries the 404 marker, neither
    updates that host nor starts from two null references: it creates a
    container next to the modal, and both references are non-null. *)
Lemma both_hosts_counterexample :
  hostsExclusive runningCountdown
  /\ isSome (modal runningCountdown) = true
  /\ outcome displayContent404Iframe runningCountdown = Normal tt
  /\ isSome (modal (run displayContent404Iframe runningCountdown)) = true
  /\ isSome (container (run displayContent404Iframe runningCountdown)) = true
  /\ outcome displayAd (marked404 runningCountdown) = Normal tt
  /\ isSome (modal (run displayAd (marked404 runningCountdown))) = true
  /\ isSome (container (run displayAd (marked404 runningCountdown))) = true.
Proof. vm_compute. auto 10. Qed.

(** A 404 box is appended whatever the hosts are; the reference
    returned is the first box of that id still in the document. *)
Lemma create404Container_returns h s c s' :
  create404Container h s = (Normal c, s') ->
  s' = set_document (doc_boxes (boxes (document s) ++ [newBox true h]) (document s)) s.
Proof.
  unfold create404Container. rewrite bind_eq. cbn [get].
  destruct (negb (hasSecondAC (document s))); [discriminate|].
  unfold appendBox. intros Hc. apply bind_normal_inv in Hc as ([] & s3 & H3 & Hc).
  injection H3 as <-. rewrite bind_eq in Hc. cbn [get] in Hc.
  destruct (findIndex _ _); [|discriminate]. injection Hc as _ <-. reflexivity.
Qed.

(** C3, amended.  Each of the nine display functions that look at the
    hosts keeps [modal] and [container] from being both non-null: with a
    host present it creates none (it updates the host, or the countdown
    check it runs closes the session); with both references null and the
    call completing, it creates exactly one host, the container when
    [integration == 'native'] and the modal otherwise.  [closePopup],
    when it returns, leaves both references null.  The two 404 display
    functions, [displayContent404Iframe] and [displayTalooba404], are
    different by design: whenever they return they have appended a new
    box and set [container], and they leave [modal] as it is. *)
Theorem guarded_displays_keep_hosts_exclusive (d : Display) (s : State) :
  In d guardedDisplays ->
  (hostsExclusive s -> hostsExclusive (run (display d) s))
  /\ (noHost s -> outcome (display d) s = Normal tt ->
      if looseEqStr (opt s "integration") "native"
      then modal (run (display d) s) = None /\ isSome (container (run (display d) s)) = true
      else isSome (modal (run (display d) s)) = true /\ container (run (display d) s) = None)
  /\ (~ noHost s -> shrinks s (run (display d) s))
  /\ (forall s', closePopup s = (Normal tt, s') -> noHost s')
  /\ (outcome displayContent404Iframe s = Normal tt ->
      isSome (container (run displayContent404Iframe s)) = true
      /\ modal (run displayContent404Iframe s) = modal s)
  /\ (outcome displayTalooba404 s = Normal tt ->
      isSome (container (run displayTalooba404 s)) = true
      /\ modal (run displayTalooba404 s) = modal s)
  /\ (outcome displayContent404Iframe s = Normal tt ->
      length (boxes (document (run displayContent404Iframe s)))
      = S (length (boxes (document s))))
  /\ (outcome displayTalooba404 s = Normal tt ->
      length (boxes (document (run displayTalooba404 s)))
      = S (length (boxes (document s)))).
Proof.
  intros Hd.
  destruct (display_hosts d (buildHtml_readsOnly d Hd)
              (fun b => buildHtml404_readsOnly d b Hd) s)
    as (H1 & H2 & H3).
  assert (Hcontent : forall s', displayContent404Iframe s = (Normal tt, s') ->
            exists c, s' = set_container (Some c)
                             (set_document
                                (doc_boxes (boxes (document s)
                                            ++ [newBox true {| header := None;
                                                               fragment := Content404Iframe |}])
                                   (document s)) s)).
  { intros s' E. unfold displayContent404Iframe in E.
    apply bind_normal_inv in E as (h & s1 & Hh & E).
    unfold getContent404IframeHtml, bare, ret in Hh. injection Hh as <- <-.
    apply bind_normal_inv in E as (c & s2 & Hc & E). injection E as <-.
    apply create404Container_returns in Hc. subst s2. exists c. reflexivity. }
  assert (Htaboola : forall s', displayTalooba404 s = (Normal tt, s') ->
            exists c l, s' = set_timers l
                               (set_container (Some c)
                                  (set_document
                                     (doc_boxes (boxes (document s)
                                                 ++ [newBox true
                                                       {| header := getHeaderSection s;
                                                          fragment := TaboolaIframe |}])
                                        (document s)) s))).
  { intros s' E. unfold displayTalooba404 in E.
    apply bind_normal_inv in E as (h & s1 & Hh & E).
    unfold getTaboolaIframeHTML, withHeader in Hh. rewrite bind_eq in Hh.
    cbn [get ret] in Hh. injection Hh as <- <-.
    apply bind_normal_inv in E as (c & s2 & Hc & E).
    apply create404Container_returns in Hc. subst s2.
    apply bind_normal_inv in E as ([] & s3 & Hs & E). injection Hs as <-.
    injection E as <-. eexists c, _. reflexivity. }
  split; [exact H1|]. split; [exact H2|]. split; [exact H3|].
  split; [|split; [|split; [|split]]].
  - intros s' H. apply closePopup_returns in H. split; tauto.
  - unfold outcome, run. destruct (displayContent404Iframe s) as [o s'] eqn:E.
    cbn [fst snd]. intros ->. destruct (Hcontent s' eq_refl) as (c & ->).
    split; reflexivity.
  - unfold outcome, run. destruct (displayTalooba404 s) as [o s'] eqn:E.
    cbn [fst snd]. intros ->. destruct (Htaboola s' eq_refl) as (c & l & ->).
    split; reflexivity.
  - unfold outcome, run. destruct (displayContent404Iframe s) as [o s'] eqn:E.
    cbn [fst snd]. intros ->. destruct (Hcontent s' eq_refl) as (c & ->).
    cbn. rewrite length_app. cbn. lia.
  - unfold outcome, run. destruct (displayTalooba404 s) as [o s'] eqn:E.
    cbn [fst snd]. intros ->. destruct (Htaboola s' eq_refl) as (c & l & ->).
    cbn. rewrite length_app. cbn. lia.
Qed.

Lemma guarded_displays_keep_hosts_exclusive_witness :
  In talooba guardedDisplays
  /\ noHost configured
  /\ outcome (display talooba) configured = Normal tt
  /\ isSome (modal (run (display talooba) configured)) = true
  /\ container (run (display talooba) configured) = None
  /\ ~ noHost runningCountdown
  /\ shrinks runningCountdown (run (display talooba) runningCountdown)
  /\ outcome displayTalooba404 runningCountdown = Normal tt
  /\ isSome (container (run displayTalooba404 runningCountdown)) = true
  /\ modal (run displayTalooba404 runningCountdown) = modal runningCountdown.
Proof.
  assert (Hin : In talooba guardedDisplays) by in_list.
  assert (Hno : noHost configured) by (vm_compute; split; reflexivity).
  assert (Hout : outcome (display talooba) configured = Normal tt)
    by (vm_compute; reflexivity).
  assert (Hhost : ~ noHost runningCountdown)
    by (intros [H _]; vm_compute in H; discriminate H).
  split; [exact Hin|]. split; [exact Hno|]. split; [exact Hout|].
  pose proof (proj1 (proj2 (guarded_displays_keep_hosts_exclusive talooba configured Hin))
                Hno Hout) as H.
  vm_compute in H. destruct H as [Hm Hc].
  assert (H404 : outcome displayTalooba404 runningCountdown = Normal tt)
    by (vm_compute; reflexivity).
  split; [vm_compute; exact Hm|]. split; [vm_compute; exact Hc|]. split; [exact Hhost|].
  split; [exact (proj1 (proj2 (proj2
           (guarded_displays_keep_hosts_exclusive talooba runningCountdown Hin))) Hhost)|].
  split; [exact H404|].
  exact (proj1 (proj2 (proj2 (proj2 (proj2 (proj2
           (guarded_displays_keep_hosts_exclusive talooba runningCountdown Hin))))))
           H404).
Defined.

(** C4.  Whenever [closePopup] returns, both host references are null
    and [playerInitialized] is false.  With a session whose host is a
    modal made by [createModalWindow], [closePopup] returns, and a second
    call returns as well: it finds both references null and does no more
    than the guarded disposal of the player, which resets the two player
    variables. *)
Theorem closePopup_twice (s : State) :
  (forall s', closePopup s = (Normal tt, s') ->
     modal s' = None /\ container s' = None /\ playerInitialized s' = false)
  /\ (isSome (modal s) = true ->
      exists s1,
        closePopup s = (Normal tt, s1)
        /\ closePopup s1
           = (Normal tt, set_modal None (set_container None
                           (set_playerInitialized false (set_player None s1))))).
Proof.
  split.
  - intros s' H. apply closePopup_returns in H. tauto.
  - destruct (modal s) as [m|] eqn:Hm; [intros _|discriminate].
    destruct (closePopup_modal s m Hm) as (s1 & H1). exists s1. split; [exact H1|].
    apply closePopup_returns in H1 as (Hm1 & Hc1 & _). apply closePopup_noHost; assumption.
Qed.

Lemma closePopup_twice_witness :
  isSome (modal runningCountdown) = true
  /\ exists s1,
       closePopup runningCountdown = (Normal tt, s1)
       /\ closePopup s1
          = (Normal tt, set_modal None (set_container None
                          (set_playerInitialized false (set_player None s1)))).
Proof.
  assert (Hm : isSome (modal runningCountdown) = true) by (vm_compute; reflexivity).
  split; [exact Hm|].
  exact (proj2 (closePopup_twice runningCountdown) Hm).
Defined.

(** ** What no step of the widget does *)

Lemma destroyVideoJsPlayer_harmless b : leads harmless (destroyVideoJsPlayer b).
Proof. apply leads_destroyVideoJsPlayer; [apply _|allowed_change..]. Qed.

Lemma build_harmless : leads harmless build.
Proof. unfold build. unfold_widget. leads_run. Qed.

#[local] Hint Resolve destroyVideoJsPlayer_harmless build_harmless : leads.

Lemma closePopupFuel_harmless fuel : leads harmless (closePopupFuel fuel).
Proof.
  induction fuel as [|fuel IH]; cbn [closePopupFuel]; [leads_step|].
  unfold_widget. leads_run.
Qed.

Lemma closePopup_harmless : leads harmless closePopup.
Proof. intros s. apply closePopupFuel_harmless. Qed.

#[local] Hint Resolve closePopup_harmless : leads.

Lemma countdownTimer_harmless : leads harmless countdownTimer.
Proof. unfold_widget. leads_run. Qed.

#[local] Hint Resolve countdownTimer_harmless : leads.

Lemma countdownCheck_harmless : leads harmless countdownCheck.
Proof. unfold_widget. leads_run. Qed.

Lemma modalShow_harmless : leads harmless modalShow.
Proof. unfold_widget. leads_run. Qed.

Lemma createContainer_harmless h : leads harmless (createContainer h).
Proof. unfold_widget. leads_run. Qed.

Lemma create404Container_harmless h : leads harmless (create404Container h).
Proof. unfold_widget. leads_run. Qed.

Lemma writeNamedWrapper_harmless h : leads harmless (writeNamedWrapper h).
Proof. unfold_widget. leads_run. Qed.

Lemma setupVideoJsPlayer_harmless b : leads harmless (setupVideoJsPlayer b).
Proof. unfold setupVideoJsPlayer, videojs. leads_run. Qed.

#[local] Hint Resolve countdownCheck_harmless modalShow_harmless createContainer_harmless
  create404Container_harmless writeNamedWrapper_harmless setupVideoJsPlayer_harmless : leads.

Lemma display_harmless d : In d guardedDisplays -> leads harmless (display d).
Proof.
  intros Hd.
  pose proof (readsOnly_leads harmless _ (buildHtml_readsOnly d Hd)) as Hb.
  assert (H404 : forall b, buildHtml404 d = Some b -> leads harmless b).
  { intros b Hb'. apply readsOnly_leads; [apply _|].
    exact (buildHtml404_readsOnly d b Hd Hb'). }
  unfold display, updateModal, updateContainer, createHost, createNativeHost, deferredStep.
  cbv beta delta [setTimeout writeBox modifyDocument startCountdownTimer createModalWindow].
  destruct (buildHtml404 d) as [b|]; [specialize (H404 b eq_refl)|]; leads_run.
Qed.

Lemma displayAd_harmless : leads harmless displayAd.
Proof.
  assert (Hd : forall d, In d guardedDisplays -> leads harmless (display d))
    by exact display_harmless.
  pose proof (Hd bannerAd ltac:(in_list)). pose proof (Hd contentAdFunnel ltac:(in_list)).
  pose proof (Hd contentAd ltac:(in_list)). pose proof (Hd contentAdV2 ltac:(in_list)).
  pose proof (Hd contentIframe ltac:(in_list)). pose proof (Hd talooba ltac:(in_list)).
  pose proof (Hd talooba2ndCall ltac:(in_list)). pose proof (Hd videoAd ltac:(in_list)).
  pose proof (Hd videoBanner ltac:(in_list)). clear Hd.
  unfold displayAd, displayContent404Iframe, displayBannerAd, displayContentAdFunnel,
    displayContentAd, displayContentAdV2, displayContentIframe, displayTalooba,
    displayTalooba2ndCall, displayVideoAd, displayVideoBanner, getContent404IframeHtml, bare.
  cbv beta delta [setTimeout setOption].
  leads_run.
Qed.

Lemma fire_harmless cb : leads harmless (fire cb).
Proof.
  pose proof displayAd_harmless.
  assert (Hd : forall d, In d guardedDisplays -> leads harmless (display d))
    by exact display_harmless.
  pose proof (Hd contentAdFunnel ltac:(in_list)). pose proof (Hd contentAdV2 ltac:(in_list)).
  pose proof (Hd contentIframe ltac:(in_list)). pose proof (Hd videoAd ltac:(in_list)).
  clear Hd.
  destruct cb; unfold fire, writeIFrameHtml, setImaAdTag, displayContentAdFunnel,
    displayContentAdV2, displayContentIframe, displayVideoAd; leads_run.
Qed.

Lemma fire_inBound cb : inBound (fire cb).
Proof.
  assert (Hbuild : inBound build) by (unfold build; unfold_widget; bound_run).
  assert (Htimer : inBound countdownTimer) by (unfold_widget; bound_run).
  assert (Hshow : inBound modalShow) by (unfold_widget; bound_run).
  assert (Hwrite : forall h, inBound (writeNamedWrapper h)) by (intros; unfold_widget; bound_run).
  assert (Hcreate : forall h, inBound (createContainer h)) by (intros; unfold_widget; bound_run).
  assert (Hcreate404 : forall h, inBound (create404Container h))
    by (intros; unfold_widget; bound_run).
  assert (Hdisplay : forall d, In d guardedDisplays -> inBound (display d)).
  { intros d Hd.
    assert (Hb : inBound (buildHtml d)).
    { cbn in Hd. repeat (destruct Hd as [<-|Hd]; [
        cbv beta delta [buildHtml bannerAd contentAdFunnel contentAd contentAdV2 contentIframe
          talooba talooba2ndCall videoAd videoBanner getBannerElementHTML
          getContentAdIframeHTML getContentAdIframeHTMLV2 getContentAdFunnelIframeHtml
          getContentIframeHtml getTaboolaIframeHTML getVideoElementHTML getVideoBannerHTML
          withHeader bare]; bound_run |]). destruct Hd. }
    assert (H404 : forall b, buildHtml404 d = Some b -> inBound b).
    { intros b Hb'. cbn in Hd.
      repeat (destruct Hd as [<-|Hd]; [try discriminate Hb'|]); [|destruct Hd].
      injection Hb' as <-. unfold getContentAdFunnel404IframeHtml, bare. bound_run. }
    unfold display, updateModal, updateContainer, createHost, createNativeHost, deferredStep.
    cbv beta delta [setTimeout writeBox modifyDocument startCountdownTimer createModalWindow
                    countdownCheck].
    destruct (buildHtml404 d) as [b|]; [specialize (H404 b eq_refl)|]; bound_run. }
  pose proof (Hdisplay bannerAd ltac:(in_list)).
  pose proof (Hdisplay contentAdFunnel ltac:(in_list)).
  pose proof (Hdisplay contentAd ltac:(in_list)).
  pose proof (Hdisplay contentAdV2 ltac:(in_list)).
  pose proof (Hdisplay contentIframe ltac:(in_list)).
  pose proof (Hdisplay talooba ltac:(in_list)).
  pose proof (Hdisplay talooba2ndCall ltac:(in_list)).
  pose proof (Hdisplay videoAd ltac:(in_list)).
  pose proof (Hdisplay videoBanner ltac:(in_list)). clear Hdisplay.
  assert (Had : inBound displayAd).
  { unfold displayAd, displayContent404Iframe, displayBannerAd, displayContentAdFunnel,
      displayContentAd, displayContentAdV2, displayContentIframe, displayTalooba,
      displayTalooba2ndCall, displayVideoAd, displayVideoBanner, getContent404IframeHtml, bare.
    cbv beta delta [setTimeout setOption]. bound_run. }
  destruct cb; unfold fire, writeIFrameHtml, setImaAdTag, setupVideoJsPlayer, videojs,
    displayContentAdFunnel, displayContentAdV2, displayContentIframe, displayVideoAd;
    bound_run.
Qed.

(** ** The countdown message *)

Lemma applyOptions_no_messages opts c : top (configOf opts c) !! "messages" = None.
Proof.
  unfold configOf, applyOptions. destruct opts as [|o].
  - vm_compute. reflexivity.
  - rewrite postprocess_top. rewrite !lookup_insert_ne by done.
    rewrite fold_resolveInto_other.
    + vm_compute. reflexivity.
    + apply (bool_decide_unpack _). vm_compute. exact I.
Qed.

(** C10.  No configuration [applyOptions] produces has a [messages]
    property, and no timer callback adds one.  So when [countdownTimer]
    takes its running branch while the document holds an element with
    the id 'adshare-countdown', as the HTML of the banner variant does,
    reading [moduleOptions.messages.countdownMessage] throws a TypeError:
    the state, and with it the timer queue, stays as it was, and no
    further [countdownTimer] is scheduled. *)
Theorem countdown_message_throws (s : State) :
  (forall opts c, top (configOf opts c) !! "messages" = None)
  /\ (forall cb, hasNoMessages s -> hasNoMessages (run (fire cb) s))
  /\ (forall s0 h, getBannerElementHTML s0 = (Normal h, s0) ->
        htmlHasId h "adshare-countdown" = true)
  /\ (hasNoMessages s ->
      leZero (getCountdownTimeLeft s) = false ->
      hasId (document s) "adshare-countdown" = true ->
      countdownTimer s = (Throws TypeError, s)).
Proof.
  split; [exact applyOptions_no_messages|]. split; [|split].
  - intros cb. exact (proj2 (fire_harmless cb s)).
  - intros s0 h [= <-]. reflexivity.
  - intros Hno Hrun Hid. unfold countdownTimer. rewrite bind_eq. cbn [get].
    rewrite Hrun, Hid. cbn [when]. rewrite bind_eq.
    unfold readCountdownMessage. rewrite bind_eq. cbn [get].
    unfold opt, moGet. cbn [String.eqb Ascii.eqb Bool.eqb]. unfold getProp.
    unfold hasNoMessages in Hno. rewrite Hno. reflexivity.
Qed.

Lemma countdown_message_throws_witness :
  hasNoMessages bannerShown
  /\ leZero (getCountdownTimeLeft bannerShown) = false
  /\ hasId (document bannerShown) "adshare-countdown" = true
  /\ countdownTimer bannerShown = (Throws TypeError, bannerShown).
Proof.
  assert (H1 : hasNoMessages bannerShown) by (vm_compute; reflexivity).
  assert (H2 : leZero (getCountdownTimeLeft bannerShown) = false) by (vm_compute; reflexivity).
  assert (H3 : hasId (document bannerShown) "adshare-countdown" = true)
    by (vm_compute; reflexivity).
  split; [exact H1|]. split; [exact H2|]. split; [exact H3|].
  exact (proj2 (proj2 (proj2 (countdown_message_throws bannerShown))) H1 H2 H3).
Defined.

(** ** The video fallback *)

(** C6, the code at the failing input: [adshareModal({content:
    'optimizely1'})] with an English browser, no 404 marker, and no ad
    starting within [videoAdTimeout].  [displayAd] shows the video
    variant and schedules a single fallback timeout of 7000 ms; when it
    expires the ad tag becomes [fallBackAdTagUrl], the handle of the
    player is dropped and, with the deferred set-up, one new player is
    made, and no further fallback is scheduled.  But the first player is
    never disposed: [destroyVideoJsPlayer] calls [player.ima.dispose()],
    which the bundled plugin does not define, and the swallowed
    TypeError skips [player.dispose()].  That holds for every callback
    in every state. *)
Theorem video_retry_disposes_no_player :
  timersOf RetryVideoAd (timers videoShown)
  = [{| delay := JNum 7000; callback := RetryVideoAd |}]
  /\ (exists p, fragment <$> modalContent videoShown = Some (VideoElement p))
  /\ player videoPlaying = Some 0%nat
  /\ createdPlayers videoPlaying = 1%nat
  /\ startedVideoAd videoPlaying = false
  /\ imaField ima_adTagUrl (moduleOptions (config videoRetried))
     = opt videoPlaying "fallBackAdTagUrl"
  /\ player videoRetried = None
  /\ timersOf RetryVideoAd (timers videoRetried) = []
  /\ player videoRecreated = Some 1%nat
  /\ createdPlayers videoRecreated = 2%nat
  /\ disposedPlayers videoRecreated = 0%nat
  /\ (forall cb s, disposedPlayers (run (fire cb) s) = disposedPlayers s).
Proof.
  repeat (split; [vm_compute; try reflexivity; eauto|]).
  intros cb s. exact (proj1 (fire_harmless cb s)).
Qed.

(** ** The smart variant *)

(** Simplifies the fields read from an updated state. *)
Ltac fields :=
  cbv beta iota zeta delta
    [set_config set_error404 set_modal set_container set_player set_playerInitialized
     set_adsharecountdownstart set_startedVideoAd set_displaysFallbackAd set_hasEndedFired
     set_useFallback set_now set_timers set_document set_createdPlayers set_disposedPlayers
     doc_picoNodes doc_boxes doc_videoElementPlayer doc_marker404 set_moduleOptions];
  cbn [fst snd
       config error404 modal container player playerInitialized adsharecountdownstart
       startedVideoAd displaysFallbackAd hasEndedFired useFallback now language timers
       document createdPlayers disposedPlayers
       marker404 hasContentBoxContainer hasDownload hasSecondAC pageIds pageCloseButton
       picoNodes boxes videoElementPlayer built content].









Lemma findIndex_wrapper (nodes : list (option Html)) h0 :
  head (omap id nodes) = Some h0 -> exists j, findIndex isSome nodes = Some j.
Proof.
  induction nodes as [|[x|] nodes IH]; cbn; [discriminate|eauto|].
  intros H. destruct (IH H) as (j & ->). eauto.
Qed.

Lemma rewrite_first_wrapper (nodes : list (option Html)) j h :
  findIndex isSome nodes = Some j ->
  head (omap id (<[j := Some h]> nodes)) = Some h
  /\ existsb isSome (<[j := Some h]> nodes) = true.
Proof.
  revert j. induction nodes as [|[x|] nodes IH]; intros j; cbn; [discriminate| |].
  - intros [= <-]. cbn. auto.
  - destruct (findIndex isSome nodes) as [i|]; [|discriminate].
    intros [= <-]. cbn. apply IH. reflexivity.
Qed.





(** ** More on the configuration resolver *)

Lemma resolveInto_normalized c a : resolveInto (normalized c) a = resolveInto c a.
Proof. destruct a as [t n]. reflexivity. Qed.

Lemma fold_resolveInto_normalized l c :
  l <> [] -> fold_left resolveInto l (normalized c) = fold_left resolveInto l c.
Proof.
  destruct l as [|a l]; [congruence|]. intros _. cbn [fold_left].
  rewrite resolveInto_normalized. reflexivity.
Qed.

Lemma postprocess_sources c :
  sessionStorage (postprocess c) = sessionStorage c
  /\ funnelmecfg (postprocess c) = funnelmecfg c
  /\ options (postprocess c) = options c.
Proof. unfold postprocess. cbv zeta. unfold withModuleOptions. cbn [sessionStorage funnelmecfg options]. auto. Qed.

Lemma applyOptions_sources o c :
  sessionStorage (applyOptions o c) = sessionStorage c
  /\ default ∅ (funnelmecfg (applyOptions o c)) = default ∅ (funnelmecfg c).
Proof.
  destruct o as [|o]; [split; reflexivity|].
  destruct (fold_resolveInto_sources resolvedOptions (resolving c (OptsObject o)))
    as (H1 & H2 & _).
  change (applyOptions (OptsObject o) c)
    with (postprocess (fold_left resolveInto resolvedOptions (resolving c (OptsObject o)))).
  destruct (postprocess_sources
              (fold_left resolveInto resolvedOptions (resolving c (OptsObject o))))
    as (G1 & G2 & _).
  rewrite G1, G2, H1, H2. split; reflexivity.
Qed.

Lemma applyOptions_depends o c c' :
  sessionStorage c = sessionStorage c' ->
  default ∅ (funnelmecfg c) = default ∅ (funnelmecfg c') ->
  moduleOptions (applyOptions o c) = moduleOptions (applyOptions o c')
  /\ (forall m, o = OptsObject m -> applyOptions o c = applyOptions o c').
Proof.
  intros Hs Hf. destruct o as [|m]; [split; [reflexivity|discriminate]|].
  assert (E : applyOptions (OptsObject m) c = applyOptions (OptsObject m) c').
  { unfold applyOptions.
    rewrite <- (fold_resolveInto_normalized resolvedOptions (resolving c _)) by discriminate.
    rewrite <- (fold_resolveInto_normalized resolvedOptions (resolving c' _)) by discriminate.
    unfold normalized, resolving. cbn [sessionStorage funnelmecfg options moduleOptions].
    rewrite Hs, Hf. reflexivity. }
  split; [rewrite E; reflexivity|]. intros _ _. exact E.
Qed.

(** X1.  [applyOptions] starts from a fresh copy of the defaults: the
    configuration it produces depends on its argument, on session
    storage and on [funnelmecfg], and on nothing an earlier call has
    left behind.  Applying the same options twice gives what applying
    them once gives. *)
Theorem applyOptions_starts_afresh (o1 o2 : Opts) (c : Config) :
  moduleOptions (applyOptions o2 (applyOptions o1 c)) = moduleOptions (applyOptions o2 c)
  /\ applyOptions o2 (applyOptions o2 c) = applyOptions o2 c.
Proof.
  split.
  - destruct (applyOptions_sources o1 c) as [Hs Hf].
    exact (proj1 (applyOptions_depends o2 _ _ Hs Hf)).
  - destruct o2 as [|m]; [reflexivity|].
    destruct (applyOptions_sources (OptsObject m) c) as [Hs Hf].
    rewrite (proj2 (applyOptions_depends (OptsObject m) _ _ Hs Hf) m eq_refl).
    reflexivity.
Qed.

Lemma resolveInto_playerOptions c a :
  fst a <> VideoPath ->
  playerOptions (moduleOptions (resolveInto c a)) = playerOptions (moduleOptions c).
Proof. destruct a as [[k|] n]; cbn [fst]; [reflexivity|intros H; destruct (H eq_refl)]. Qed.

Lemma fold_resolveInto_playerOptions l : forall c,
  VideoPath ∉ (fst <$> l) ->
  playerOptions (moduleOptions (fold_left resolveInto l c)) = playerOptions (moduleOptions c).
Proof.
  induction l as [|a l IH]; intros c H; cbn [fold_left]; [reflexivity|].
  rewrite fmap_cons in H. apply not_elem_of_cons in H as [H1 H2].
  rewrite IH by exact H2. apply resolveInto_playerOptions. congruence.
Qed.

Lemma resolveInto_ima c a : ima (moduleOptions (resolveInto c a)) = ima (moduleOptions c).
Proof. destruct a as [[k|] n]; reflexivity. Qed.

Lemma fold_resolveInto_ima l : forall c,
  ima (moduleOptions (fold_left resolveInto l c)) = ima (moduleOptions c).
Proof.
  induction l as [|a l IH]; intros c; cbn [fold_left]; [reflexivity|].
  rewrite IH. apply resolveInto_ima.
Qed.

Lemma fold_resolveInto_videoPath l : forall c n p,
  NoDup (fst <$> l) ->
  (VideoPath, n) ∈ l ->
  TopLevel n ∉ (fst <$> l) ->
  ~ special n ->
  playerOptions (moduleOptions c) = Some p ->
  playerOptions (moduleOptions (fold_left resolveInto l c))
  = Some {| videoPath :=
              firstTruthy (sessionStorage c) (funnelmecfg c) (optsObject (options c)) n
                (moGet (moduleOptions c) n) |}.
Proof.
  induction l as [|a l IH]; intros c n p Hnd Hin Hfree Hn Hp; [by apply elem_of_nil in Hin|].
  rewrite fmap_cons in Hnd. apply NoDup_cons in Hnd as [Hfresh Hnd].
  rewrite fmap_cons in Hfree. apply not_elem_of_cons in Hfree as [Hfree1 Hfree2].
  cbn [fold_left]. apply elem_of_cons in Hin as [<-|Hin].
  - rewrite fold_resolveInto_playerOptions by exact Hfresh.
    unfold resolveInto. cbn. rewrite Hp. cbn. do 2 f_equal.
    exact (determineOptionValue_firstTruthy n c).
  - assert (Hne : fst a <> VideoPath).
    { intros Heq. apply Hfresh. rewrite Heq. apply (list_elem_of_fmap_2 fst _ _ Hin). }
    rewrite (IH _ n p Hnd Hin Hfree2 Hn)
      by (rewrite resolveInto_playerOptions by exact Hne; exact Hp).
    destruct (resolveInto_sources c a) as (G1 & G2 & G3).
    rewrite G1, G3, (resolveInto_moGet_other c a n (not_eq_sym Hfree1)).
    rewrite (firstTruthy_sources _ _ _ _ _ _ G2). reflexivity.
Qed.

Lemma postprocess_playerOptions c :
  playerOptions (moduleOptions (postprocess c)) = playerOptions (moduleOptions c).
Proof.
  unfold postprocess. cbv zeta.
  destruct (leZero (moGet (moduleOptions c) "countdownDuration")); reflexivity.
Qed.

(** X2.  The built-in default of the video path does not survive
    [applyOptions] with an options object.  The resolver is asked for
    the key [videoPath], which [moduleOptions] does not have at its top
    level (the default lives at [playerOptions.videoPath]): the stored
    path is the first truthy one among session storage, [funnelmecfg]
    and the caller's options, and [undefined] when none is truthy.  A
    falsy argument leaves the default './vids/'. *)
Theorem applyOptions_videoPath (c : Config) (o : gmap string JsValue) :
  playerOptions (configOf (OptsObject o) c)
  = Some {| videoPath :=
              firstTruthy (sessionStorage c) (funnelmecfg c) o "videoPath" JUndefined |}
  /\ playerOptions (configOf NoOpts c) = Some {| videoPath := JStr "./vids/" |}.
Proof.
  split; [|reflexivity].
  unfold configOf, applyOptions. rewrite postprocess_playerOptions.
  rewrite (fold_resolveInto_videoPath resolvedOptions (resolving c (OptsObject o))
             "videoPath" {| videoPath := JStr "./vids/" |} resolvedOptions_NoDup).
  - reflexivity.
  - in_resolved.
  - apply (bool_decide_unpack _). vm_compute. exact I.
  - intros [H|H]; discriminate H.
  - reflexivity.
Qed.

Lemma postprocess_ima c i :
  ima (moduleOptions c) = Some i ->
  ima (moduleOptions (postprocess c))
  = Some {| ima_id := ima_id i;
            ima_adTagUrl :=
              jsOr (jsOr (getSessionStorageOverride (sessionStorage c) "vastEndPoint")
                         (getProp (optsObject (options c)) "vastEndPoint"))
                   (moGet (moduleOptions c) "adTagUrl");
            ima_debug := moGet (moduleOptions c) "debug";
            ima_locale := ima_locale i;
            ima_vpaidMode := ima_vpaidMode i |}.
Proof.
  intros Hi. unfold postprocess. cbv zeta.
  destruct (leZero (moGet (moduleOptions c) "countdownDuration"));
    unfold imaField, setIma, moSet, moGet;
    cbn -[normalizeBoolean getSessionStorageOverride];
    repeat (rewrite Hi; cbn -[normalizeBoolean getSessionStorageOverride]);
    unfold getProp;
    repeat first [rewrite lookup_insert_ne by done | rewrite lookup_insert_eq];
    reflexivity.
Qed.

(** X3.  The settings handed to the IMA plugin after [applyOptions]
    with an options object: [ima.adTagUrl] is the session-storage item
    [vastEndPoint] when it is truthy, else the caller's option
    [vastEndPoint] when it is truthy, else the resolved [adTagUrl]
    ([funnelmecfg.vastEndPoint] is not looked at); [ima.debug] is the
    resolved [debug] as it was resolved; [id], [locale] and [vpaidMode]
    keep their defaults, whatever locale was resolved. *)
Theorem applyOptions_ima (c : Config) (o : gmap string JsValue) :
  ima (configOf (OptsObject o) c)
  = Some {| ima_id := JStr "adshare-videoad";
            ima_adTagUrl :=
              jsOr (jsOr (getSessionStorageOverride (sessionStorage c) "vastEndPoint")
                         (getProp o "vastEndPoint"))
                   (resolvedValue c o "adTagUrl");
            ima_debug := resolvedValue c o "debug";
            ima_locale := JStr "en";
            ima_vpaidMode := JStr "insecure" |}.
Proof.
  unfold configOf, applyOptions.
  pose proof (fold_resolveInto_ima resolvedOptions (resolving c (OptsObject o))) as Hi.
  rewrite (postprocess_ima _ _ Hi).
  destruct (fold_resolveInto_sources resolvedOptions (resolving c (OptsObject o)))
    as (H1 & _ & H3).
  rewrite H1, H3, !resolved_moGet by in_resolved. reflexivity.
Qed.

Lemma defaultKeys_spec k : In k defaultKeys <-> is_Some (top defaultOptions !! k).
Proof.
  split.
  - intros H. cbn in H.
    repeat (destruct H as [<-|H]; [eexists; vm_compute; reflexivity|]). destruct H.
  - intros [v Hv]. destruct (decide (In k defaultKeys)) as [Hin|Hout]; [exact Hin|].
    exfalso. cbn in Hout. unfold defaultOptions in Hv. cbn [top] in Hv.
    rewrite !lookup_insert_ne in Hv by (intros <-; apply Hout; tauto).
    rewrite lookup_empty in Hv. discriminate Hv.
Qed.

Lemma fold_resolveInto_dom l : forall c,
  (forall k n, (TopLevel k, n) ∈ l -> is_Some (top (moduleOptions c) !! k)) ->
  dom (top (moduleOptions (fold_left resolveInto l c))) = dom (top (moduleOptions c)).
Proof.
  induction l as [|a l IH]; intros c H; cbn [fold_left]; [reflexivity|].
  assert (Ha : dom (top (moduleOptions (resolveInto c a))) = dom (top (moduleOptions c))).
  { destruct a as [[k|] n]; unfold resolveInto; cbn; [|reflexivity].
    apply dom_insert_lookup_L. apply (H k n). left. }
  rewrite IH, Ha; [reflexivity|].
  intros k n Hin. apply elem_of_dom. rewrite Ha. apply elem_of_dom.
  apply (H k n). right. exact Hin.
Qed.

Lemma resolvedOptions_known :
  Forall (fun a => match fst a with
                   | TopLevel k => In k defaultKeys
                   | VideoPath => True
                   end) resolvedOptions.
Proof.
  unfold resolvedOptions.
  repeat (apply List.Forall_cons; [cbn [fst]; first [exact I | in_list]|]).
  apply List.Forall_nil.
Qed.

(** X4.  The top-level properties of the configuration are always
    those of [defaultOptions]: [applyOptions] stores nothing under a
    name the caller, [funnelmecfg] or session storage brought along,
    and it drops no default.  Reading an option the resolver does not
    know gives what every plain object has under that name: the member
    of [Object.prototype] if there is one, [undefined] otherwise,
    whatever the caller, [funnelmecfg] or session storage hold under
    it. *)
Theorem applyOptions_keeps_the_keys (opts : Opts) (c : Config) (k : string) :
  (is_Some (top (configOf opts c) !! k) <-> In k defaultKeys)
  /\ (~ In k defaultKeys -> k <> "playerOptions" -> k <> "ima" ->
      top (configOf opts c) !! k = None
      /\ moGet (configOf opts c) k = objectPrototype k).
Proof.
  assert (Hdom : dom (top (configOf opts c)) = dom (top defaultOptions)).
  { unfold configOf. destruct opts as [|o]; [reflexivity|].
    unfold applyOptions. rewrite postprocess_top.
    set (c1 := fold_left resolveInto resolvedOptions (resolving c (OptsObject o))).
    assert (H1 : dom (top (moduleOptions c1)) = dom (top defaultOptions)).
    { apply fold_resolveInto_dom. intros k' n Hin.
      apply defaultKeys_spec.
      exact (proj1 (Forall_forall _ _) resolvedOptions_known (TopLevel k', n) Hin). }
    rewrite !dom_insert_L, H1.
    assert (G1 : "download" ∈ dom (top defaultOptions))
      by (apply elem_of_dom, defaultKeys_spec; in_list).
    assert (G2 : "closeModalAutomatically" ∈ dom (top defaultOptions))
      by (apply elem_of_dom, defaultKeys_spec; in_list).
    set_solver. }
  assert (Hiff : is_Some (top (configOf opts c) !! k) <-> In k defaultKeys).
  { rewrite defaultKeys_spec, <- !elem_of_dom, Hdom. reflexivity. }
  split; [exact Hiff|]. intros Hout Hp Hi.
  assert (Hnone : top (configOf opts c) !! k = None).
  { destruct (top (configOf opts c) !! k) as [v|] eqn:E; [|reflexivity].
    destruct Hout. apply Hiff. eauto. }
  split; [exact Hnone|].
  rewrite moGet_plain by (intros [H|H]; congruence).
  unfold getProp. rewrite Hnone. reflexivity.
Qed.

Lemma applyOptions_keeps_the_keys_witness :
  ~ In "messages" defaultKeys
  /\ moGet (configOf (OptsObject {[ "messages" := JObj ]}) plainPage) "messages" = JUndefined
  /\ ~ In "toString" defaultKeys
  /\ moGet (configOf (OptsObject {[ "toString" := JStr "text" ]}) plainPage) "toString"
     = JFun ReturnsNormally.
Proof.
  assert (Hout : ~ In "messages" defaultKeys).
  { cbn. intros H. repeat (destruct H as [H|H]; [discriminate H|]). exact H. }
  assert (Hout' : ~ In "toString" defaultKeys).
  { cbn. intros H. repeat (destruct H as [H|H]; [discriminate H|]). exact H. }
  split; [exact Hout|]. split; [|split; [exact Hout'|]].
  - apply (proj2 (applyOptions_keeps_the_keys (OptsObject {[ "messages" := JObj ]})
                    plainPage "messages") Hout); discriminate.
  - apply (proj2 (applyOptions_keeps_the_keys (OptsObject {[ "toString" := JStr "text" ]})
                    plainPage "toString") Hout'); discriminate.
Defined.

(** A storage whose items are all read as falsy values. *)
Lemma resolveInto_silent st st' c a :
  (forall name, truthy (getSessionStorageOverride st name) = false) ->
  (forall name, truthy (getSessionStorageOverride st' name) = false) ->
  resolveInto (withStorage st c) a = withStorage st (resolveInto (withStorage st' c) a).
Proof.
  intros H H'. destruct a as [t n]. unfold resolveInto, determineOptionValue, withStorage.
  cbn [sessionStorage funnelmecfg options moduleOptions fst snd withModuleOptions].
  rewrite (jsOr_falsy (getSessionStorageOverride st n)) by apply H.
  rewrite (jsOr_falsy (getSessionStorageOverride st' n)) by apply H'.
  reflexivity.
Qed.

Lemma fold_resolveInto_silent st st' l : forall c,
  (forall name, truthy (getSessionStorageOverride st name) = false) ->
  (forall name, truthy (getSessionStorageOverride st' name) = false) ->
  fold_left resolveInto l (withStorage st c)
  = withStorage st (fold_left resolveInto l (withStorage st' c)).
Proof.
  induction l as [|a l IH]; intros c H H'; cbn [fold_left]; [reflexivity|].
  rewrite (resolveInto_silent st st' c a H H').
  rewrite (IH _ H H').
  replace (withStorage st' (resolveInto (withStorage st' c) a))
    with (resolveInto (withStorage st' c) a); [reflexivity|].
  destruct a as [t n]. reflexivity.
Qed.

Lemma postprocess_silent st st' c :
  truthy (getSessionStorageOverride st "vastEndPoint") = false ->
  truthy (getSessionStorageOverride st' "vastEndPoint") = false ->
  moduleOptions (postprocess (withStorage st c))
  = moduleOptions (postprocess (withStorage st' c)).
Proof.
  intros H H'. unfold postprocess. cbv zeta.
  cbn [withStorage sessionStorage options moduleOptions withModuleOptions].
  rewrite (jsOr_falsy (getSessionStorageOverride st _)) by exact H.
  rewrite (jsOr_falsy (getSessionStorageOverride st' _)) by exact H'.
  reflexivity.
Qed.

(** X5.  A session storage that cannot be used counts as an empty one:
    whether [window.sessionStorage] is missing or touching it throws,
    the resolver gives for every key what it gives with a storage
    holding no item, and so does [applyOptions] for the whole
    configuration. *)
Theorem unusable_storage_is_empty (opts : Opts) (c : Config) (name : string) :
  fst (determineOptionValue name (withStorage StorageThrows c))
  = fst (determineOptionValue name (withStorage (StorageItems ∅) c))
  /\ fst (determineOptionValue name (withStorage StorageMissing c))
     = fst (determineOptionValue name (withStorage (StorageItems ∅) c))
  /\ configOf opts (withStorage StorageThrows c)
     = configOf opts (withStorage (StorageItems ∅) c)
  /\ configOf opts (withStorage StorageMissing c)
     = configOf opts (withStorage (StorageItems ∅) c).
Proof.
  assert (Ht : forall n, truthy (getSessionStorageOverride StorageThrows n) = false)
    by reflexivity.
  assert (Hm : forall n, truthy (getSessionStorageOverride StorageMissing n) = false)
    by reflexivity.
  assert (He : forall n, truthy (getSessionStorageOverride (StorageItems ∅) n) = false).
  { intros n. cbn. rewrite lookup_empty. reflexivity. }
  assert (Hcfg : forall st,
            (forall n, truthy (getSessionStorageOverride st n) = false) ->
            configOf opts (withStorage st c) = configOf opts (withStorage (StorageItems ∅) c)).
  { intros st Hst. unfold configOf. destruct opts as [|o]; [reflexivity|].
    unfold applyOptions.
    change (resolving (withStorage st c) (OptsObject o))
      with (withStorage st (resolving c (OptsObject o))).
    change (resolving (withStorage (StorageItems ∅) c) (OptsObject o))
      with (withStorage (StorageItems ∅) (resolving c (OptsObject o))).
    rewrite (fold_resolveInto_silent st (StorageItems ∅) _ _ Hst He).
    rewrite (postprocess_silent st (StorageItems ∅) _ (Hst _) (He _)).
    generalize (proj1 (fold_resolveInto_sources resolvedOptions
                         (withStorage (StorageItems ∅) (resolving c (OptsObject o))))).
    generalize (fold_left resolveInto resolvedOptions
                  (withStorage (StorageItems ∅) (resolving c (OptsObject o)))).
    intros [s1 f1 o1 m1] Hs. cbn [sessionStorage withStorage] in Hs. subst s1.
    reflexivity. }
  unfold determineOptionValue. cbn [fst withStorage sessionStorage funnelmecfg options
    moduleOptions].
  rewrite (jsOr_falsy (getSessionStorageOverride StorageThrows name)) by apply Ht.
  rewrite (jsOr_falsy (getSessionStorageOverride StorageMissing name)) by apply Hm.
  rewrite (jsOr_falsy (getSessionStorageOverride (StorageItems ∅) name)) by apply He.
  auto using Hcfg.
Qed.
(** ** Escaping, messages and the header *)

(** X6.  [escapeRegExp] turns a search string into a pattern that spells
    out exactly that string: every character of the class is preceded
    by one backslash and nothing else is changed.  The result is longer
    by the number of such characters, and a string without any is
    returned as it is. *)
Theorem escapeRegExp_spells_the_string (str : string) :
  spelled (escapeRegExp str) = Some str
  /\ String.length (escapeRegExp str) = (String.length str + specialCount str)%nat
  /\ (specialCount str = 0%nat <-> escapeRegExp str = str).
Proof.
  assert (Hlen : String.length (escapeRegExp str)
                 = (String.length str + specialCount str)%nat).
  { induction str as [|c rest IH]; [reflexivity|].
    cbn [escapeRegExp specialCount String.length].
    destruct (isRegExpSpecial c); cbn [String.length]; rewrite IH; lia. }
  split; [|split; [exact Hlen|]].
  - clear Hlen. induction str as [|c rest IH]; [reflexivity|].
    cbn [escapeRegExp]. destruct (isRegExpSpecial c) eqn:Hc.
    + cbn [spelled]. rewrite Ascii.eqb_refl, Hc, IH. reflexivity.
    + cbn [spelled]. rewrite Hc, IH.
      destruct (Ascii.eqb_spec c "\"%char) as [->|_]; [discriminate Hc|reflexivity].
  - split.
    + clear Hlen. induction str as [|c rest IH]; [reflexivity|].
      cbn [specialCount escapeRegExp]. destruct (isRegExpSpecial c); [discriminate|].
      intros H. rewrite (IH H). reflexivity.
    + intros H. rewrite H in Hlen. lia.
Qed.

Lemma getLanguage_locale locale navLang :
  exists l, In l locales /\ getLanguage locale navLang = JStr l.
Proof.
  unfold getLanguage. destruct (isValidLocale locale) eqn:E1.
  - apply isValidLocale_spec in E1 as (l & Hl & ->). eauto.
  - destruct (isValidLocale (JStr (getBrowserLanguage navLang))) eqn:E2.
    + apply isValidLocale_spec in E2 as (l & Hl & E). rewrite E. eauto.
    + exists "en". split; [in_list|reflexivity].
Qed.

(** X7.  A message name the tables do not have.  Without parameters
    [i18n] returns what the table inherits under that name: the member
    of [Object.prototype] for a name such as toString, [undefined] for
    every other name.  With a parameter to substitute it throws a
    TypeError in both cases, since neither [undefined] nor an inherited
    member has a method [replace].  That is so for every configured
    locale and every browser language. *)
Theorem i18n_unknown_message (locale : JsValue) (navLang msg : string) :
  ~ In msg messageKeys ->
  (objectPrototype msg = JUndefined -> i18n locale navLang msg [] = Normal None)
  /\ (objectPrototype msg <> JUndefined ->
      i18n locale navLang msg [] = Normal (Some (Builtin msg)))
  /\ (forall p ps, i18n locale navLang msg (p :: ps) = Throws TypeError).
Proof.
  intros Hmsg. destruct (getLanguage_locale locale navLang) as (l & Hl & E).
  assert (Htable : localeTable l !! msg = None).
  { unfold localeTable. apply not_elem_of_list_to_map_1.
    change (((fun k => (k, Literal l k)) <$> messageKeys).*1) with messageKeys.
    rewrite list_elem_of_In. exact Hmsg. }
  unfold i18n, message. rewrite E. cbn [propertyKey].
  rewrite (messages_lookup l Hl), Htable.
  split; [|split].
  - intros ->. reflexivity.
  - intros H. destruct (objectPrototype msg); try reflexivity. destruct H. reflexivity.
  - intros p ps. destruct (objectPrototype msg); reflexivity.
Qed.

Lemma i18n_unknown_message_witness :
  ~ In "countdownMessage" messageKeys
  /\ objectPrototype "countdownMessage" = JUndefined
  /\ i18n JNull "de-DE" "countdownMessage" [] = Normal None
  /\ i18n JNull "de-DE" "countdownMessage" [JStr "./lib/"] = Throws TypeError
  /\ ~ In "toString" messageKeys
  /\ objectPrototype "toString" <> JUndefined
  /\ i18n JNull "de-DE" "toString" [] = Normal (Some (Builtin "toString")).
Proof.
  assert (Hmsg : ~ In "countdownMessage" messageKeys).
  { cbn. intros H. repeat (destruct H as [H|H]; [discriminate H|]). exact H. }
  assert (Hmsg' : ~ In "toString" messageKeys).
  { cbn. intros H. repeat (destruct H as [H|H]; [discriminate H|]). exact H. }
  assert (Hown : objectPrototype "toString" <> JUndefined) by (vm_compute; discriminate).
  split; [exact Hmsg|]. split; [reflexivity|].
  destruct (i18n_unknown_message JNull "de-DE" "countdownMessage" Hmsg) as (H1 & _ & H3).
  split; [exact (H1 eq_refl)|]. split; [apply H3|].
  split; [exact Hmsg'|]. split; [exact Hown|].
  exact (proj1 (proj2 (i18n_unknown_message JNull "de-DE" "toString" Hmsg')) Hown).
Defined.


(** ** What the steps leave alone *)

#[local] Instance untouchedByClose_preorder : PreOrder untouchedByClose.
Proof.
  split.
  - intros s. unfold untouchedByClose. repeat split.
  - intros a b c H1 H2. unfold untouchedByClose in *.
    repeat match goal with H : _ /\ _ |- _ => destruct H end.
    repeat split; congruence.
Qed.

#[local] Instance proceeds_preorder : PreOrder proceeds.
Proof.
  split.
  - intros s. unfold proceeds. repeat split; auto.
  - intros a b c (A1 & A2 & A3 & A4 & A5) (B1 & B2 & B3 & B4 & B5).
    unfold proceeds. repeat split; try congruence; [auto|].
    etransitivity; eassumption.
Qed.

#[local] Instance sameCountdown_preorder : PreOrder sameCountdown.
Proof.
  split.
  - intros s. split; reflexivity.
  - intros a b c [A1 A2] [B1 B2]. split; congruence.
Qed.

#[local] Instance sameBoxes_preorder : PreOrder sameBoxes.
Proof.
  split.
  - intros s. reflexivity.
  - intros a b c H1 H2. unfold sameBoxes in *. congruence.
Qed.

(** Discharges the side condition of a plain assignment. *)
Ltac frame_change :=
  intros;
  first
    [ reflexivity
    | unfold untouchedByClose; cbn; rewrite ?length_alter, ?length_insert;
      repeat split; solve [auto]
    | unfold proceeds; cbn; repeat split; solve [auto | apply prefix_app_r; reflexivity]
    | unfold sameCountdown, opt; cbn; repeat split; solve [auto]
    | unfold sameBoxes; cbn; solve [auto] ].

Ltac frame_run :=
  repeat first
    [ solve [auto 1 with leads]
    | leads_step
    | apply leads_modify; solve [frame_change] ].

Lemma destroyVideoJsPlayer_untouchedByClose :
  leads untouchedByClose (destroyVideoJsPlayer false).
Proof. intros s. rewrite destroyVideoJsPlayer_forgets. cbn [snd]. frame_change. Qed.

Lemma destroyVideoJsPlayer_proceeds b : leads proceeds (destroyVideoJsPlayer b).
Proof. apply leads_destroyVideoJsPlayer; [apply _|frame_change..]. Qed.

Lemma destroyVideoJsPlayer_sameCountdown b : leads sameCountdown (destroyVideoJsPlayer b).
Proof. apply leads_destroyVideoJsPlayer; [apply _|frame_change..]. Qed.

Lemma build_untouchedByClose : leads untouchedByClose build.
Proof. unfold build. unfold_widget. frame_run. Qed.

Lemma build_proceeds : leads proceeds build.
Proof. unfold build. unfold_widget. frame_run. Qed.

Lemma build_sameCountdown : leads sameCountdown build.
Proof. unfold build. unfold_widget. frame_run. Qed.

#[local] Hint Resolve destroyVideoJsPlayer_untouchedByClose destroyVideoJsPlayer_proceeds
  destroyVideoJsPlayer_sameCountdown build_untouchedByClose build_proceeds
  build_sameCountdown : leads.

Lemma closePopupFuel_untouchedByClose fuel : leads untouchedByClose (closePopupFuel fuel).
Proof.
  induction fuel as [|fuel IH]; cbn [closePopupFuel]; [leads_step|].
  unfold_widget. frame_run.
Qed.

Lemma closePopupFuel_proceeds fuel : leads proceeds (closePopupFuel fuel).
Proof.
  induction fuel as [|fuel IH]; cbn [closePopupFuel]; [leads_step|].
  unfold_widget. frame_run.
Qed.

Lemma closePopupFuel_sameCountdown fuel : leads sameCountdown (closePopupFuel fuel).
Proof.
  induction fuel as [|fuel IH]; cbn [closePopupFuel]; [leads_step|].
  unfold_widget. frame_run.
Qed.

Lemma closePopup_untouchedByClose : leads untouchedByClose closePopup.
Proof. intros s. apply closePopupFuel_untouchedByClose. Qed.

Lemma closePopup_proceeds : leads proceeds closePopup.
Proof. intros s. apply closePopupFuel_proceeds. Qed.

Lemma closePopup_sameCountdown : leads sameCountdown closePopup.
Proof. intros s. apply closePopupFuel_sameCountdown. Qed.

#[local] Hint Resolve closePopup_untouchedByClose closePopup_proceeds
  closePopup_sameCountdown : leads.

Lemma countdownTimer_proceeds : leads proceeds countdownTimer.
Proof. unfold_widget. frame_run. Qed.

Lemma countdownTimer_sameCountdown : leads sameCountdown countdownTimer.
Proof. unfold_widget. frame_run. Qed.

#[local] Hint Resolve countdownTimer_proceeds countdownTimer_sameCountdown : leads.

Lemma countdownCheck_proceeds : leads proceeds countdownCheck.
Proof. unfold_widget. frame_run. Qed.

Lemma countdownCheck_sameCountdown : leads sameCountdown countdownCheck.
Proof. unfold_widget. frame_run. Qed.

Lemma modalShow_proceeds : leads proceeds modalShow.
Proof. unfold_widget. frame_run. Qed.

Lemma createContainer_proceeds h : leads proceeds (createContainer h).
Proof. unfold_widget. frame_run. Qed.

Lemma create404Container_proceeds h : leads proceeds (create404Container h).
Proof. unfold_widget. frame_run. Qed.

Lemma writeNamedWrapper_proceeds h : leads proceeds (writeNamedWrapper h).
Proof. unfold_widget. frame_run. Qed.

Lemma writeNamedWrapper_sameCountdown h : leads sameCountdown (writeNamedWrapper h).
Proof. unfold_widget. frame_run. Qed.

Lemma setupVideoJsPlayer_proceeds b : leads proceeds (setupVideoJsPlayer b).
Proof. unfold setupVideoJsPlayer, videojs. frame_run. Qed.

#[local] Hint Resolve countdownCheck_proceeds countdownCheck_sameCountdown
  modalShow_proceeds createContainer_proceeds create404Container_proceeds
  writeNamedWrapper_proceeds writeNamedWrapper_sameCountdown
  setupVideoJsPlayer_proceeds : leads.

Lemma display_proceeds d : In d guardedDisplays -> leads proceeds (display d).
Proof.
  intros Hd.
  pose proof (readsOnly_leads proceeds _ (buildHtml_readsOnly d Hd)) as Hb.
  assert (H404 : forall b, buildHtml404 d = Some b -> leads proceeds b).
  { intros b Hb'. apply readsOnly_leads; [apply _|].
    exact (buildHtml404_readsOnly d b Hd Hb'). }
  unfold display, updateModal, updateContainer, createHost, createNativeHost, deferredStep.
  cbv beta delta [setTimeout writeBox modifyDocument startCountdownTimer createModalWindow].
  destruct (buildHtml404 d) as [b|]; [specialize (H404 b eq_refl)|]; frame_run.
Qed.

Lemma displayAd_proceeds : leads proceeds displayAd.
Proof.
  assert (Hd : forall d, In d guardedDisplays -> leads proceeds (display d))
    by exact display_proceeds.
  pose proof (Hd bannerAd ltac:(in_list)). pose proof (Hd contentAdFunnel ltac:(in_list)).
  pose proof (Hd contentAd ltac:(in_list)). pose proof (Hd contentAdV2 ltac:(in_list)).
  pose proof (Hd contentIframe ltac:(in_list)). pose proof (Hd talooba ltac:(in_list)).
  pose proof (Hd talooba2ndCall ltac:(in_list)). pose proof (Hd videoAd ltac:(in_list)).
  pose proof (Hd videoBanner ltac:(in_list)). clear Hd.
  unfold displayAd, displayContent404Iframe, displayBannerAd, displayContentAdFunnel,
    displayContentAd, displayContentAdV2, displayContentIframe, displayTalooba,
    displayTalooba2ndCall, displayVideoAd, displayVideoBanner, getContent404IframeHtml, bare.
  cbv beta delta [setTimeout setOption].
  frame_run.
Qed.

Lemma fire_proceeds cb : leads proceeds (fire cb).
Proof.
  pose proof displayAd_proceeds.
  assert (Hd : forall d, In d guardedDisplays -> leads proceeds (display d))
    by exact display_proceeds.
  pose proof (Hd contentAdFunnel ltac:(in_list)). pose proof (Hd contentAdV2 ltac:(in_list)).
  pose proof (Hd contentIframe ltac:(in_list)). pose proof (Hd videoAd ltac:(in_list)).
  clear Hd.
  destruct cb; unfold fire, writeIFrameHtml, setImaAdTag, displayContentAdFunnel,
    displayContentAdV2, displayContentIframe, displayVideoAd; frame_run.
Qed.

Lemma adshareModal_proceeds opts : leads proceeds (adshareModal opts).
Proof. unfold adshareModal. cbv beta delta [setTimeout]. frame_run. Qed.

Lemma update_sameCountdown d s :
  In d guardedDisplays -> ~ noHost s -> sameCountdown s (run (display d) s).
Proof.
  intros Hd Hhost. unfold run.
  pose proof (readsOnly_leads sameCountdown _ (buildHtml_readsOnly d Hd)) as Hb.
  rewrite (display_eq d).
  set (s0 := if resetsFallbackFlag d then set_displaysFallbackAd false s else s).
  assert (H0 : sameCountdown s s0) by (unfold s0; destruct (resetsFallbackFlag d); frame_change).
  etransitivity; [exact H0|].
  assert (Hdefer : leads sameCountdown (deferredStep d)).
  { unfold deferredStep. cbv beta delta [setTimeout]. frame_run. }
  destruct (modal s) as [m|] eqn:Hm.
  - assert (L : leads sameCountdown (updateModal d;; deferredStep d)).
    { apply leads_bind; [apply _| |intros ?; exact Hdefer]. unfold updateModal. frame_run. }
    exact (L s0).
  - destruct (container s) as [c|] eqn:Hc; [|destruct Hhost; split; assumption].
    assert (L : leads sameCountdown (updateContainer d c;; deferredStep d)).
    { apply leads_bind; [apply _| |intros ?; exact Hdefer].
      unfold updateContainer. cbv beta delta [writeBox modifyDocument]. frame_run. }
    exact (L s0).
Qed.
(** ** Invariants of the session *)

(** X9.  [closePopup] touches the two host references, the two player
    variables and the document, and nothing else, whether it returns or
    throws (what the page's own [afterClose] callback does is outside
    the model): the configuration, [error404], the start of the
    countdown, [startedVideoAd], the clock and the queue of timeouts
    are as before, no player is made or disposed, and no fake content
    box is added (a box is only detached).  When it returns, both host
    references are null and the player is forgotten. *)
Theorem closePopup_touches_hosts_only (s : State) :
  config (run closePopup s) = config s
  /\ error404 (run closePopup s) = error404 s
  /\ adsharecountdownstart (run closePopup s) = adsharecountdownstart s
  /\ startedVideoAd (run closePopup s) = startedVideoAd s
  /\ timers (run closePopup s) = timers s
  /\ now (run closePopup s) = now s
  /\ createdPlayers (run closePopup s) = createdPlayers s
  /\ disposedPlayers (run closePopup s) = disposedPlayers s
  /\ length (boxes (document (run closePopup s))) = length (boxes (document s))
  /\ (outcome closePopup s = Normal tt ->
      noHost (run closePopup s)
      /\ playerInitialized (run closePopup s) = false
      /\ player (run closePopup s) = None).
Proof.
  destruct (closePopup_untouchedByClose s)
    as (H1 & H2 & H3 & H4 & H5 & H6 & _ & H8 & H9 & _ & _ & H12).
  repeat (split; [assumption|]).
  unfold outcome, run. destruct (closePopup s) as [o s'] eqn:E. cbn [fst snd].
  intros ->. apply closePopup_returns in E. unfold noHost. tauto.
Qed.

(** X10.  [startedVideoAd] is set by the [adstart] handler and never
    reset: no timer callback, no display function, not [closePopup] and
    not a new call of [adshareModal] changes it.  Once an ad has
    started, the fallback timeout of every later video session does
    nothing. *)
Theorem startedVideoAd_is_never_reset (s : State) :
  (forall cb, startedVideoAd (run (fire cb) s) = startedVideoAd s)
  /\ (forall opts, startedVideoAd (run (adshareModal opts) s) = startedVideoAd s)
  /\ startedVideoAd (run closePopup s) = startedVideoAd s
  /\ startedVideoAd (run onAdStart s) = true
  /\ (startedVideoAd s = true -> fire RetryVideoAd s = (Normal tt, s)).
Proof.
  split; [intros cb; exact (proj1 (fire_proceeds cb s))|].
  split; [intros opts; exact (proj1 (adshareModal_proceeds opts s))|].
  split; [exact (proj1 (closePopup_proceeds s))|].
  split; [reflexivity|].
  intros H. unfold fire. rewrite bind_eq. cbn [get]. rewrite H. reflexivity.
Qed.

Lemma startedVideoAd_is_never_reset_witness :
  startedVideoAd (run onAdStart videoPlaying) = true
  /\ fire RetryVideoAd (run onAdStart videoPlaying) = (Normal tt, run onAdStart videoPlaying).
Proof.
  assert (H : startedVideoAd (run onAdStart videoPlaying) = true) by reflexivity.
  split; [exact H|].
  exact (proj2 (proj2 (proj2 (proj2
           (startedVideoAd_is_never_reset (run onAdStart videoPlaying))))) H).
Defined.



(** X12.  The widget never cancels a timeout: whatever callback runs,
    the timeouts that were pending are still pending afterwards, in the
    same order, and [closePopup] leaves the queue exactly as it is.  The
    countdown of a closed session goes on polling. *)
Theorem no_timeout_is_cancelled (s : State) :
  (forall cb, timers s `prefix_of` timers (run (fire cb) s))
  /\ (forall opts, timers s `prefix_of` timers (run (adshareModal opts) s))
  /\ timers (run closePopup s) = timers s.
Proof.
  split; [intros cb; exact (proj1 (proj2 (proj2 (fire_proceeds cb s))))|].
  split; [intros opts; exact (proj1 (proj2 (proj2 (adshareModal_proceeds opts s))))|].
  exact (proj1 (proj2 (proj2 (proj2 (proj2 (closePopup_untouchedByClose s)))))).
Qed.

(** X13.  Replacing what an open host shows does not restart the
    countdown: each of the nine display functions, called while a host
    is present, leaves [adsharecountdownstart] and the configured
    duration as they are, so the time left at any moment is what it
    would have been without the call. *)
Theorem update_keeps_the_countdown (d : Display) (s : State) :
  In d guardedDisplays ->
  ~ noHost s ->
  adsharecountdownstart (run (display d) s) = adsharecountdownstart s
  /\ (forall t, timeLeftAt (run (display d) s) t = timeLeftAt s t).
Proof.
  intros Hd Hhost. destruct (update_sameCountdown d s Hd Hhost) as [H1 H2].
  split; [exact H1|]. intros t. unfold timeLeftAt, getCountdownTimeLeft.
  rewrite !opt_set_now, H2.
  change (adsharecountdownstart (set_now t (run (display d) s)))
    with (adsharecountdownstart (run (display d) s)).
  rewrite H1. reflexivity.
Qed.

Lemma update_keeps_the_countdown_witness :
  In contentAdV2 guardedDisplays
  /\ ~ noHost runningCountdown
  /\ adsharecountdownstart (run (display contentAdV2) runningCountdown) = Some 1000
  /\ timeLeftAt (run (display contentAdV2) runningCountdown) 31000 = JNum 6.
Proof.
  assert (Hin : In contentAdV2 guardedDisplays) by in_list.
  assert (Hhost : ~ noHost runningCountdown)
    by (intros [H _]; vm_compute in H; discriminate H).
  destruct (update_keeps_the_countdown contentAdV2 runningCountdown Hin Hhost) as [H1 H2].
  split; [exact Hin|]. split; [exact Hhost|]. split.
  - rewrite H1. vm_compute. reflexivity.
  - rewrite H2. vm_compute. reflexivity.
Defined.
(** ** More on closing *)

Lemma beforeClose_sameBoxes :
  leads sameBoxes (removeFirstPicoContent;; tryCatch (destroyVideoJsPlayer false);; build).
Proof.
  assert (Hd : leads sameBoxes (destroyVideoJsPlayer false)).
  { intros s. rewrite destroyVideoJsPlayer_forgets. reflexivity. }
  unfold build. unfold_widget. frame_run.
Qed.

(** Closing a modal session removes every dialog node and leaves the
    boxes alone. *)
Lemma closePopupFuel_modal_empties fuel : forall s m,
  modal s = Some m ->
  (length (picoNodes (document s)) + (if built m then 0 else 1) < fuel)%nat ->
  exists s', closePopupFuel fuel s = (Normal tt, s')
             /\ picoNodes (document s') = []
             /\ boxes (document s') = boxes (document s).
Proof.
  induction fuel as [|fuel IH]; intros s m Hm Hlen; [lia|].
  rewrite closePopupFuel_unfold.
  set (s1 := set_playerInitialized false (set_player None s)).
  assert (Hm1 : modal s1 = Some m) by exact Hm.
  unfold closePopupRest. rewrite bind_eq. cbn [get]. rewrite Hm1.
  destruct (picoNodes (document s1)) as [|x rest] eqn:Hp.
  - rewrite (bind_normal _ _ _ tt s1).
    + eexists. split; [reflexivity|]. split; [exact Hp|reflexivity].
    + apply tryCatch_caught. apply bind_throws, removeFirstPicoContent_nil, Hp.
  - destruct (beforeAfterClose s1 m x rest Hm1 Hp) as (s4 & m4 & Hrun & Hm4 & Hb4 & Hl4).
    assert (Hp' : picoNodes (document s) = x :: rest) by exact Hp.
    rewrite Hp' in Hlen. cbn [length] in Hlen.
    destruct (IH s4 m4 Hm4) as (s5 & H5 & Hnodes & Hboxes); [rewrite Hb4; lia|].
    pose proof (beforeClose_sameBoxes s1) as Hsame. rewrite Hrun in Hsame.
    rewrite (bind_normal _ _ _ tt s5).
    + eexists. split; [reflexivity|]. split; [exact Hnodes|].
      cbn. rewrite Hboxes. exact Hsame.
    + apply tryCatch_normal. rewrite (seq3_normal _ _ _ _ _ _ Hrun).
      apply tryCatch_then_callAfterClose, H5.
Qed.

Lemma closePopup_modal_empties s m :
  modal s = Some m ->
  exists s', closePopup s = (Normal tt, s')
             /\ picoNodes (document s') = []
             /\ boxes (document s') = boxes (document s).
Proof.
  intros Hm. unfold closePopup. apply (closePopupFuel_modal_empties _ s m Hm).
  destruct (built m); lia.
Qed.

(** X14.  Closing a session whose host is a modal removes every
    [.pico-content] node of the document, not only the node of the
    widget's own dialog: the [beforeClose] hook removes the first such
    node it finds, and the [afterClose] hook calls [closePopup] again,
    until no node is left.  The call returns, with both host references
    null. *)
Theorem closePopup_removes_every_dialog (s : State) :
  isSome (modal s) = true ->
  outcome closePopup s = Normal tt
  /\ picoNodes (document (run closePopup s)) = []
  /\ noHost (run closePopup s).
Proof.
  destruct (modal s) as [m|] eqn:Hm; [intros _|discriminate].
  destruct (closePopup_modal_empties s m Hm) as (s' & H & Hnodes & _).
  unfold outcome, run. rewrite H. cbn [fst snd].
  split; [reflexivity|]. split; [exact Hnodes|].
  apply closePopup_returns in H. split; tauto.
Qed.

Lemma closePopup_removes_every_dialog_witness :
  isSome (modal runningCountdown) = true
  /\ picoNodes (document (run closePopup runningCountdown)) = [].
Proof.
  assert (H : isSome (modal runningCountdown) = true) by (vm_compute; reflexivity).
  split; [exact H|].
  exact (proj1 (proj2 (closePopup_removes_every_dialog runningCountdown H))).
Defined.

(** X15.  [closePopup] looks at [container] only when [modal] is null.
    When both references are set (as after a 404 display on top of an
    open modal), it closes the modal, leaves the fake content boxes in
    the document exactly as they are, and sets both references to
    null: the box stays on the page and the widget no longer has a
    reference to it. *)
Theorem closePopup_orphans_the_box (s : State) (i : nat) (b : Box) :
  isSome (modal s) = true ->
  container s = Some i ->
  boxes (document s) !! i = Some b ->
  outcome closePopup s = Normal tt
  /\ container (run closePopup s) = None
  /\ boxes (document (run closePopup s)) !! i = Some b.
Proof.
  destruct (modal s) as [m|] eqn:Hm; [intros _|discriminate].
  intros Hc Hb.
  destruct (closePopup_modal_empties s m Hm) as (s' & H & _ & Hboxes).
  unfold outcome, run. rewrite H. cbn [fst snd]. split; [reflexivity|].
  rewrite Hboxes. split; [|exact Hb].
  apply closePopup_returns in H. tauto.
Qed.

Lemma closePopup_orphans_the_box_witness :
  isSome (modal (run displayContent404Iframe runningCountdown)) = true
  /\ container (run displayContent404Iframe runningCountdown) = Some 0%nat
  /\ (attached <$> boxes (document (run closePopup
                                      (run displayContent404Iframe runningCountdown)))
                     !! 0%nat)
     = Some true.
Proof.
  assert (Hm : isSome (modal (run displayContent404Iframe runningCountdown)) = true)
    by (vm_compute; reflexivity).
  assert (Hc : container (run displayContent404Iframe runningCountdown) = Some 0%nat)
    by (vm_compute; reflexivity).
  assert (Hb : boxes (document (run displayContent404Iframe runningCountdown)) !! 0%nat
               = Some (newBox true {| header := None; fragment := Content404Iframe |}))
    by (vm_compute; reflexivity).
  split; [exact Hm|]. split; [exact Hc|].
  destruct (closePopup_orphans_the_box _ _ _ Hm Hc Hb) as (_ & _ & H).
  rewrite H. reflexivity.
Defined.

Lemma closePopup_unfold s :
  closePopup s
  = closePopupRest (length (picoNodes (document s)) + 1)
      (set_playerInitialized false (set_player None s)).
Proof.
  unfold closePopup.
  replace (length (picoNodes (document s)) + 2)%nat
    with (S (length (picoNodes (document s)) + 1)) by lia.
  apply closePopupFuel_unfold.
Qed.

(** X16.  Closing a session whose host is a fake content box.  The box
    is taken out of the document; then the minimum height of
    [#contentBoxContainer] is reset, and only after that are the
    references set to null.  On a page without [#contentBoxContainer]
    the call throws at that point: the box is gone but [container]
    still refers to it, and every further call throws as well, at the
    removal.  With the element present the call returns and both
    references are null. *)
Theorem closePopup_container (s : State) (i : nat) (b : Box) :
  modal s = None ->
  container s = Some i ->
  boxes (document s) !! i = Some b ->
  attached b = true ->
  (attached <$> boxes (document (run closePopup s)) !! i) = Some false
  /\ (hasContentBoxContainer (document s) = true ->
      outcome closePopup s = Normal tt /\ noHost (run closePopup s))
  /\ (hasContentBoxContainer (document s) = false ->
      outcome closePopup s = Throws TypeError
      /\ container (run closePopup s) = Some i
      /\ closePopup (run closePopup s) = (Throws TypeError, run closePopup s)).
Proof.
  intros Hm Hc Hb Ha.
  set (s1 := set_playerInitialized false (set_player None s)).
  set (s2 := set_document
               (doc_videoElementPlayer None
                  (doc_boxes (alter detachBox i (boxes (document s1))) (document s1))) s1).
  assert (Hrem : removeContainer i s1 = (Normal tt, s2)).
  { unfold removeContainer. rewrite bind_eq. cbn [get].
    change (boxes (document s1)) with (boxes (document s)). rewrite Hb, Ha. reflexivity. }
  assert (Hrun : closePopup s
                 = (if hasContentBoxContainer (document s)
                    then (Normal tt, set_modal None (set_container None s2))
                    else (Throws TypeError, s2))).
  { rewrite closePopup_unfold. fold s1. unfold closePopupRest. rewrite bind_eq. cbn [get].
    change (modal s1) with (modal s). change (container s1) with (container s).
    rewrite Hm, Hc, bind_eq.
    rewrite (bind_normal _ _ _ tt s1 (tryCatch_callAfterClose s1)).
    rewrite (bind_normal _ _ _ tt s2 Hrem). rewrite bind_eq. cbn [get].
    change (hasContentBoxContainer (document s2)) with (hasContentBoxContainer (document s)).
    destruct (hasContentBoxContainer (document s)); reflexivity. }
  assert (Hdet : attached <$> boxes (document s2) !! i = Some false).
  { cbn. rewrite list_lookup_alter_eq, Hb. reflexivity. }
  unfold outcome, run. rewrite Hrun. split; [|split].
  - destruct (hasContentBoxContainer (document s)); exact Hdet.
  - intros ->. cbn [fst snd]. split; [reflexivity|]. split; reflexivity.
  - intros ->. cbn [fst snd]. split; [reflexivity|]. split; [exact Hc|].
    rewrite closePopup_unfold. unfold closePopupRest. rewrite bind_eq. cbn [get].
    change (modal (set_playerInitialized false (set_player None s2))) with (modal s).
    change (container (set_playerInitialized false (set_player None s2)))
      with (container s).
    rewrite Hm, Hc, bind_eq.
    rewrite (bind_normal _ _ _ tt _ (tryCatch_callAfterClose _)).
    rewrite bind_eq. unfold removeContainer. rewrite bind_eq. cbn [get].
    change (boxes (document (set_playerInitialized false (set_player None s2))))
      with (alter detachBox i (boxes (document s))).
    rewrite list_lookup_alter_eq, Hb. reflexivity.
Qed.

Lemma closePopup_container_witness :
  modal nativeSmart = None
  /\ container nativeSmart = Some 0%nat
  /\ (attached <$> boxes (document nativeSmart) !! 0%nat) = Some true
  /\ hasContentBoxContainer (document nativeSmart) = true
  /\ outcome closePopup nativeSmart = Normal tt
  /\ (attached <$> boxes (document (run closePopup nativeSmart)) !! 0%nat) = Some false.
Proof.
  assert (Hm : modal nativeSmart = None) by (vm_compute; reflexivity).
  assert (Hc : container nativeSmart = Some 0%nat) by (vm_compute; reflexivity).
  assert (Hb : boxes (document nativeSmart) !! 0%nat
               = Some (newBox false {| header := getHeaderSection nativeSmart;
                                       fragment := TaboolaIframe |}))
    by (vm_compute; reflexivity).
  assert (Hhas : hasContentBoxContainer (document nativeSmart) = true)
    by (vm_compute; reflexivity).
  destruct (closePopup_container nativeSmart 0 _ Hm Hc Hb eq_refl) as (Hdet & Hret & _).
  split; [exact Hm|]. split; [exact Hc|]. split; [rewrite Hb; reflexivity|].
  split; [exact Hhas|]. split; [exact (proj1 (Hret Hhas))|exact Hdet].
Defined.
(** ** More on the countdown *)

Lemma subNumber_NaN_l b : subNumber NaN b = NaN.
Proof. reflexivity. Qed.

Lemma subNumber_NaN_r a : subNumber a NaN = NaN.
Proof.
  destruct a as [|z|f]; [reflexivity| |]; unfold subNumber; cbn [toDouble].
  - destruct (binary_normalize 53 1024 z 0 false); reflexivity.
  - destruct f; reflexivity.
Qed.

(** X17.  A countdown without a number never runs out.  When the
    configured duration converts to NaN (it is [undefined], an object,
    or a string that is no numeric literal), or no countdown has been
    started yet ([adsharecountdownstart] is still undefined), the time
    left is NaN at every moment; no comparison with 0 holds for it, so
    the countdown check of the display functions does nothing and the
    timer callback takes its running branch. *)
Theorem countdown_without_a_number (s : State) :
  numberValue (opt s "countdownDuration") = NaN \/ adsharecountdownstart s = None ->
  (forall t, timeLeftAt s t = JNaN)
  /\ countdownCheck s = (Normal tt, s)
  /\ (hasId (document s) "adshare-countdown" = false ->
      countdownTimer s = (Normal tt, set_timers (timers s ++ [tick]) s)).
Proof.
  intros H.
  assert (Hnan : forall t, timeLeftAt s t = JNaN).
  { intros t. unfold timeLeftAt, getCountdownTimeLeft. rewrite opt_set_now.
    change (adsharecountdownstart (set_now t s)) with (adsharecountdownstart s).
    destruct H as [-> | ->]; [rewrite subNumber_NaN_l|rewrite subNumber_NaN_r];
      reflexivity. }
  assert (Hleft : getCountdownTimeLeft s = JNaN).
  { unfold getCountdownTimeLeft.
    destruct H as [-> | ->]; [rewrite subNumber_NaN_l|rewrite subNumber_NaN_r];
      reflexivity. }
  split; [exact Hnan|]. split.
  - unfold countdownCheck. rewrite bind_eq. cbn [get]. rewrite Hleft. reflexivity.
  - intros Hid. unfold countdownTimer. rewrite bind_eq. cbn [get]. rewrite Hleft, Hid.
    reflexivity.
Qed.

Lemma countdown_without_a_number_witness :
  adsharecountdownstart (run displayAd (marked404 configured)) = None
  /\ timeLeftAt (run displayAd (marked404 configured)) 1000000 = JNaN
  /\ numberValue (opt soonShown "countdownDuration") = NaN
  /\ timeLeftAt soonShown 1000000 = JNaN.
Proof.
  assert (H : adsharecountdownstart (run displayAd (marked404 configured)) = None)
    by (vm_compute; reflexivity).
  assert (H' : numberValue (opt soonShown "countdownDuration") = NaN)
    by (vm_compute; reflexivity).
  split; [exact H|].
  split; [exact (proj1 (countdown_without_a_number _ (or_intror H)) 1000000)|].
  split; [exact H'|].
  exact (proj1 (countdown_without_a_number _ (or_introl H')) 1000000).
Defined.

Lemma showCloseButton_run s :
  showCloseButton s
  = (if hasCloseButton (document s) then Normal tt else Throws TypeError, s).
Proof.
  unfold showCloseButton. rewrite bind_eq. cbn [get].
  destruct (hasCloseButton (document s)); reflexivity.
Qed.

Lemma countdownTimer_expired s :
  leZero (getCountdownTimeLeft s) = true ->
  countdownTimer s
  = (showCloseButton;; when (truthy (opt s "closeModalAutomatically")) closePopup) s.
Proof.
  intros Hleft. unfold countdownTimer. rewrite bind_eq. cbn [get]. rewrite Hleft.
  reflexivity.
Qed.

Lemma countdownTimer_expired_stays s :
  leZero (getCountdownTimeLeft s) = true ->
  hasCloseButton (document s) = true ->
  truthy (opt s "closeModalAutomatically") = false ->
  countdownTimer s = (Normal tt, s).
Proof.
  intros Hleft Hb Hauto.
  rewrite (countdownTimer_expired s Hleft), bind_eq, showCloseButton_run, Hb, Hauto.
  reflexivity.
Qed.

Lemma countdownTimer_expired_closes s :
  leZero (getCountdownTimeLeft s) = true ->
  hasCloseButton (document s) = true ->
  truthy (opt s "closeModalAutomatically") = true ->
  isSome (modal s) = true ->
  outcome countdownTimer s = Normal tt
  /\ noHost (run countdownTimer s)
  /\ picoNodes (document (run countdownTimer s)) = [].
Proof.
  intros Hleft Hb Hauto Hm.
  destruct (modal s) as [m|] eqn:Hmodal; [|discriminate].
  destruct (closePopup_modal_empties s m Hmodal) as (s' & H & Hnodes & _).
  unfold outcome, run.
  rewrite (countdownTimer_expired s Hleft), bind_eq, showCloseButton_run, Hb, Hauto.
  cbn [when]. rewrite H. cbn [fst snd]. split; [reflexivity|]. split; [|exact Hnodes].
  apply closePopup_returns in H. split; tauto.
Qed.

(** X18.  One run of the timer callback [countdownTimer].  While time
    is left (and the page has no element [#adshare-countdown]) it
    changes nothing but the queue, to which it adds its next run,
    100 ms later.  Once no time is left it adds no further run: it
    shows the close button, throwing a TypeError when the document has
    no element of class [pico-close]; then, when
    [closeModalAutomatically] is truthy and the host is a modal, it
    closes the session; otherwise it leaves the state as it is. *)
Theorem countdownTimer_step (s : State) :
  (leZero (getCountdownTimeLeft s) = false ->
   hasId (document s) "adshare-countdown" = false ->
   countdownTimer s = (Normal tt, set_timers (timers s ++ [tick]) s))
  /\ (leZero (getCountdownTimeLeft s) = true ->
      timers (run countdownTimer s) = timers s
      /\ (hasCloseButton (document s) = false ->
          countdownTimer s = (Throws TypeError, s))
      /\ (hasCloseButton (document s) = true ->
          truthy (opt s "closeModalAutomatically") = false ->
          countdownTimer s = (Normal tt, s))
      /\ (hasCloseButton (document s) = true ->
          truthy (opt s "closeModalAutomatically") = true ->
          isSome (modal s) = true ->
          outcome countdownTimer s = Normal tt
          /\ noHost (run countdownTimer s)
          /\ picoNodes (document (run countdownTimer s)) = [])).
Proof.
  split.
  - intros Hleft Hid. unfold countdownTimer. rewrite bind_eq. cbn [get].
    rewrite Hleft, Hid. reflexivity.
  - intros Hleft. pose proof (countdownTimer_expired s Hleft) as Hrun.
    split; [|split; [|split]].
    + unfold run. rewrite Hrun, bind_eq, showCloseButton_run.
      destruct (hasCloseButton (document s)); [|reflexivity].
      destruct (truthy (opt s "closeModalAutomatically")); [|reflexivity].
      exact (proj1 (proj2 (proj2 (proj2 (proj2 (closePopup_untouchedByClose s)))))).
    + intros Hb. rewrite Hrun, bind_eq, showCloseButton_run, Hb. reflexivity.
    + exact (countdownTimer_expired_stays s Hleft).
    + exact (countdownTimer_expired_closes s Hleft).
Qed.

Lemma countdownTimer_step_witness :
  leZero (getCountdownTimeLeft runningCountdown) = false
  /\ hasId (document runningCountdown) "adshare-countdown" = false
  /\ timers (run countdownTimer runningCountdown) = (timers runningCountdown ++ [tick])%list
  /\ leZero (getCountdownTimeLeft (run (clock 40000) runningCountdown)) = true
  /\ timers (run countdownTimer (run (clock 40000) runningCountdown))
     = timers runningCountdown.
Proof.
  assert (H1 : leZero (getCountdownTimeLeft runningCountdown) = false)
    by (vm_compute; reflexivity).
  assert (H2 : hasId (document runningCountdown) "adshare-countdown" = false)
    by (vm_compute; reflexivity).
  assert (H3 : leZero (getCountdownTimeLeft (run (clock 40000) runningCountdown)) = true)
    by (vm_compute; reflexivity).
  split; [exact H1|]. split; [exact H2|]. split; [|split; [exact H3|]].
  - unfold run at 1. rewrite (proj1 (countdownTimer_step runningCountdown) H1 H2).
    reflexivity.
  - rewrite (proj1 (proj2 (countdownTimer_step _) H3)). vm_compute. reflexivity.
Defined.
(** ** More on the hosts *)

Lemma buildHtml_returns d s :
  In d guardedDisplays ->
  isSome (playerOptions (moduleOptions (config s))) = true ->
  exists h, buildHtml d s = (Normal h, s).
Proof.
  intros Hd Hp.
  destruct (playerOptions (moduleOptions (config s))) as [p|] eqn:E; [|discriminate Hp].
  cbn in Hd.
  repeat (destruct Hd as [<-|Hd]; [eexists; try reflexivity|]); [|destruct Hd].
  cbn [buildHtml videoAd]. unfold getVideoElementHTML. rewrite bind_eq. cbn [get].
  rewrite E. reflexivity.
Qed.

Lemma buildHtml_at d s s' h :
  In d guardedDisplays ->
  config s' = config s ->
  error404 s' = error404 s ->
  language s' = language s ->
  buildHtml d s = (Normal h, s) ->
  buildHtml d s' = (Normal h, s').
Proof.
  intros Hd Hc He Hl. cbn in Hd.
  repeat (destruct Hd as [<-|Hd];
          [cbv beta iota zeta delta
             [buildHtml bannerAd contentAdFunnel contentAd contentAdV2 contentIframe
              talooba talooba2ndCall videoAd videoBanner getBannerElementHTML
              getContentAdFunnelIframeHtml getContentAdIframeHTML getContentAdIframeHTMLV2
              getContentIframeHtml getTaboolaIframeHTML getVideoElementHTML
              getVideoBannerHTML withHeader bare bind get ret throw getHeaderSection
              getCountdownText opt];
           rewrite ?Hc, ?He, ?Hl;
           try (destruct (playerOptions (moduleOptions (config s)));
                [|intros H; discriminate H]);
           cbv beta; rewrite ?Hc, ?He, ?Hl;
           intros [= <-]; reflexivity|]).
  destruct Hd.
Qed.

Lemma countdownCheck_run s :
  countdownCheck s
  = (if leZero (getCountdownTimeLeft s) then countdownTimer s else (Normal tt, s)).
Proof.
  unfold countdownCheck. rewrite bind_eq. cbn [get].
  destruct (leZero (getCountdownTimeLeft s)); reflexivity.
Qed.


Lemma deferredStep_run d s :
  exists l, deferredStep d s = (Normal tt, set_timers (timers s ++ l) s).
Proof.
  unfold deferredStep. destruct (deferred d) as [cb|].
  - eexists. reflexivity.
  - exists []. rewrite app_nil_r. destruct s. reflexivity.
Qed.

Lemma findIndex_app_new {A} (p : A -> bool) (l : list A) (x : A) :
  p x = true -> exists i, findIndex p (l ++ [x]) = Some i.
Proof.
  intros Hx. induction l as [|y l IH]; cbn; [rewrite Hx; eauto|].
  destruct (p y); [eauto|]. destruct IH as (i & ->). eauto.
Qed.




Lemma display_noHost_eq d s :
  noHost s ->
  display d s
  = (createHost d;; deferredStep d)
      (if resetsFallbackFlag d then set_displaysFallbackAd false s else s).
Proof. intros [Hm Hc]. rewrite display_eq, Hm, Hc. reflexivity. Qed.













(** ** More on the dispatcher and the entry points *)

(** X22.  On a page that carries the 404 marker [displayAd] ignores
    [content] and [integration]: it sets [moduleOptions.e404] and
    [error404], and appends the 404 box with the bare 404 iframe.  No
    countdown is started and no timeout scheduled, and [modal] is left
    as it is.  When the page has no second element of class [aC] the
    call throws a TypeError, after the two flags have been set. *)
Theorem displayAd_on_a_404_page (s : State) :
  marker404 (document s) = Some true ->
  error404 (run displayAd s) = true
  /\ opt (run displayAd s) "e404" = JBool true
  /\ modal (run displayAd s) = modal s
  /\ timers (run displayAd s) = timers s
  /\ adsharecountdownstart (run displayAd s) = adsharecountdownstart s
  /\ (hasSecondAC (document s) = false ->
      outcome displayAd s = Throws TypeError
      /\ container (run displayAd s) = container s
      /\ boxes (document (run displayAd s)) = boxes (document s))
  /\ (hasSecondAC (document s) = true ->
      outcome displayAd s = Normal tt
      /\ isSome (container (run displayAd s)) = true
      /\ boxes (document (run displayAd s)) = (boxes (document s) ++ [box404Iframe])%list).
Proof.
  intros Hmark. unfold outcome, run, displayAd. rewrite bind_eq. cbn [get]. rewrite Hmark.
  cbv beta iota zeta delta [setOption displayContent404Iframe getContent404IframeHtml bare
    create404Container appendBox modifyDocument bind ret get modify throw].
  fields. unfold opt.
  destruct (hasSecondAC (document s)); cbn [negb]; fields.
  - destruct (findIndex_app_new attached (boxes (document s)) box404Iframe eq_refl)
      as (i & Hi).
    fold box404Iframe. rewrite Hi. fields. cbn.
    unfold getProp. rewrite lookup_insert_eq.
    repeat split; first [reflexivity | congruence].
  - cbn. unfold getProp. rewrite lookup_insert_eq.
    repeat split; first [reflexivity | congruence].
Qed.

Lemma displayAd_on_a_404_page_witness :
  marker404 (document (marked404 nativeSmart)) = Some true
  /\ error404 (run displayAd (marked404 nativeSmart)) = true
  /\ timers (run displayAd (marked404 nativeSmart)) = timers nativeSmart.
Proof.
  assert (H : marker404 (document (marked404 nativeSmart)) = Some true) by reflexivity.
  destruct (displayAd_on_a_404_page _ H) as (H1 & _ & _ & H4 & _).
  split; [exact H|]. split; [exact H1|]. rewrite H4. vm_compute. reflexivity.
Defined.

(** X23.  What [displayAd] does when it has nothing to show.  On a
    page without the element the 404 test reads it throws a TypeError
    before anything else happens.  On a page without the 404 marker,
    with a [content] that is none of the twelve names it knows, it
    returns without showing anything and without an error: no host, no
    timeout, no change at all. *)
Theorem displayAd_shows_nothing (s : State) :
  (marker404 (document s) = None -> displayAd s = (Throws TypeError, s))
  /\ (marker404 (document s) = Some false ->
      (forall name, In name contentNames -> contentIs s name = false) ->
      displayAd s = (Normal tt, s)).
Proof.
  split.
  - intros Hmark. unfold displayAd. rewrite bind_eq. cbn [get]. rewrite Hmark. reflexivity.
  - intros Hmark Hnone. unfold displayAd. rewrite bind_eq. cbn [get]. rewrite Hmark.
    rewrite !Hnone by in_list. reflexivity.
Qed.

Lemma displayAd_shows_nothing_witness :
  displayAd (run (setOption "content" (JStr "Taboola")) smartScheduled)
  = (Normal tt, run (setOption "content" (JStr "Taboola")) smartScheduled).
Proof.
  apply (proj2 (displayAd_shows_nothing _)); [vm_compute; reflexivity|].
  intros name Hin. cbn in Hin.
  repeat (destruct Hin as [<-|Hin]; [vm_compute; reflexivity|]). destruct Hin.
Defined.
(** ** Updating an open dialog *)

Lemma writeNamedWrapper_dialog s h j :
  noNamedBox (document s) ->
  findIndex isSome (picoNodes (document s)) = Some j ->
  writeNamedWrapper h s
  = (Normal tt,
     set_document
       (doc_videoElementPlayer None
          (doc_picoNodes (<[j := Some h]> (picoNodes (document s))) (document s))) s).
Proof.
  intros Hbox Hj. unfold writeNamedWrapper. rewrite bind_eq. cbn [get].
  unfold noNamedBox in Hbox. rewrite Hbox, Hj. reflexivity.
Qed.

Lemma updateModal_run (d : Display) (s : State) (h : Html) :
  In d guardedDisplays ->
  isSome (modal s) = true ->
  noNamedBox (document s) ->
  isSome (modalContent s) = true ->
  buildHtml d s = (Normal h, s) ->
  outcome (display d) s = Normal tt
  /\ (rechecksCountdownInModal d && closesItself s = false ->
      modalContent (run (display d) s) = Some h
      /\ modal (run (display d) s) = modal s)
  /\ (rechecksCountdownInModal d && closesItself s = true ->
      noHost (run (display d) s)).
Proof.
  intros Hd Hm Hbox Hw Hh.
  destruct (modal s) as [m|] eqn:Hmodal; [clear Hm|discriminate].
  destruct (modalContent s) as [h0|] eqn:Hcontent; [clear Hw|discriminate].
  destruct (findIndex_wrapper _ _ Hcontent) as (j & Hj).
  destruct (rewrite_first_wrapper _ j h Hj) as [Hhead Hbutton].
  set (s0 := if resetsFallbackFlag d then set_displaysFallbackAd false s else s).
  set (s1 := if destroysPlayerInModal d
             then set_playerInitialized false (set_player None s0) else s0).
  assert (E1 : forall (A : Type) (f : State -> A),
            (forall v u, f (set_displaysFallbackAd v u) = f u) ->
            (forall v u, f (set_playerInitialized v u) = f u) ->
            (forall v u, f (set_player v u) = f u) ->
            f s1 = f s).
  { intros A f F1 F2 F3. unfold s1, s0.
    destruct (destroysPlayerInModal d), (resetsFallbackFlag d);
      rewrite ?F2, ?F3, ?F1; reflexivity. }
  assert (Hdoc : document s1 = document s) by (apply (E1 _ document); reflexivity).
  assert (Hmod : modal s1 = modal s) by (apply (E1 _ modal); reflexivity).
  assert (Hh1 : buildHtml d s1 = (Normal h, s1)).
  { apply (buildHtml_at d s s1 h Hd); [| | |exact Hh].
    - apply (E1 _ config); reflexivity.
    - apply (E1 _ error404); reflexivity.
    - apply (E1 _ language); reflexivity. }
  set (s2 := set_document
               (doc_videoElementPlayer None
                  (doc_picoNodes (<[j := Some h]> (picoNodes (document s1)))
                     (document s1))) s1).
  assert (Hwrite : writeNamedWrapper h s1 = (Normal tt, s2)).
  { apply writeNamedWrapper_dialog; rewrite Hdoc; assumption. }
  assert (Hcontent2 : modalContent s2 = Some h).
  { unfold modalContent. cbn. rewrite Hdoc. exact Hhead. }
  assert (Hbutton2 : hasCloseButton (document s2) = true).
  { unfold hasCloseButton. cbn. rewrite Hdoc, Hbutton. apply orb_true_r. }
  assert (Hmodal2 : modal s2 = Some m) by (rewrite <- Hmodal; exact Hmod).
  assert (Hleft2 : getCountdownTimeLeft s2 = getCountdownTimeLeft s).
  { unfold getCountdownTimeLeft.
    change (opt s2) with (opt s1). change (adsharecountdownstart s2)
      with (adsharecountdownstart s1). change (now s2) with (now s1).
    rewrite (E1 _ opt), (E1 _ adsharecountdownstart), (E1 _ now); reflexivity. }
  assert (Hauto2 : opt s2 "closeModalAutomatically" = opt s "closeModalAutomatically").
  { change (opt s2) with (opt s1). rewrite (E1 _ opt); reflexivity. }
  assert (Hdestroy : when (destroysPlayerInModal d) (destroyVideoJsPlayer false) s0
                     = (Normal tt, s1)).
  { unfold s1. destruct (destroysPlayerInModal d); [|reflexivity].
    apply destroyVideoJsPlayer_forgets. }
  assert (Hupdate : updateModal d s0
                    = when (rechecksCountdownInModal d) countdownCheck s2).
  { unfold updateModal. rewrite (bind_normal _ _ _ _ _ Hdestroy).
    rewrite (bind_normal _ _ _ _ _ Hh1). rewrite (bind_normal _ _ _ _ _ Hwrite).
    reflexivity. }
  assert (Hkeep : forall u l,
            modalContent (set_timers l u) = modalContent u
            /\ modal (set_timers l u) = modal u
            /\ (noHost u -> noHost (set_timers l u))).
  { intros u l. repeat split; destruct H; assumption. }
  unfold outcome, run. rewrite display_eq, Hmodal. fold s0. rewrite bind_eq, Hupdate.
  destruct (rechecksCountdownInModal d) eqn:Hre; cbn [andb when ret].
  - rewrite countdownCheck_run, Hleft2. unfold closesItself.
    destruct (leZero (getCountdownTimeLeft s)) eqn:Hz; cbn [andb].
    + assert (Hz2 : leZero (getCountdownTimeLeft s2) = true) by (rewrite Hleft2; exact Hz).
      pose proof (countdownTimer_expired_stays s2 Hz2) as Hopen.
      pose proof (countdownTimer_expired_closes s2 Hz2) as Hclose.
      rewrite Hauto2 in Hopen, Hclose.
      destruct (truthy (opt s "closeModalAutomatically")) eqn:Hauto.
      * destruct (Hclose Hbutton2 eq_refl) as (Ho & Hno & _);
          [rewrite Hmodal2; reflexivity|].
        unfold outcome, run in Ho, Hno. destruct (countdownTimer s2) as [o s3].
        cbn [fst snd] in Ho, Hno. subst o.
        destruct (deferredStep_run d s3) as (l & ->). cbn [fst snd].
        split; [reflexivity|]. split; [intros H; discriminate H|]. intros _.
        exact (proj2 (proj2 (Hkeep s3 (timers s3 ++ l)%list)) Hno).
      * rewrite (Hopen Hbutton2 eq_refl).
        destruct (deferredStep_run d s2) as (l & ->). cbn [fst snd].
        destruct (Hkeep s2 (timers s2 ++ l)%list) as (K1 & K2 & _). rewrite K1, K2, Hmodal2.
        split; [reflexivity|]. split; [auto|intros H; discriminate H].
    + destruct (deferredStep_run d s2) as (l & ->). cbn [fst snd].
      destruct (Hkeep s2 (timers s2 ++ l)%list) as (K1 & K2 & _). rewrite K1, K2, Hmodal2.
      split; [reflexivity|]. split; [auto|intros H; discriminate H].
  - destruct (deferredStep_run d s2) as (l & ->). cbn [fst snd].
    destruct (Hkeep s2 (timers s2 ++ l)%list) as (K1 & K2 & _). rewrite K1, K2, Hmodal2.
    split; [reflexivity|]. split; [auto|intros H; discriminate H].
Qed.


(** X24.  Replacing what an open dialog shows.  Each of the nine
    display functions, called while [modal] is set and the dialog is in
    the document, writes its fragment into the wrapper of the dialog
    and returns.  Only [displayContentAdFunnel] and
    [displayContentIframe] look at the countdown afterwards: when it
    has run out and [closeModalAutomatically] is truthy they close the
    session at once; in every other case the dialog stays open and
    shows the new fragment. *)
Theorem update_of_a_modal (d : Display) (s : State) (h : Html) :
  In d guardedDisplays ->
  isSome (modal s) = true ->
  noNamedBox (document s) ->
  isSome (modalContent s) = true ->
  buildHtml d s = (Normal h, s) ->
  (rechecksCountdownInModal d = true <-> d = contentAdFunnel \/ d = contentIframe)
  /\ outcome (display d) s = Normal tt
  /\ (rechecksCountdownInModal d && closesItself s = false ->
      modalContent (run (display d) s) = Some h
      /\ modal (run (display d) s) = modal s)
  /\ (rechecksCountdownInModal d && closesItself s = true ->
      noHost (run (display d) s)).
Proof.
  intros Hd Hm Hbox Hw Hh. split.
  - clear Hh. cbn in Hd.
    repeat (destruct Hd as [<-|Hd];
            [split; [try discriminate; auto|intros [H|H]; first [reflexivity|discriminate H]]
            |]).
    destruct Hd.
  - exact (updateModal_run d s h Hd Hm Hbox Hw Hh).
Qed.

Lemma update_of_a_modal_witness :
  In contentAdV2 guardedDisplays
  /\ isSome (modal runningCountdown) = true
  /\ (fragment <$> modalContent (run (display contentAdV2) runningCountdown))
     = Some (ContentAdIframeV2 (JStr "./lib/")).
Proof.
  assert (Hin : In contentAdV2 guardedDisplays) by in_list.
  assert (Hm : isSome (modal runningCountdown) = true) by (vm_compute; reflexivity).
  assert (Hbox : noNamedBox (document runningCountdown)) by (vm_compute; reflexivity).
  assert (Hw : isSome (modalContent runningCountdown) = true) by (vm_compute; reflexivity).
  assert (Hh : buildHtml contentAdV2 runningCountdown
               = (Normal {| header := getHeaderSection runningCountdown;
                            fragment := ContentAdIframeV2 (JStr "./lib/") |},
                  runningCountdown)) by (vm_compute; reflexivity).
  split; [exact Hin|]. split; [exact Hm|].
  destruct (update_of_a_modal contentAdV2 runningCountdown _ Hin Hm Hbox Hw Hh)
    as (_ & _ & Hstay & _).
  rewrite (proj1 (Hstay eq_refl)). reflexivity.
Defined.
(** ** The mixed variants, messages and the entry point *)






Lemma hasOrigin_passes event :
  hasOrigin event ->
  negb (truthy (eventOrigin event)) && negb (isSome (originalEventOrigin event)) = false.
Proof. intros [-> | ->]; [reflexivity|apply andb_false_r]. Qed.

Lemma display_keeps_hosts_exclusive d s :
  In d guardedDisplays -> hostsExclusive s -> hostsExclusive (run (display d) s).
Proof.
  intros Hd.
  exact (proj1 (display_hosts d (buildHtml_readsOnly d Hd)
                  (fun b => buildHtml404_readsOnly d b Hd) s)).
Qed.

Lemma closePopup_keeps_hosts_exclusive s :
  hostsExclusive s -> hostsExclusive (run closePopup s).
Proof.
  intros [H|H]; [left; exact (proj1 (closePopup_shrinks s) H)
                |right; exact (proj2 (closePopup_shrinks s) H)].
Qed.

(** X26.  [receiveMessage] reads the origin of a message and never
    compares it with anything: two messages whose origin can be read
    and whose [data.type] is the same do the same, whoever sent them.
    So any frame can close the session ('closepopup' is [closePopup])
    or switch the ad.  A type the function does not know is ignored,
    and no message makes [modal] and [container] both non-null. *)
Theorem receiveMessage_trusts_every_origin (event : MessageEvent) (s : State) :
  hasOrigin event ->
  (forall other, hasOrigin other -> dataType other = dataType event ->
     receiveMessage other s = receiveMessage event s)
  /\ (dataType event = Some (JStr "closepopup") -> receiveMessage event s = closePopup s)
  /\ (forall type, dataType event = Some (JStr type) -> ~ In type messageTypes ->
        receiveMessage event s = (Normal tt, s))
  /\ (hostsExclusive s -> hostsExclusive (run (receiveMessage event) s)).
Proof.
  intros Ho. pose proof (hasOrigin_passes event Ho) as Hpass.
  split; [|split; [|split]].
  - intros other Ho' Hd. unfold receiveMessage.
    rewrite Hpass, (hasOrigin_passes other Ho'), Hd. reflexivity.
  - intros Hd. unfold receiveMessage. rewrite Hpass, Hd. reflexivity.
  - intros type Hd Hout. unfold receiveMessage. rewrite Hpass, Hd. cbn [looseEqStr].
    cbn in Hout.
    repeat match goal with
           | |- context [String.eqb type ?lit] =>
               destruct (String.eqb_spec type lit) as [->|_]; [exfalso; tauto|]
           end.
    reflexivity.
  - intros Hex. unfold run, receiveMessage. rewrite Hpass.
    destruct (dataType event) as [type|]; [|exact Hex].
    destruct (looseEqStr type "resize").
    { rewrite bind_eq. cbn [get]. destruct (hasDialogIframe (document s)); exact Hex. }
    destruct (looseEqStr type "displaybanner");
      [apply (display_keeps_hosts_exclusive bannerAd); [in_list|exact Hex]|].
    destruct (looseEqStr type "taboola");
      [apply (display_keeps_hosts_exclusive talooba); [in_list|exact Hex]|].
    destruct (looseEqStr type "contentreco");
      [apply (display_keeps_hosts_exclusive contentAd); [in_list|exact Hex]|].
    destruct (looseEqStr type "closepopup");
      [apply closePopup_keeps_hosts_exclusive; exact Hex|].
    destruct (looseEqStr type "closetaboola");
      [apply (display_keeps_hosts_exclusive contentAdFunnel); [in_list|exact Hex]|].
    exact Hex.
Qed.

Lemma receiveMessage_trusts_every_origin_witness :
  hasOrigin {| eventOrigin := JStr "http://evil.example"; originalEventOrigin := None;
               dataType := Some (JStr "closepopup") |}
  /\ noHost (run (receiveMessage
                    {| eventOrigin := JStr "http://evil.example";
                       originalEventOrigin := None;
                       dataType := Some (JStr "closepopup") |}) runningCountdown).
Proof.
  set (event := {| eventOrigin := JStr "http://evil.example"; originalEventOrigin := None;
                   dataType := Some (JStr "closepopup") |}).
  assert (Ho : hasOrigin event) by (left; reflexivity).
  split; [exact Ho|].
  unfold run.
  rewrite (proj1 (proj2 (receiveMessage_trusts_every_origin event runningCountdown Ho))
             eq_refl).
  vm_compute. split; reflexivity.
Defined.

(** ** Failing to open, and the end of the recursion *)

(** X28.  A native session that cannot be opened leaves no trace.  When
    the page lacks [#contentBoxContainer] or [#download], each display
    function called with [integration == 'native'] and no host throws
    a TypeError before anything is appended: the document and the
    queue of timeouts are as before, no countdown has been started and
    both host references are still null. *)
Theorem native_open_fails_cleanly (d : Display) (s : State) :
  In d guardedDisplays ->
  isSome (playerOptions (moduleOptions (config s))) = true ->
  noHost s ->
  looseEqStr (opt s "integration") "native" = true ->
  error404 s = false ->
  hasContentBoxContainer (document s) = false \/ hasDownload (document s) = false ->
  outcome (display d) s = Throws TypeError
  /\ document (run (display d) s) = document s
  /\ timers (run (display d) s) = timers s
  /\ adsharecountdownstart (run (display d) s) = adsharecountdownstart s
  /\ noHost (run (display d) s).
Proof.
  intros Hd Hp Hno Hn He Hpage.
  set (s0 := if resetsFallbackFlag d then set_displaysFallbackAd false s else s).
  assert (E0 : forall (A : Type) (f : State -> A),
            (forall v, f (set_displaysFallbackAd v s) = f s) -> f s0 = f s).
  { intros A f Hf. unfold s0. destruct (resetsFallbackFlag d); [apply Hf|reflexivity]. }
  destruct (buildHtml_returns d s0 Hd) as (h & Hh).
  { rewrite (E0 _ (fun s => isSome (playerOptions (moduleOptions (config s)))));
      [exact Hp|reflexivity]. }
  assert (Hfail : createHost d s0 = (Throws TypeError, s0)).
  { unfold createHost. rewrite bind_eq. cbn [get].
    rewrite (E0 _ (fun s => opt s "integration")) by reflexivity.
    rewrite Hn, (E0 _ error404) by reflexivity. rewrite He.
    assert (Hnative : createNativeHost d s0 = (Throws TypeError, s0)).
    { unfold createNativeHost. rewrite (bind_normal _ _ _ _ _ Hh).
      rewrite bind_eq. unfold createContainer. rewrite bind_eq. cbn [get].
      rewrite (E0 _ document) by reflexivity.
      destruct Hpage as [-> | ->]; [reflexivity|].
      destruct (hasContentBoxContainer (document s)); reflexivity. }
    destruct (buildHtml404 d); exact Hnative. }
  unfold outcome, run. rewrite (display_noHost_eq d s Hno). fold s0.
  rewrite bind_eq, Hfail. cbn [fst snd]. split; [reflexivity|].
  destruct Hno as [Hm Hc].
  rewrite (E0 _ document), (E0 _ timers), (E0 _ adsharecountdownstart) by reflexivity.
  unfold noHost. rewrite (E0 _ modal), (E0 _ container) by reflexivity. auto.
Qed.

Lemma native_open_fails_cleanly_witness :
  outcome (display talooba)
    (run (adshareModal (OptsObject wantsNative))
       (loaded (StorageItems ∅) None "en-US" pageWithoutDownload 1000))
  = Throws TypeError.
Proof.
  apply (native_open_fails_cleanly talooba); [in_list|vm_compute; reflexivity
    |vm_compute; split; reflexivity|vm_compute; reflexivity|vm_compute; reflexivity
    |right; vm_compute; reflexivity].
Defined.

Lemma agrees_refl m : agrees m m.
Proof. intros s _. reflexivity. Qed.

Lemma agrees_bind (m m' : M unit) (k k' : unit -> M unit) :
  agrees m m' -> (forall a, agrees (k a) (k' a)) -> agrees (bind m k) (bind m' k').
Proof.
  intros Hm Hk s. rewrite !bind_eq. intros H.
  rewrite (Hm s).
  - destruct (m s) as [[a|e] s1]; [apply Hk; exact H|reflexivity].
  - intros E. apply H. destruct (m s) as [o s1]. cbn in E. subst o. reflexivity.
Qed.

Lemma agrees_bind_same {A} (m : M A) (k k' : A -> M unit) :
  (forall a, agrees (k a) (k' a)) -> agrees (bind m k) (bind m k').
Proof.
  intros Hk s. rewrite !bind_eq. intros H.
  destruct (m s) as [[a|e] s1]; [apply Hk; exact H|reflexivity].
Qed.

Lemma agrees_tryCatch m m' : agrees m m' -> agrees (tryCatch m) (tryCatch m').
Proof.
  intros Hm s H. unfold tryCatch in *. rewrite (Hm s); [reflexivity|].
  intros E. apply H. destruct (m s) as [o s1]. cbn in E. subst o. reflexivity.
Qed.

Lemma closePopupFuel_more fuel : agrees (closePopupFuel fuel) (closePopupFuel (S fuel)).
Proof.
  induction fuel as [|fuel IH]; [intros s H; destruct (H eq_refl)|].
  change (closePopupFuel (S (S fuel)))
    with (destroyVideoJsPlayer false;; closePopupRest (S fuel)).
  change (closePopupFuel (S fuel))
    with (destroyVideoJsPlayer false;; closePopupRest fuel).
  apply agrees_bind_same. intros _. unfold closePopupRest.
  apply agrees_bind_same. intros s0.
  apply agrees_bind; [|intros ?; apply agrees_refl].
  destruct (modal s0); [|apply agrees_refl].
  apply agrees_tryCatch.
  apply agrees_bind_same. intros _. apply agrees_bind_same. intros _.
  apply agrees_bind_same. intros _. apply agrees_tryCatch.
  apply agrees_bind; [exact IH|intros ?; apply agrees_refl].
Qed.

Lemma closePopupFuel_any_more fuel k :
  agrees (closePopupFuel fuel) (closePopupFuel (k + fuel)).
Proof.
  induction k as [|k IH]; [apply agrees_refl|].
  intros s H. cbn [Nat.add]. rewrite <- (IH s H). apply closePopupFuel_more.
  rewrite (IH s H). exact H.
Qed.

(** X29.  The recursion between [closePopup] and the [afterClose] hook
    of the dialog ends.  Each nested call follows the removal of a
    dialog node, so a session is closed after at most as many nested
    calls as the document has [.pico-content] nodes, plus two: the
    bound put on the recursion is never reached, by [closePopup] or by
    any timer callback, and a larger bound gives the same outcome and
    the same state. *)
Theorem closePopup_recursion_ends (s : State) :
  outcome closePopup s <> Throws OutOfFuel
  /\ (forall cb, outcome (fire cb) s <> Throws OutOfFuel)
  /\ (forall fuel, (length (picoNodes (document s)) + 2 <= fuel)%nat ->
        closePopupFuel fuel s = closePopup s).
Proof.
  split; [exact (closePopup_inBound s)|]. split; [intros cb; exact (fire_inBound cb s)|].
  intros fuel Hfuel.
  replace fuel with ((fuel - (length (picoNodes (document s)) + 2))
                     + (length (picoNodes (document s)) + 2))%nat by lia.
  apply closePopupFuel_any_more. exact (closePopup_inBound s).
Qed.

Lemma closePopup_recursion_ends_witness :
  (length (picoNodes (document runningCountdown)) + 2 <= 10)%nat
  /\ closePopupFuel 10 runningCountdown = closePopup runningCountdown.
Proof.
  assert (H : (length (picoNodes (document runningCountdown)) + 2 <= 10)%nat)
    by (vm_compute; lia).
  split; [exact H|].
  exact (proj2 (proj2 (closePopup_recursion_ends runningCountdown)) 10%nat H).
Defined.

(** ** The two schedulers *)

Lemma oneAtATime_reachable p : reachable p -> oneAtATime (snd p).
Proof.
  induction 1 as [s|s s' w _ IH|[s w] _ IH|[s w] _ IH|i [s w] _ IH]; cbn [snd] in *.
  - unfold oneAtATime. cbn. repeat split; auto; intros [].
  - exact IH.
  - unfold scheduleAnotherAd.
    destruct (closingOfPopupScheduled w) eqn:Hc, (anotherAdScheduled w) eqn:Ha;
      cbn [negb andb snd]; try exact IH.
    destruct IH as (_ & _ & _ & _ & Hnone). rewrite (Hnone Hc Ha).
    unfold oneAtATime. cbn. rewrite ?Hc.
    repeat split; auto; try (intros [H|[]]; discriminate H); intros; congruence.
  - unfold scheduleClosingOfPopup.
    destruct (closingOfPopupScheduled w) eqn:Hc, (anotherAdScheduled w) eqn:Ha;
      cbn [negb andb snd]; try exact IH.
    destruct (isSome (modal s) && truthy (opt s "closeModalAutomatically"));
      cbn [snd]; [|exact IH].
    destruct IH as (_ & _ & _ & _ & Hnone). rewrite (Hnone Hc Ha).
    unfold oneAtATime. cbn. rewrite ?Ha.
    repeat split; auto; try (intros [H|[]]; discriminate H); intros; congruence.
  - unfold expireScheduled. cbn [fst snd].
    destruct IH as (Hex & Hlen & Han & Hcl & Hnone).
    destruct (scheduledCalls w) as [|c [|c' l]] eqn:Hcalls; [| |cbn in Hlen; lia].
    + destruct i; cbn; unfold oneAtATime; rewrite Hcalls; auto 10.
    + destruct i as [|[|i]]; cbn [lookup list_lookup];
        [|cbn; unfold oneAtATime; rewrite Hcalls; auto 10..].
      cbn [delete list_delete runScheduled].
      destruct c.
      * specialize (Han (or_introl eq_refl)). rewrite Han in Hex.
        rewrite andb_true_r in Hex.
        destruct (displayAd s) as [[[]|e] s']; cbn [snd]; unfold oneAtATime; cbn;
          rewrite ?Hex, ?Han; repeat split; auto; try (intros []); intros; congruence.
      * specialize (Hcl (or_introl eq_refl)). rewrite Hcl in Hex. cbn in Hex.
        destruct (closePopup s) as [[[]|e] s']; cbn [snd]; unfold oneAtATime; cbn;
          rewrite ?Hex, ?Hcl; repeat split; auto; try (intros []); intros; congruence.
Qed.

(** X30.  The two schedulers exclude each other.  On every page that
    can be reached, [closingOfPopupScheduled] and [anotherAdScheduled]
    are not both set, at most one scheduled call is pending, and a
    pending call has its flag set.  The flag is reset by the scheduled
    function after its call; when the scheduled [displayAd] throws, the
    reset is skipped, [anotherAdScheduled] stays set with nothing
    pending, and from then on neither scheduler schedules anything. *)
Theorem schedulers_exclude_each_other (p : Page) :
  reachable p ->
  oneAtATime (snd p)
  /\ (forall e s', scheduledCalls (snd p) = [AnotherAd] ->
        displayAd (fst p) = (Throws e, s') ->
        let p' := snd (expireScheduled 0 p) in
        anotherAdScheduled (snd p') = true
        /\ scheduledCalls (snd p') = []
        /\ (forall s, scheduleAnotherAd (s, snd p') = (s, snd p')
                      /\ scheduleClosingOfPopup (s, snd p') = (s, snd p'))).
Proof.
  intros Hp. pose proof (oneAtATime_reachable p Hp) as Hone.
  split; [exact Hone|]. destruct p as [s w]. cbn [fst snd] in *.
  intros e s' Hcalls Hthrow. destruct Hone as (Hex & _ & Han & _).
  rewrite Hcalls in Han. specialize (Han (or_introl eq_refl)).
  unfold expireScheduled. cbn [fst snd]. rewrite Hcalls. cbn [lookup list_lookup].
  cbn [runScheduled delete list_delete]. rewrite Hthrow. cbn [snd].
  split; [exact Han|]. split; [reflexivity|].
  intros s0. unfold scheduleAnotherAd, scheduleClosingOfPopup. cbn. rewrite Han.
  rewrite !andb_false_r. split; reflexivity.
Qed.

Lemma schedulers_exclude_each_other_witness :
  reachable (scheduleAnotherAd (configured, nothingScheduled))
  /\ oneAtATime (snd (scheduleAnotherAd (configured, nothingScheduled)))
  /\ scheduleClosingOfPopup (scheduleAnotherAd (runningCountdown, nothingScheduled))
     = scheduleAnotherAd (runningCountdown, nothingScheduled).
Proof.
  assert (H : reachable (scheduleAnotherAd (configured, nothingScheduled)))
    by (apply reach_another, reach_loaded).
  split; [exact H|]. split; [exact (proj1 (schedulers_exclude_each_other _ H))|].
  reflexivity.
Defined.
